(** * ChromaDB export script: a shallow embedding of [scripts/export_chromadb.py]

    The script reads every collection of a ChromaDB store, converts each
    document to the ConversationChunk layout and writes the result as one
    JSON file.  This development embeds the script's functions
    ([convert_to_conversation_chunk], [export_collection], [export_all],
    [get_export_metadata], [save_to_file]) together with the pieces of
    the Python runtime they call ([dict.get], [len], subscripting,
    [datetime.fromtimestamp], [datetime.fromisoformat], [isoformat],
    [json.dump]) and proves the properties the specification states
    about them. *)

From Stdlib Require Import ZArith List String Ascii Bool Lia.
From Stdlib Require Import DecimalString.
From Stdlib Require DecimalFacts DecimalPos DecimalN.
From Corelib Require Import SpecFloat.
Import ListNotations.

Local Open Scope string_scope.
Local Open Scope Z_scope.

(* ===================================================================== *)
(** * Python values, exceptions and the builtins the script uses *)
(* ===================================================================== *)

Module Py.

(** The exception classes that can reach the script's handlers.  All of
    them derive from [Exception], so [except Exception] and the bare
    [except:] both catch every one of them.  [StoreError] stands for
    whatever the ChromaDB client raises. *)
Inductive exn : Set :=
| AttributeError | TypeError | KeyError | IndexError
| ValueError | OverflowError | OSError | StoreError.

Inductive result (A : Type) : Type :=
| Ok (a : A)
| Raise (e : exn).
Arguments Ok {A} a.
Arguments Raise {A} e.

Definition is_ok {A} (r : result A) : bool :=
  match r with Ok _ => true | Raise _ => false end.

Definition rbind {A B} (r : result A) (k : A -> result B) : result B :=
  match r with Ok a => k a | Raise e => Raise e end.

(** A Python [float] is an IEEE-754 binary64 number. *)
Definition prec : Z := 53.
Definition emax : Z := 1024.
Definition pyfloat := spec_float.

(** The JSON-like universe of values the store hands out and the script
    builds: [None], [bool], [int], [float], [str], [list] and [dict]
    with [str] keys (kept in insertion order, as Python dicts are). *)
#[warnings="-register-all"]
Inductive value : Type :=
| VNone
| VBool (b : bool)
| VInt (n : Z)
| VFloat (x : pyfloat)
| VStr (s : string)
| VList (xs : list value)
| VDict (kvs : list (string * value)).

(** Induction over values that reaches the items of a list and the
    values of a dict. *)
Fixpoint value_ind_nested (P : value -> Prop)
    (HN : P VNone) (HB : forall b, P (VBool b)) (HI : forall n, P (VInt n))
    (HF : forall x, P (VFloat x)) (HS : forall s, P (VStr s))
    (HL : forall xs, Forall P xs -> P (VList xs))
    (HD : forall kvs, Forall (fun kv => P (snd kv)) kvs -> P (VDict kvs))
    (v : value) {struct v} : P v :=
  match v with
  | VNone => HN
  | VBool b => HB b
  | VInt n => HI n
  | VFloat x => HF x
  | VStr s => HS s
  | VList xs =>
      HL xs ((fix go (l : list value) : Forall P l :=
                match l with
                | [] => Forall_nil P
                | x :: r =>
                    Forall_cons x (value_ind_nested P HN HB HI HF HS HL HD x) (go r)
                end) xs)
  | VDict kvs =>
      HD kvs ((fix go (l : list (string * value))
                 : Forall (fun kv => P (snd kv)) l :=
                 match l with
                 | [] => Forall_nil _
                 | kv :: r =>
                     Forall_cons kv
                       (value_ind_nested P HN HB HI HF HS HL HD (snd kv)) (go r)
                 end) kvs)
  end.

(** First binding of a key in an item list. *)
Fixpoint assoc {A} (k : string) (kvs : list (string * A)) : option A :=
  match kvs with
  | [] => None
  | (k', v) :: rest => if String.eqb k k' then Some v else assoc k rest
  end.

Definition is_zero_float (x : pyfloat) : bool :=
  match x with S754_zero _ => true | _ => false end.

(** Truth value of an object, as [or] and [if] test it. *)
Definition truthy (v : value) : bool :=
  match v with
  | VNone => false
  | VBool b => b
  | VInt n => negb (n =? 0)
  | VFloat x => negb (is_zero_float x)
  | VStr s => negb (String.eqb s "")
  | VList xs => match xs with [] => false | _ => true end
  | VDict kvs => match kvs with [] => false | _ => true end
  end.

(** [x or d] *)
Definition py_or (x d : value) : value := if truthy x then x else d.

(** [obj.get(key, default)]: only a dict has the method. *)
Definition get (obj : value) (key : string) (default : value) : result value :=
  match obj with
  | VDict kvs => Ok (match assoc key kvs with Some v => v | None => default end)
  | _ => Raise AttributeError
  end.

(** [obj.items()], as the list a comprehension iterates over. *)
Definition items (obj : value) : result (list (string * value)) :=
  match obj with
  | VDict kvs => Ok kvs
  | _ => Raise AttributeError
  end.

(** [len(obj)] *)
Definition len (obj : value) : result nat :=
  match obj with
  | VStr s => Ok (String.length s)
  | VList xs => Ok (List.length xs)
  | VDict kvs => Ok (List.length kvs)
  | _ => Raise TypeError
  end.

(** [obj[key]] for a [str] key. *)
Definition getitem (obj : value) (key : string) : result value :=
  match obj with
  | VDict kvs => match assoc key kvs with Some v => Ok v | None => Raise KeyError end
  | _ => Raise TypeError
  end.

(** [obj[i]] for an index [i >= 0]. *)
Definition getindex (obj : value) (i : nat) : result value :=
  match obj with
  | VList xs => match nth_error xs i with Some v => Ok v | None => Raise IndexError end
  | VStr s => match String.get i s with
              | Some c => Ok (VStr (String c ""))
              | None => Raise IndexError
              end
  | VDict _ => Raise KeyError
  | _ => Raise TypeError
  end.

(** [isinstance(v, (int, float))]; [bool] is a subclass of [int]. *)
Definition is_number (v : value) : bool :=
  match v with VBool _ | VInt _ | VFloat _ => true | _ => false end.

Definition is_str (v : value) : bool :=
  match v with VStr _ => true | _ => false end.

End Py.

(* ===================================================================== *)
(** * The [datetime] routines the script calls *)
(* ===================================================================== *)

Module DateTime.
Import Py.

(** A naive [datetime] object. *)
Record datetime : Set := mk_datetime {
  year : Z; month : Z; day : Z;
  hour : Z; minute : Z; second : Z; microsecond : Z
}.

Definition MINYEAR : Z := 1.
Definition MAXYEAR : Z := 9999.

(** ** Proleptic Gregorian calendar (CPython's [_is_leap],
    [_days_before_year], [_days_in_month], [_days_before_month],
    [_ymd2ord] and [_ord2ymd]) *)

Definition is_leap (y : Z) : bool :=
  (y mod 4 =? 0) && (negb (y mod 100 =? 0) || (y mod 400 =? 0)).

Definition days_before_year (y : Z) : Z :=
  let y := y - 1 in y * 365 + y / 4 - y / 100 + y / 400.

Definition DAYS_IN_MONTH (m : Z) : Z :=
  match m with
  | 1 => 31 | 2 => 28 | 3 => 31 | 4 => 30 | 5 => 31 | 6 => 30
  | 7 => 31 | 8 => 31 | 9 => 30 | 10 => 31 | 11 => 30 | 12 => 31
  | _ => -1
  end.

Definition DAYS_BEFORE_MONTH (m : Z) : Z :=
  match m with
  | 1 => 0 | 2 => 31 | 3 => 59 | 4 => 90 | 5 => 120 | 6 => 151
  | 7 => 181 | 8 => 212 | 9 => 243 | 10 => 273 | 11 => 304 | 12 => 334
  | _ => -1
  end.

Definition days_in_month (y m : Z) : Z :=
  if (m =? 2) && is_leap y then 29 else DAYS_IN_MONTH m.

Definition days_before_month (y m : Z) : Z :=
  DAYS_BEFORE_MONTH m + (if (2 <? m) && is_leap y then 1 else 0).

Definition ymd2ord (y m d : Z) : Z :=
  days_before_year y + days_before_month y m + d.

Definition DI400Y : Z := Eval cbv in days_before_year 401.
Definition DI100Y : Z := Eval cbv in days_before_year 101.
Definition DI4Y : Z := Eval cbv in days_before_year 5.

Definition ord2ymd (ordinal : Z) : Z * Z * Z :=
  let n := ordinal - 1 in
  let n400 := n / DI400Y in let n := n mod DI400Y in
  let y := n400 * 400 + 1 in
  let n100 := n / DI100Y in let n := n mod DI100Y in
  let n4 := n / DI4Y in let n := n mod DI4Y in
  let n1 := n / 365 in let n := n mod 365 in
  let y := y + (n100 * 100 + n4 * 4 + n1) in
  if (n1 =? 4) || (n100 =? 4) then (y - 1, 12, 31)
  else
    let leapyear := (n1 =? 3) && (negb (n4 =? 24) || (n100 =? 3)) in
    let m := Z.shiftr (n + 50) 5 in
    let preceding := DAYS_BEFORE_MONTH m + (if (2 <? m) && leapyear then 1 else 0) in
    if n <? preceding then
      let m := m - 1 in
      let preceding :=
        preceding - (DAYS_IN_MONTH m + (if (m =? 2) && leapyear then 1 else 0)) in
      (y, m, n - preceding + 1)
    else (y, m, n - preceding + 1).

(** Ordinal of 1970-01-01, day zero of the Unix epoch. *)
Definition EPOCH_ORD : Z := Eval cbv in ymd2ord 1970 1 1.

(** The C library's [gmtime]: seconds since the epoch to broken-down
    UTC time. *)
Definition gmtime (t : Z) : datetime :=
  let '(y, m, d) := ord2ymd (EPOCH_ORD + t / 86400) in
  let r := t mod 86400 in
  mk_datetime y m d (r / 3600) (r mod 3600 / 60) (r mod 60) 0.

(** Seconds since the epoch of a broken-down time read as UTC
    ([utc_to_seconds] without its range check). *)
Definition timegm (dt : datetime) : Z :=
  (ymd2ord (year dt) (month dt) (day dt) - EPOCH_ORD) * 86400
  + hour dt * 3600 + minute dt * 60 + second dt.

(** Field ranges a [datetime] object must satisfy. *)
Definition valid_date (y m d : Z) : bool :=
  (MINYEAR <=? y) && (y <=? MAXYEAR) && (1 <=? m) && (m <=? 12)
  && (1 <=? d) && (d <=? days_in_month y m).

Definition valid_time (h mi s us : Z) : bool :=
  (0 <=? h) && (h <=? 23) && (0 <=? mi) && (mi <=? 59)
  && (0 <=? s) && (s <=? 59) && (0 <=? us) && (us <=? 999999).

Definition valid_datetime (dt : datetime) : bool :=
  valid_date (year dt) (month dt) (day dt)
  && valid_time (hour dt) (minute dt) (second dt) (microsecond dt).

(** The calendar reading of an instant: [dt] is a date of the
    Gregorian calendar and a time of day that lie [seconds] seconds
    and [us] microseconds after 1970-01-01T00:00:00. *)
Definition is_calendar_time (dt : datetime) (seconds us : Z) : Prop :=
  MINYEAR <= year dt <= MAXYEAR
  /\ 1 <= month dt <= 12
  /\ 1 <= day dt <= days_in_month (year dt) (month dt)
  /\ 0 <= hour dt <= 23 /\ 0 <= minute dt <= 59 /\ 0 <= second dt <= 59
  /\ timegm dt = seconds
  /\ microsecond dt = us.

(** 0001-01-01T00:00:00 and 9999-12-31T23:59:59 in seconds since the
    epoch. *)
Definition MIN_SECONDS : Z := -62135596800.
Definition MAX_SECONDS : Z := 253402300799.

(** Instants far enough from both ends of the calendar for the
    conversion to local time, and its probes up to a day back, to stay
    inside it whatever the zone. *)
Definition convertible (timet : Z) : Prop :=
  MIN_SECONDS + 3 * 86400 <= timet <= MAX_SECONDS - 86400.

(** ** From a Python number to seconds and microseconds
    ([_PyTime_ObjectToTimeval] with [_PyTime_ROUND_HALF_EVEN]) *)

Definition TIME_T_MIN : Z := - 2 ^ 63.
Definition TIME_T_MAX : Z := 2 ^ 63 - 1.
Definition INT_MIN : Z := - 2 ^ 31.
Definition INT_MAX : Z := 2 ^ 31 - 1.

Definition in_time_t (t : Z) : bool := (TIME_T_MIN <=? t) && (t <=? TIME_T_MAX).

Definition float_1e6 : pyfloat :=
  Eval cbv in binary_normalize prec emax 1000000 0 false.

(** C's [modf] on a finite double: the integral part, exactly, and
    the fractional part as a double of the same sign.  [None] stands
    for an infinity or a NaN. *)
Definition modf (x : pyfloat) : option (Z * pyfloat) :=
  match x with
  | S754_zero s => Some (0, S754_zero s)
  | S754_finite s m e =>
      let v := cond_Zopp s (Zpos m) in
      if 0 <=? e then Some (v * 2 ^ e, S754_zero s)
      else Some (Z.quot v (2 ^ (- e)),
                 binary_normalize prec emax (Z.rem v (2 ^ (- e))) e s)
  | _ => None
  end.

(** [pytime_round_half_even], the result read as an integer. *)
Definition round_half_even (x : pyfloat) : Z :=
  match x with
  | S754_finite s m e =>
      cond_Zopp s
        (if 0 <=? e then Zpos m * 2 ^ e
         else
           let p := 2 ^ (- e) in
           let q := Zpos m / p in
           match (2 * (Zpos m mod p)) ?= p with
           | Lt => q
           | Gt => q + 1
           | Eq => if Z.even q then q else q + 1
           end)
  | _ => 0
  end.

(** [pytime_double_to_denominator] with denominator [1e6]. *)
Definition double_to_timeval (x : pyfloat) : result (Z * Z) :=
  match modf x with
  | None => Raise OverflowError
  | Some (intpart, frac) =>
      let floatpart := round_half_even (SFmul prec emax frac float_1e6) in
      let '(intpart, floatpart) :=
        if 1000000 <=? floatpart then (intpart + 1, floatpart - 1000000)
        else if floatpart <? 0 then (intpart - 1, floatpart + 1000000)
        else (intpart, floatpart) in
      if in_time_t intpart then Ok (intpart, floatpart) else Raise OverflowError
  end.

(** [_PyTime_ObjectToTimeval] on the numbers [isinstance(_, (int, float))]
    lets through. *)
Definition object_to_timeval (v : value) : result (Z * Z) :=
  match v with
  | VFloat S754_nan => Raise ValueError
  | VFloat x => double_to_timeval x
  | VInt n => if in_time_t n then Ok (n, 0) else Raise OverflowError
  | VBool b => Ok (if b then 1 else 0, 0)
  | _ => Raise TypeError
  end.

(** ** Local time *)

Section LocalTime.

(** The time zone of the process: the offset from UTC, in seconds, in
    force at a given instant. *)
Variable utcoffset : Z -> Z.

(** [_PyTime_localtime]: the C library fails when the year does not
    fit [tm_year]. *)
Definition localtime (t : Z) : result datetime :=
  let dt := gmtime (t + utcoffset t) in
  if (INT_MIN <=? year dt - 1900) && (year dt - 1900 <=? INT_MAX)
  then Ok dt else Raise OSError.

(** [utc_to_seconds]: seconds since 0001-01-01 (ordinal 0), refusing
    years a [datetime] cannot hold. *)
Definition utc_to_seconds (dt : datetime) : result Z :=
  if (year dt <? MINYEAR) || (MAXYEAR <? year dt) then Raise ValueError
  else Ok (((ymd2ord (year dt) (month dt) (day dt) * 24 + hour dt) * 60
            + minute dt) * 60 + second dt).

Definition epoch : Z := EPOCH_ORD * 24 * 60 * 60.
Definition max_fold_seconds : Z := 24 * 3600.

(** [local(u)] *)
Definition local (u : Z) : result Z :=
  let t := u - epoch in
  if in_time_t t then rbind (localtime t) utc_to_seconds
  else Raise OverflowError.

(** [datetime_from_timet_and_us] for a naive local result; the fold
    probes are kept because they can raise. *)
Definition from_timet_and_us (timet us : Z) : result datetime :=
  rbind (localtime timet) (fun tm =>
  let dt := mk_datetime (year tm) (month tm) (day tm) (hour tm) (minute tm)
                        (Z.min 59 (second tm)) us in
  rbind (utc_to_seconds dt) (fun result_seconds =>
  rbind (local (epoch + timet - max_fold_seconds)) (fun probe_seconds =>
  let transition := result_seconds - probe_seconds - max_fold_seconds in
  if transition <? 0 then
    rbind (local (epoch + timet + transition)) (fun _ => Ok dt)
  else Ok dt))).

(** [datetime.fromtimestamp(timestamp)] *)
Definition fromtimestamp (timestamp : value) : result datetime :=
  rbind (object_to_timeval timestamp) (fun '(timet, us) =>
  from_timet_and_us timet us).

End LocalTime.

(** ** Rendering: [isoformat] *)

Definition string_of_nonneg (n : Z) : string :=
  NilZero.string_of_uint (N.to_uint (Z.to_N n)).

Fixpoint zeros (k : nat) : string :=
  match k with O => "" | S k' => String "0" (zeros k') end.

Definition zfill (w : nat) (s : string) : string :=
  zeros (w - String.length s) ++ s.

(** C's [%0wd] conversion. *)
Definition fmt_0d (w : nat) (n : Z) : string :=
  if n <? 0 then String "-" (zfill (w - 1) (string_of_nonneg (- n)))
  else zfill w (string_of_nonneg n).

(** [datetime.isoformat()] of a naive datetime, with the default
    separator and [timespec='auto']. *)
Definition isoformat (dt : datetime) : string :=
  fmt_0d 4 (year dt) ++ "-" ++ fmt_0d 2 (month dt) ++ "-" ++ fmt_0d 2 (day dt)
  ++ "T" ++ fmt_0d 2 (hour dt) ++ ":" ++ fmt_0d 2 (minute dt)
  ++ ":" ++ fmt_0d 2 (second dt)
  ++ (if microsecond dt =? 0 then "" else "." ++ fmt_0d 6 (microsecond dt)).

(** ** Parsing: [datetime.fromisoformat]

    The routine of CPython 3.7 to 3.10, which reads
    [YYYY-MM-DD[*HH[:MM[:SS[.fff[fff]]]][+HH:MM[:SS[.ffffff]]]]];
    later versions accept these strings too.  The string is scanned by
    position, a position past the end reading as NUL as it does in the
    C buffer. *)

Definition NUL : ascii := "000"%char.

Definition char_at (s : string) (p : nat) : ascii :=
  match String.get p s with Some c => c | None => NUL end.

Definition is_digit (c : ascii) : bool :=
  ((48 <=? N_of_ascii c) && (N_of_ascii c <=? 57))%N.

Definition digit_val (c : ascii) : Z := Z.of_N (N_of_ascii c) - 48.

(** [parse_digits]: exactly [n] decimal digits from position [p]. *)
Fixpoint parse_digits (s : string) (p : nat) (n : nat) (acc : Z) : option (nat * Z) :=
  match n with
  | O => Some (p, acc)
  | S n' =>
      let c := char_at s p in
      if is_digit c then parse_digits s (S p) n' (acc * 10 + digit_val c)
      else None
  end.

(** [parse_isoformat_date]: [YYYY-MM-DD] at position 0. *)
Definition parse_isoformat_date (s : string) : option (Z * Z * Z) :=
  match parse_digits s 0 4 0 with
  | None => None
  | Some (p, y) =>
      if negb (Ascii.eqb (char_at s p) "-") then None else
      match parse_digits s (S p) 2 0 with
      | None => None
      | Some (p, m) =>
          if negb (Ascii.eqb (char_at s p) "-") then None else
          match parse_digits s (S p) 2 0 with
          | None => None
          | Some (_, d) => Some (y, m, d)
          end
      end
  end.

(** The loop of [parse_hh_mm_ss_ff] over hour, minute and second, with
    [k] fields left.  The code is the C return value, or [2] when the
    fraction is to be read next. *)
Fixpoint parse_hms (s : string) (p p_end : nat) (k : nat) (acc : list Z)
  : Z * nat * list Z :=
  match k with
  | O => (2, p, acc)
  | S k' =>
      match parse_digits s p 2 0 with
      | None => (-3, p, acc)
      | Some (p1, v) =>
          let c := char_at s p1 in
          let p2 := S p1 in
          if (p_end <=? p2)%nat
          then ((if Ascii.eqb c NUL then 0 else 1), p2, (acc ++ [v])%list)
          else if Ascii.eqb c ":" then parse_hms s p2 p_end k' ((acc ++ [v])%list)
          else if Ascii.eqb c "." then (2, p2, (acc ++ [v])%list)
          else (-4, p2, (acc ++ [v])%list)
      end
  end.

(** [parse_hh_mm_ss_ff] between [p] and [p_end]: the return code and
    hour, minute, second, microsecond. *)
Definition parse_hh_mm_ss_ff (s : string) (p p_end : nat) : Z * (Z * Z * Z * Z) :=
  let '(rv, p, vals) := parse_hms s p p_end 3 [] in
  let h := nth 0 vals 0 in
  let mi := nth 1 vals 0 in
  let sec := nth 2 vals 0 in
  if negb (rv =? 2) then (rv, (h, mi, sec, 0))
  else
    let len_remains := (p_end - p)%nat in
    if negb ((len_remains =? 6)%nat || (len_remains =? 3)%nat)
    then (-3, (h, mi, sec, 0))
    else
      match parse_digits s p len_remains 0 with
      | None => (-3, (h, mi, sec, 0))
      | Some (p', us) =>
          let us := if (len_remains =? 3)%nat then us * 1000 else us in
          ((if Ascii.eqb (char_at s p') NUL then 0 else 1), (h, mi, sec, us))
      end.

(** The scan for the sign that opens the UTC offset: a do-while loop,
    so it stops one past [p] at the least. *)
Fixpoint find_tz (s : string) (p p_end : nat) (fuel : nat) : nat :=
  match fuel with
  | O => p
  | S fuel' =>
      let c := char_at s p in
      if Ascii.eqb c "+" || Ascii.eqb c "-" then p
      else if (S p <? p_end)%nat then find_tz s (S p) p_end fuel'
      else S p
  end.

(** [parse_isoformat_time] on the [len] characters from [p]: the
    return code, the time fields, and the UTC offset in seconds and
    microseconds. *)
Definition parse_isoformat_time (s : string) (p len : nat)
  : Z * (Z * Z * Z * Z) * (Z * Z) :=
  let p_end := (p + len)%nat in
  let tzinfo_pos := find_tz s p p_end (S len) in
  let '(rv, t) := parse_hh_mm_ss_ff s p tzinfo_pos in
  if rv <? 0 then (rv, t, (0, 0))
  else if (tzinfo_pos =? p_end)%nat then ((if rv =? 1 then -5 else 0), t, (0, 0))
  else
    let tzlen := (p_end - tzinfo_pos)%nat in
    if negb ((tzlen =? 6)%nat || (tzlen =? 9)%nat || (tzlen =? 16)%nat)
    then (-5, t, (0, 0))
    else
      let tzsign := if Ascii.eqb (char_at s tzinfo_pos) "-" then -1 else 1 in
      let '(rv, (tzh, tzm, tzs, tzus)) := parse_hh_mm_ss_ff s (S tzinfo_pos) p_end in
      ((if rv =? 0 then 1 else -5), t,
       (tzsign * (tzh * 3600 + tzm * 60 + tzs), tzsign * tzus)).

(** [new_timezone] accepts an offset strictly between -24 and +24
    hours. *)
Definition valid_utcoffset (seconds us : Z) : bool :=
  let total := seconds * 1000000 + us in
  (- 86400000000 <? total) && (total <? 86400000000).

(** [datetime.fromisoformat(s)].  Only the naive fields are returned:
    the script discards the result and none of its callers reads the
    offset. *)
Definition fromisoformat (s : string) : result datetime :=
  match parse_isoformat_date s with
  | None => Raise ValueError
  | Some (y, m, d) =>
      let len := String.length s in
      let '(rv, (h, mi, sec, us), (tzoffset, tzus)) :=
        if (10 <? len)%nat then parse_isoformat_time s 11 (len - 11)
        else (0, (0, 0, 0, 0), (0, 0)) in
      if rv <? 0 then Raise ValueError
      else if (rv =? 1) && negb (tzoffset =? 0) && negb (valid_utcoffset tzoffset tzus)
      then Raise ValueError
      else if valid_date y m d && valid_time h mi sec us
      then Ok (mk_datetime y m d h mi sec us)
      else Raise ValueError
  end.

(** [s.replace(old, new)] for a one-character [old]. *)
Fixpoint replace (old : ascii) (new : string) (s : string) : string :=
  match s with
  | EmptyString => EmptyString
  | String c rest =>
      if Ascii.eqb c old then new ++ replace old new rest
      else String c (replace old new rest)
  end.

(** The probe as the specification words it: the string is parsed as
    it stands, except that a [Z] in last position is read as the UTC
    offset. *)
Fixpoint replace_trailing_Z (s : string) : string :=
  match s with
  | EmptyString => EmptyString
  | String c EmptyString => if Ascii.eqb c "Z" then "+00:00" else s
  | String c rest => String c (replace_trailing_Z rest)
  end.

Definition parses_with_trailing_Z (s : string) : bool :=
  is_ok (fromisoformat (replace_trailing_Z s)).

End DateTime.

(* ===================================================================== *)
(** * The exporter: [class ChromaDBExporter] *)
(* ===================================================================== *)

Module Exporter.
Import Py DateTime.

(** [self.stats] *)
Record Stats : Set := mk_stats {
  collections : Z;
  total_documents : Z;
  exported_chunks : Z;
  errors : Z
}.

(** What a run changes: the counters of the exporter object, and how
    many times the wall clock has been read. *)
Record exporter : Set := mk_exporter {
  stats : Stats;
  clock_reads : nat
}.

(** [__init__] *)
Definition init : exporter := mk_exporter (mk_stats 0 0 0 0) 0.

(** The inner ["metadata"] dict of a chunk. *)
Record chunk_metadata : Type := mk_chunk_metadata {
  repository : value;
  branch : value;
  files_modified : value;
  tools_used : value;
  outcome : value;
  tags : value;
  difficulty : value;
  extended_metadata : list (string * value)
}.

(** The dict [convert_to_conversation_chunk] returns. *)
Record chunk : Type := mk_chunk {
  id : value;
  session_id : value;
  timestamp : value;
  type : value;
  content : value;
  summary : value;
  metadata : chunk_metadata;
  embeddings : value;
  related_chunks : value
}.

(** A reference to a counters dict.  A run has one such object,
    [self.stats], and it is mutated in place. *)
Inductive stats_ref : Set := SelfStats.

Definition deref (self : exporter) (r : stats_ref) : Stats :=
  match r with SelfStats => stats self end.

(** The dict [get_export_metadata] returns.  Its ["stats"] entry is
    [self.stats] itself, not a copy. *)
Record export_metadata : Set := mk_export_metadata {
  export_timestamp : string;
  source : string;
  source_path : string;
  target_format : string;
  version : string;
  summary_stats : stats_ref
}.

(** The dict [export_all] returns. *)
Record envelope : Type := mk_envelope {
  chunks : list chunk;
  envelope_metadata : export_metadata
}.

(** ** Computations over the exporter's state that may raise *)

Definition M (A : Type) : Type := exporter -> result A * exporter.

Definition ret {A} (a : A) : M A := fun self => (Ok a, self).

Definition bind {A B} (c : M A) (k : A -> M B) : M B :=
  fun self =>
    match c self with
    | (Ok a, self') => k a self'
    | (Raise e, self') => (Raise e, self')
    end.

Definition lift {A} (r : result A) : M A := fun self => (r, self).

(** [try: c  except Exception: h] *)
Definition try_except {A} (c : M A) (h : exn -> M A) : M A :=
  fun self =>
    match c self with
    | (Ok a, self') => (Ok a, self')
    | (Raise e, self') => h e self'
    end.

Definition modify_stats (f : Stats -> Stats) : M unit :=
  fun self => (Ok tt, mk_exporter (f (stats self)) (clock_reads self)).

Declare Scope py_scope.
Delimit Scope py_scope with py.
Notation "x <- c ;; k" := (bind c (fun x => k))
  (at level 61, c at next level, right associativity) : py_scope.
Notation "c ;;; k" := (bind c (fun _ => k))
  (at level 61, right associativity) : py_scope.
Local Open Scope py_scope.

(** [self.stats[...] += 1] and [+= n] *)
Definition incr_collections (s : Stats) : Stats :=
  mk_stats (collections s + 1) (total_documents s) (exported_chunks s) (errors s).
Definition add_total_documents (n : Z) (s : Stats) : Stats :=
  mk_stats (collections s) (total_documents s + n) (exported_chunks s) (errors s).
Definition incr_exported_chunks (s : Stats) : Stats :=
  mk_stats (collections s) (total_documents s) (exported_chunks s + 1) (errors s).
Definition incr_errors (s : Stats) : Stats :=
  mk_stats (collections s) (total_documents s) (exported_chunks s) (errors s + 1).

(** The keys the comprehension of lines 111-113 leaves out of
    ["extended_metadata"]. *)
Definition reserved_keys : list string :=
  ["repository"; "branch"; "files_modified"; "tools_used"; "outcome"; "tags";
   "difficulty"].

(** [k in keys] for a list of strings. *)
Definition str_in (k : string) (keys : list string) : bool :=
  existsb (String.eqb k) keys.

Section Run.

(** The surroundings of a run: the process's time zone, the successive
    readings of [datetime.now()], the store behind [self.client] and
    the path it was opened at. *)
Variable utcoffset : Z -> Z.
Variable clock : nat -> datetime.
Variable chroma_path : string.

(** [chromadb.PersistentClient(path, settings)] ([true]) and
    [chromadb.PersistentClient(path)] ([false]): whether the call
    returns a client or raises. *)
Variable persistent_client : bool -> result unit.

(** [[coll.name for coll in self.client.list_collections()]] *)
Variable list_collection_names : result (list string).

(** A collection handle, known by what
    [collection.get(include=["documents", "metadatas", "embeddings"])]
    returns or raises. *)
Definition collection : Type := result value.

(** [self.client.get_collection(name)] *)
Variable get_collection : string -> result collection.

(** [datetime.now()] *)
Definition now : M datetime :=
  fun self => (Ok (clock (clock_reads self)),
               mk_exporter (stats self) (S (clock_reads self))).

(** Lines 78-93 of [convert_to_conversation_chunk]: the timestamp. *)
Definition extract_timestamp (metadata : value) : M value :=
  timestamp <- lift (get metadata "timestamp" VNone) ;;
  if is_number timestamp then
    dt <- lift (fromtimestamp utcoffset timestamp) ;;
    ret (VStr (isoformat dt))
  else
    match timestamp with
    | VStr s =>
        try_except
          (lift (fromisoformat (replace "Z" "+00:00" s)) ;;; ret timestamp)
          (fun _ => dt <- now ;; ret (VStr (isoformat dt)))
    | _ => dt <- now ;; ret (VStr (isoformat dt))
    end.

(** [convert_to_conversation_chunk(doc_id, document, metadata, embedding)] *)
Definition convert_to_conversation_chunk
    (doc_id document metadata embedding : value) : M chunk :=
  timestamp <- extract_timestamp metadata ;;
  session_id <- lift (get metadata "session_id" (VStr "migrated")) ;;
  type <- lift (get metadata "type" (VStr "discussion")) ;;
  summary <- lift (get metadata "summary" (VStr "")) ;;
  repository <- lift (get metadata "repository" (VStr "migrated")) ;;
  branch <- lift (get metadata "branch" (VStr "main")) ;;
  files_modified <- lift (get metadata "files_modified" (VList [])) ;;
  tools_used <- lift (get metadata "tools_used" (VList [])) ;;
  outcome <- lift (get metadata "outcome" (VStr "success")) ;;
  tags <- lift (get metadata "tags" (VList [])) ;;
  difficulty <- lift (get metadata "difficulty" (VStr "simple")) ;;
  kvs <- lift (items metadata) ;;
  let extended_metadata :=
    filter (fun '(k, v) => negb (str_in k reserved_keys)) kvs in
  related_chunks <- lift (get metadata "related_chunks" (VList [])) ;;
  ret (mk_chunk doc_id session_id timestamp type (py_or document (VStr ""))
         summary
         (mk_chunk_metadata repository branch files_modified tools_used
            outcome tags difficulty extended_metadata)
         (py_or embedding (VList [])) related_chunks).

(** [for x in xs: acc = body(x, acc)] *)
Fixpoint for_each {A B} (xs : list A) (body : A -> B -> M B) (acc : B) : M B :=
  match xs with
  | [] => ret acc
  | x :: rest => acc' <- body x acc ;; for_each rest body acc'
  end.

(** [results[key][i] if i < len(results.get(key, [])) else default],
    the shape of lines 139-142. *)
Definition entry (results : value) (key : string) (i : nat) (default : value)
  : result value :=
  rbind (rbind (get results key (VList [])) len) (fun n =>
  if (i <? n)%nat then rbind (getitem results key) (fun xs => getindex xs i)
  else Ok default).

Definition string_of_nat (n : nat) : string :=
  NilZero.string_of_uint (Nat.to_uint n).

(** Lines 139-145: the body of the inner [try]. *)
Definition process_document (results : value) (i : nat) : M chunk :=
  doc_id <- lift (entry results "ids" i (VStr ("doc_" ++ string_of_nat i))) ;;
  document <- lift (entry results "documents" i (VStr "")) ;;
  metadata <- lift (entry results "metadatas" i (VDict [])) ;;
  embedding <- lift (entry results "embeddings" i (VList [])) ;;
  convert_to_conversation_chunk doc_id document metadata embedding.

(** Lines 138-151: one turn of the loop over the documents. *)
Definition export_document (results : value) (i : nat) (chunks : list chunk)
  : M (list chunk) :=
  try_except
    (chunk <- process_document results i ;;
     modify_stats incr_exported_chunks ;;;
     ret (chunks ++ [chunk])%list)
    (fun _ => modify_stats incr_errors ;;; ret chunks).

(** [export_collection(collection_name)] *)
Definition export_collection (collection_name : string) : M (list chunk) :=
  try_except
    (collection <- lift (get_collection collection_name) ;;
     results <- lift collection ;;
     doc_count <- lift (rbind (get results "ids" (VList [])) len) ;;
     chunks <- for_each (seq 0 doc_count) (export_document results) [] ;;
     modify_stats (add_total_documents (Z.of_nat doc_count)) ;;;
     ret chunks)
    (fun _ => modify_stats incr_errors ;;; ret []).

(** A collection that does not open, does not answer [get], or whose
    ids cannot be counted. *)
Definition enumeration_raises (name : string) : Prop :=
  (exists e, get_collection name = Raise e)
  \/ (exists e, get_collection name = Ok (Raise e))
  \/ (exists results e, get_collection name = Ok (Ok results)
                        /\ rbind (get results "ids" (VList [])) len = Raise e).

(** [connect()] *)
Definition connect : M unit :=
  try_except (lift (persistent_client true))
             (fun _ => lift (persistent_client false)).

(** [list_collections()] *)
Definition list_collections : M (list string) :=
  try_except (lift list_collection_names) (fun _ => ret []).

(** [get_export_metadata()] *)
Definition get_export_metadata : M export_metadata :=
  dt <- now ;;
  ret (mk_export_metadata (isoformat dt) "ChromaDB" chroma_path
         "ConversationChunk" "1.0.0" SelfStats).

(** [export_all()] *)
Definition export_all : M envelope :=
  connect ;;;
  collection_names <- list_collections ;;
  match collection_names with
  | [] =>
      md <- get_export_metadata ;;
      ret (mk_envelope [] md)
  | _ =>
      all_chunks <-
        for_each collection_names
          (fun collection_name all_chunks =>
             chunks <- export_collection collection_name ;;
             modify_stats incr_collections ;;;
             ret (all_chunks ++ chunks)%list) [] ;;
      md <- get_export_metadata ;;
      ret (mk_envelope all_chunks md)
  end.

End Run.

(** The chunk built from a dict's items once the timestamp is known. *)
Definition chunk_of (doc_id document : value) (kvs : list (string * value))
    (embedding ts : value) : chunk :=
  let lookup k d := match assoc k kvs with Some v => v | None => d end in
  mk_chunk doc_id (lookup "session_id" (VStr "migrated")) ts
    (lookup "type" (VStr "discussion")) (py_or document (VStr ""))
    (lookup "summary" (VStr ""))
    (mk_chunk_metadata (lookup "repository" (VStr "migrated"))
       (lookup "branch" (VStr "main")) (lookup "files_modified" (VList []))
       (lookup "tools_used" (VList [])) (lookup "outcome" (VStr "success"))
       (lookup "tags" (VList [])) (lookup "difficulty" (VStr "simple"))
       (filter (fun '(k, v) => negb (str_in k reserved_keys)) kvs))
    (py_or embedding (VList [])) (lookup "related_chunks" (VList [])).

(** Whether the body of the inner [try] runs to its end on document
    [i] of [results]. *)
Definition document_ok (utcoffset : Z -> Z) (clock : nat -> datetime)
    (results : value) (i : nat) : bool :=
  is_ok (fst (process_document utcoffset clock results i init)).

(** [c] is the whole record the conversion builds from entry [i] of
    [results]: every field filled from the entry or its default, and a
    string for timestamp. *)
Definition canonical_record_of (results : value) (i : nat) (c : chunk) : Prop :=
  exists doc_id document kvs embedding ts,
    entry results "ids" i (VStr ("doc_" ++ string_of_nat i)) = Ok doc_id
    /\ entry results "documents" i (VStr "") = Ok document
    /\ entry results "metadatas" i (VDict []) = Ok (VDict kvs)
    /\ entry results "embeddings" i (VList []) = Ok embedding
    /\ c = chunk_of doc_id document kvs embedding (VStr ts).

(** Sample surroundings for concrete runs: UTC, and a clock that reads
    2027-01-15T08:00:00 and advances a second a reading. *)
Definition utc : Z -> Z := fun _ => 0.
Definition sample_clock (n : nat) : datetime := gmtime (1800000000 + Z.of_nat n).

(** The Python objects behind the records: the dicts as they are
    built, key by key. *)
Definition chunk_value (c : chunk) : value :=
  VDict
    [("id", id c); ("session_id", session_id c); ("timestamp", timestamp c);
     ("type", type c); ("content", content c); ("summary", summary c);
     ("metadata",
      VDict
        [("repository", repository (metadata c));
         ("branch", branch (metadata c));
         ("files_modified", files_modified (metadata c));
         ("tools_used", tools_used (metadata c));
         ("outcome", outcome (metadata c));
         ("tags", tags (metadata c));
         ("difficulty", difficulty (metadata c));
         ("extended_metadata", VDict (extended_metadata (metadata c)))]);
     ("embeddings", embeddings c); ("related_chunks", related_chunks c)].

Definition stats_value (s : Stats) : value :=
  VDict
    [("collections", VInt (collections s));
     ("total_documents", VInt (total_documents s));
     ("exported_chunks", VInt (exported_chunks s));
     ("errors", VInt (errors s))].

(** The envelope as an object graph, its ["stats"] entry read from
    the exporter it points into. *)
Definition envelope_value (self : exporter) (e : envelope) : value :=
  let md := envelope_metadata e in
  VDict
    [("chunks", VList (map chunk_value (chunks e)));
     ("metadata",
      VDict
        [("export_timestamp", VStr (export_timestamp md));
         ("source", VStr (source md));
         ("source_path", VStr (source_path md));
         ("target_format", VStr (target_format md));
         ("version", VStr (version md));
         ("stats", stats_value (deref self (summary_stats md)))])].

(** A sample store: one collection of three records, the second with
    no metadata, and a collection that cannot be opened. *)
Definition sample_results : value :=
  VDict
    [("ids", VList [VStr "a"; VStr "b"; VStr "c"]);
     ("documents", VList [VStr "first"; VStr "second"; VNone]);
     ("metadatas",
      VList [VDict [("session_id", VStr "s1"); ("timestamp", VInt 1700000000)];
             VNone;
             VDict [("timestamp", VStr "2023-01-01T12:00:00Z");
                    ("topic", VStr "export")]]);
     ("embeddings", VList [VList [VInt 1; VInt 0]; VList []; VList [VInt 0]])].

Definition sample_get_collection (name : string) : result collection :=
  if String.eqb name "memories" then Ok (Ok sample_results)
  else Raise StoreError.

Definition sample_export_all : M envelope :=
  export_all utc sample_clock "/data/chroma" (fun _ => Ok tt)
    (Ok ["memories"; "missing"]) sample_get_collection.

(** The field table of the specification's data model, as the keys of
    the source metadata it names: the fixed set the specification
    says [extended_metadata] leaves out. *)
Definition table_fields : list string :=
  ["session_id"; "timestamp"; "type"; "summary"; "related_chunks";
   "repository"; "branch"; "files_modified"; "tools_used"; "outcome"; "tags";
   "difficulty"].

End Exporter.

(* ===================================================================== *)
(** * JSON text: [json.dump] and [json.load] *)
(* ===================================================================== *)

Module Json.
Import Py.

(** ** Literals of numbers *)

Definition string_of_Z (n : Z) : string :=
  if n <? 0 then String "-" (DateTime.string_of_nonneg (- n))
  else DateTime.string_of_nonneg n.

(** The decimal number [d * 10^k], [d >= 0], rounded to the nearest
    double, ties to even: what [float()] makes of a decimal literal. *)
Definition float_of_decimal (neg : bool) (d k : Z) : pyfloat :=
  if d <=? 0 then S754_zero neg
  else if 0 <=? k then
    match d * 10 ^ k with
    | Zpos m => binary_round prec emax neg m 0
    | _ => S754_zero neg
    end
  else
    let '(q, e, l) := SFdiv_core_binary prec emax d 0 (10 ^ (- k)) 0 in
    binary_round_aux prec emax neg q e l.

(** ** [float.__repr__]: the shortest digits that read back *)

Definition float_eqb_exact (x y : pyfloat) : bool :=
  match x, y with
  | S754_finite s m e, S754_finite s' m' e' =>
      Bool.eqb s s' && Pos.eqb m m' && (e =? e')
  | S754_zero s, S754_zero s' => Bool.eqb s s'
  | S754_infinity s, S754_infinity s' => Bool.eqb s s'
  | S754_nan, S754_nan => true
  | _, _ => false
  end.

Definition ndigits (n : Z) : Z :=
  Z.of_nat (String.length (DateTime.string_of_nonneg n)).

(** The position of the decimal point of [num / den] in (0, 1): the
    greatest [d <= 0] with [num / den < 10 ^ d]. *)
Fixpoint decpt_small (fuel : nat) (num den d : Z) : Z :=
  match fuel with
  | O => d
  | S fuel' =>
      if num * 10 <? den then decpt_small fuel' (num * 10) den (d - 1) else d
  end.

(** [num / den / 10 ^ q] as a fraction. *)
Definition scaled (num den q : Z) : Z * Z :=
  if 0 <=? q then (num, den * 10 ^ q) else (num * 10 ^ (- q), den).

(** The [p]-digit decimals next to [x = m * 2^e], nearest first, that
    read back as [x]; [q] is the exponent of their last digit. *)
Definition candidates (m : positive) (e : Z) (decpt : Z) (p : Z) : list Z :=
  let x := S754_finite false m e in
  let '(num, den) := if 0 <=? e then (Zpos m * 2 ^ e, 1) else (Zpos m, 2 ^ (- e)) in
  let q := decpt - p in
  let '(n', d') := scaled num den q in
  let lo := n' / d' in
  let hi := lo + 1 in
  let ordered :=
    match (2 * (n' mod d')) ?= d' with
    | Lt => [lo; hi]
    | Gt => [hi; lo]
    | Eq => if Z.even lo then [lo; hi] else [hi; lo]
    end in
  filter (fun c => float_eqb_exact (float_of_decimal false c q) x) ordered.

Fixpoint shortest (fuel : nat) (m : positive) (e decpt p : Z) : Z * Z :=
  match fuel with
  | O => (Zpos m, 0)
  | S fuel' =>
      match candidates m e decpt p with
      | c :: _ => (c, decpt - p)
      | [] => shortest fuel' m e decpt (p + 1)
      end
  end.

Fixpoint strip_zeros (fuel : nat) (c q : Z) : Z * Z :=
  match fuel with
  | O => (c, q)
  | S fuel' => if c mod 10 =? 0 then strip_zeros fuel' (c / 10) (q + 1) else (c, q)
  end.

(** Digits and decimal point of the shortest decimal that reads back
    as the positive double [m * 2^e]. *)
Definition shortest_digits (m : positive) (e : Z) : string * Z :=
  let '(num, den) := if 0 <=? e then (Zpos m * 2 ^ e, 1) else (Zpos m, 2 ^ (- e)) in
  let decpt :=
    if den <=? num then ndigits (num / den) else decpt_small 400 num den 0 in
  let '(c, q) := shortest 17 m e decpt 1 in
  let '(c, q) := strip_zeros 20 c q in
  let ds := DateTime.string_of_nonneg c in
  (ds, q + Z.of_nat (String.length ds)).

(** The layout of [repr]: exponent notation when the decimal point
    falls more than 16 places right or 4 places left of the digits. *)
Definition format_repr (ds : string) (decpt : Z) : string :=
  let n := Z.of_nat (String.length ds) in
  if (decpt <=? -4) || (16 <? decpt) then
    let ex := decpt - 1 in
    String.substring 0 1 ds
    ++ (if 1 <? n then "." ++ String.substring 1 (String.length ds - 1) ds else "")
    ++ "e" ++ (if ex <? 0 then "-" else "+")
    ++ DateTime.zfill 2 (DateTime.string_of_nonneg (Z.abs ex))
  else if decpt <=? 0 then
    "0." ++ DateTime.zeros (Z.to_nat (- decpt)) ++ ds
  else if decpt <? n then
    String.substring 0 (Z.to_nat decpt) ds ++ "."
    ++ String.substring (Z.to_nat decpt) (String.length ds - Z.to_nat decpt) ds
  else ds ++ DateTime.zeros (Z.to_nat (decpt - n)) ++ ".0".

Definition float_repr (x : pyfloat) : string :=
  match x with
  | S754_zero s => if s then "-0.0" else "0.0"
  | S754_infinity s => if s then "-inf" else "inf"
  | S754_nan => "nan"
  | S754_finite s m e =>
      let '(ds, decpt) := shortest_digits m e in
      (if s then "-" else "") ++ format_repr ds decpt
  end.

(** ** The encoder: [json.dump(data, f, indent=2, ensure_ascii=False)] *)

Definition dq : ascii := "034"%char.
Definition backslash : ascii := "092"%char.
Definition newline : ascii := "010"%char.

Definition hex_digit (n : N) : ascii :=
  if (n <? 10)%N then ascii_of_N (48 + n) else ascii_of_N (87 + n).

(** [ESCAPE_DCT]: how [encode_basestring] writes one character. *)
Definition escape (c : ascii) : string :=
  let n := N_of_ascii c in
  if (n =? 34)%N then String backslash (String dq "")
  else if (n =? 92)%N then String backslash (String backslash "")
  else if (n =? 8)%N then String backslash "b"
  else if (n =? 12)%N then String backslash "f"
  else if (n =? 10)%N then String backslash "n"
  else if (n =? 13)%N then String backslash "r"
  else if (n =? 9)%N then String backslash "t"
  else if (n <? 32)%N then
    String backslash
      (String "u" (String "0" (String "0"
         (String (hex_digit (n / 16)) (String (hex_digit (n mod 16)) "")))))
  else String c "".

Fixpoint escape_all (s : string) : string :=
  match s with
  | EmptyString => EmptyString
  | String c rest => escape c ++ escape_all rest
  end.

Definition encode_basestring (s : string) : string :=
  String dq (escape_all s ++ String dq "").

(** [floatstr] with [allow_nan=True]. *)
Definition floatstr (x : pyfloat) : string :=
  match x with
  | S754_nan => "NaN"
  | S754_infinity false => "Infinity"
  | S754_infinity true => "-Infinity"
  | _ => float_repr x
  end.

Fixpoint spaces (n : nat) : string :=
  match n with O => "" | S n' => String " " (spaces n') end.

(** A line break and the indentation of a nesting level, two spaces a
    level. *)
Definition newline_indent (level : nat) : string :=
  String newline (spaces (2 * level)).

Fixpoint join (sep : string) (parts : list string) : string :=
  match parts with
  | [] => ""
  | [x] => x
  | x :: rest => x ++ sep ++ join sep rest
  end.

(** The text [_iterencode] yields for a value at a nesting level. *)
Fixpoint encode (level : nat) (v : value) : string :=
  match v with
  | VNone => "null"
  | VBool true => "true"
  | VBool false => "false"
  | VInt n => string_of_Z n
  | VFloat x => floatstr x
  | VStr s => encode_basestring s
  | VList [] => "[]"
  | VList xs =>
      "[" ++ newline_indent (S level)
      ++ join ("," ++ newline_indent (S level)) (map (encode (S level)) xs)
      ++ newline_indent level ++ "]"
  | VDict [] => "{}"
  | VDict kvs =>
      "{" ++ newline_indent (S level)
      ++ join ("," ++ newline_indent (S level))
           (map (fun kv => match kv with
                           | (k, x) => encode_basestring k ++ ": "
                                       ++ encode (S level) x
                           end) kvs)
      ++ newline_indent level ++ "}"
  end.

(** [json.dumps(data, indent=2, ensure_ascii=False)], the text
    [json.dump] writes. *)
Definition dumps (data : value) : string := encode 0 data.

(** ** The decoder: [json.load] *)

Definition is_ws (c : ascii) : bool :=
  let n := N_of_ascii c in
  ((n =? 32) || (n =? 9) || (n =? 10) || (n =? 13))%N.

Fixpoint skip_ws (s : string) : string :=
  match s with
  | EmptyString => EmptyString
  | String c rest => if is_ws c then skip_ws rest else s
  end.

Definition hex_val (c : ascii) : option N :=
  let n := N_of_ascii c in
  if ((48 <=? n) && (n <=? 57))%N then Some (n - 48)%N
  else if ((97 <=? n) && (n <=? 102))%N then Some (n - 87)%N
  else if ((65 <=? n) && (n <=? 70))%N then Some (n - 55)%N
  else None.

(** [BACKSLASH]: the one-letter escapes. *)
Definition unescape (c : ascii) : option ascii :=
  let n := N_of_ascii c in
  if (n =? 34)%N then Some dq
  else if (n =? 92)%N then Some backslash
  else if (n =? 47)%N then Some "/"%char
  else if (n =? 98)%N then Some "008"%char
  else if (n =? 102)%N then Some "012"%char
  else if (n =? 110)%N then Some "010"%char
  else if (n =? 114)%N then Some "013"%char
  else if (n =? 116)%N then Some "009"%char
  else None.

(** [scanstring] in strict mode, from just after the opening quote:
    the decoded string and what follows the closing quote.  A
    [\uXXXX] beyond the characters this model has (code 255) is
    refused. *)
Fixpoint scanstring (s : string) : option (string * string) :=
  match s with
  | EmptyString => None
  | String c rest =>
      if Ascii.eqb c dq then Some (EmptyString, rest)
      else if Ascii.eqb c backslash then
        match rest with
        | String e rest1 =>
            if Ascii.eqb e "u" then
              match rest1 with
              | String h1 (String h2 (String h3 (String h4 rest2))) =>
                  match hex_val h1, hex_val h2, hex_val h3, hex_val h4 with
                  | Some a, Some b, Some c', Some d =>
                      let code := (((a * 16 + b) * 16 + c') * 16 + d)%N in
                      if (code <? 256)%N then
                        match scanstring rest2 with
                        | Some (str, r) => Some (String (ascii_of_N code) str, r)
                        | None => None
                        end
                      else None
                  | _, _, _, _ => None
                  end
              | _ => None
              end
            else
              match unescape e with
              | Some ch =>
                  match scanstring rest1 with
                  | Some (str, r) => Some (String ch str, r)
                  | None => None
                  end
              | None => None
              end
        | EmptyString => None
        end
      else if (N_of_ascii c <? 32)%N then None
      else
        match scanstring rest with
        | Some (str, r) => Some (String c str, r)
        | None => None
        end
  end.

(** The longest run of decimal digits at the head of a string. *)
Fixpoint span_digits (s : string) : string * string :=
  match s with
  | EmptyString => (EmptyString, EmptyString)
  | String c rest =>
      if DateTime.is_digit c then
        let '(ds, r) := span_digits rest in (String c ds, r)
      else (EmptyString, s)
  end.

(** [NUMBER_RE] matched at the head of a string: an integer part (an
    optional minus sign, then a lone 0 or a run of digits that starts
    with a nonzero one), an optional fraction (a dot and digits) and an
    optional exponent (e or E, an optional sign, digits): the three
    groups and what follows. *)
Definition match_integer (s : string) : option (string * string) :=
  let '(sign, body) :=
    match s with
    | String c rest => if Ascii.eqb c "-" then ("-", rest) else ("", s)
    | EmptyString => ("", s)
    end in
  match body with
  | String c rest =>
      if Ascii.eqb c "0" then Some (sign ++ "0", rest)
      else if DateTime.is_digit c then
        let '(ds, r) := span_digits body in Some (sign ++ ds, r)
      else None
  | EmptyString => None
  end.

Definition match_frac (s : string) : string * string :=
  match s with
  | String c rest =>
      if Ascii.eqb c "." then
        match span_digits rest with
        | (EmptyString, _) => (EmptyString, s)
        | (ds, r) => (String "." ds, r)
        end
      else (EmptyString, s)
  | EmptyString => (EmptyString, s)
  end.

Definition match_exp (s : string) : string * string :=
  match s with
  | String c rest =>
      if Ascii.eqb c "e" || Ascii.eqb c "E" then
        let '(sign, body) :=
          match rest with
          | String c' r =>
              if Ascii.eqb c' "-" then ("-", r)
              else if Ascii.eqb c' "+" then ("+", r)
              else ("", rest)
          | EmptyString => ("", rest)
          end in
        match span_digits body with
        | (EmptyString, _) => (EmptyString, s)
        | (ds, r) => (String c (sign ++ ds), r)
        end
      else (EmptyString, s)
  | EmptyString => (EmptyString, s)
  end.

Definition match_number (s : string) : option (string * string * string * string) :=
  match match_integer s with
  | None => None
  | Some (integer, r) =>
      let '(frac, r) := match_frac r in
      let '(exp, r) := match_exp r in
      Some (integer, frac, exp, r)
  end.

(** The number a run of decimal digits writes. *)
Definition Z_of_digits (ds : string) : Z :=
  match NilZero.uint_of_string ds with
  | Some u => Z.of_N (N.of_uint u)
  | None => 0
  end.

(** [int(integer)] on the first group of a match. *)
Definition int_of_literal (integer : string) : Z :=
  match integer with
  | String c ds => if Ascii.eqb c "-" then - Z_of_digits ds else Z_of_digits integer
  | EmptyString => 0
  end.

(** A sign, if any, and the digits after it. *)
Definition split_sign (s : string) : bool * string :=
  match s with
  | String c ds =>
      if Ascii.eqb c "-" then (true, ds)
      else if Ascii.eqb c "+" then (false, ds)
      else (false, s)
  | EmptyString => (false, s)
  end.

(** [float(integer + frac + exp)] on the groups of a match. *)
Definition float_of_literal (integer frac exp : string) : pyfloat :=
  let '(neg, idigits) := split_sign integer in
  let fdigits := match frac with String _ ds => ds | EmptyString => "" end in
  let e :=
    match exp with
    | String _ ds =>
        let '(eneg, edigits) := split_sign ds in
        if eneg then - Z_of_digits edigits else Z_of_digits edigits
    | EmptyString => 0
    end in
  float_of_decimal neg (Z_of_digits (idigits ++ fdigits))
    (e - Z.of_nat (String.length fdigits)).

(** [d[k] = v] on an item list. *)
Fixpoint dict_set (k : string) (v : value) (d : list (string * value))
  : list (string * value) :=
  match d with
  | [] => [(k, v)]
  | (k', v') :: rest =>
      if String.eqb k k' then (k, v) :: rest else (k', v') :: dict_set k v rest
  end.

(** [dict(pairs)] *)
Definition dict_of_pairs (pairs : list (string * value)) : list (string * value) :=
  fold_left (fun d kv => dict_set (fst kv) (snd kv) d) pairs [].

Fixpoint starts_with (p s : string) : option string :=
  match p, s with
  | EmptyString, _ => Some s
  | String a p', String b s' => if Ascii.eqb a b then starts_with p' s' else None
  | String _ _, EmptyString => None
  end.

(** The constants and numbers [scan_once] reads when the text opens
    neither a string, nor an object, nor an array. *)
Definition scan_scalar (s : string) : option (value * string) :=
  match starts_with "null" s, starts_with "true" s, starts_with "false" s with
  | Some r, _, _ => Some (VNone, r)
  | _, Some r, _ => Some (VBool true, r)
  | _, _, Some r => Some (VBool false, r)
  | None, None, None =>
      match match_number s with
      | Some (integer, frac, exp, r) =>
          if String.eqb frac "" && String.eqb exp ""
          then Some (VInt (int_of_literal integer), r)
          else Some (VFloat (float_of_literal integer frac exp), r)
      | None =>
          match starts_with "NaN" s, starts_with "Infinity" s,
                starts_with "-Infinity" s with
          | Some r, _, _ => Some (VFloat S754_nan, r)
          | _, Some r, _ => Some (VFloat (S754_infinity false), r)
          | _, _, Some r => Some (VFloat (S754_infinity true), r)
          | None, None, None => None
          end
      end
  end.

(** [scan_once] at the head of a string, with [JSONArray] and
    [JSONObject]: the value and what follows it.  [fuel] bounds the
    nesting and the number of items. *)
Fixpoint scan_once (fuel : nat) (s : string) : option (value * string) :=
  match fuel with
  | O => None
  | S fuel' =>
      match s with
      | EmptyString => None
      | String c rest =>
          if Ascii.eqb c dq then
            match scanstring rest with
            | Some (str, r) => Some (VStr str, r)
            | None => None
            end
          else if Ascii.eqb c "{" then
            match skip_ws rest with
            | String c' r =>
                if Ascii.eqb c' "}" then Some (VDict [], r)
                else
                  match parse_members fuel' (String c' r) with
                  | Some (pairs, r') => Some (VDict (dict_of_pairs pairs), r')
                  | None => None
                  end
            | EmptyString => None
            end
          else if Ascii.eqb c "[" then
            match skip_ws rest with
            | String c' r =>
                if Ascii.eqb c' "]" then Some (VList [], r)
                else
                  match parse_elements fuel' (String c' r) with
                  | Some (xs, r') => Some (VList xs, r')
                  | None => None
                  end
            | EmptyString => None
            end
          else scan_scalar s
      end
  end
with parse_elements (fuel : nat) (s : string) : option (list value * string) :=
  match fuel with
  | O => None
  | S fuel' =>
      match scan_once fuel' s with
      | Some (x, r) =>
          match skip_ws r with
          | String c r' =>
              if Ascii.eqb c "," then
                match parse_elements fuel' (skip_ws r') with
                | Some (xs, r'') => Some (x :: xs, r'')
                | None => None
                end
              else if Ascii.eqb c "]" then Some ([x], r')
              else None
          | EmptyString => None
          end
      | None => None
      end
  end
with parse_members (fuel : nat) (s : string)
  : option (list (string * value) * string) :=
  match fuel with
  | O => None
  | S fuel' =>
      match s with
      | String c rest =>
          if Ascii.eqb c dq then
            match scanstring rest with
            | Some (key, r) =>
                match skip_ws r with
                | String c1 r1 =>
                    if Ascii.eqb c1 ":" then
                      match scan_once fuel' (skip_ws r1) with
                      | Some (x, r2) =>
                          match skip_ws r2 with
                          | String c2 r3 =>
                              if Ascii.eqb c2 "," then
                                match parse_members fuel' (skip_ws r3) with
                                | Some (kvs, r4) => Some ((key, x) :: kvs, r4)
                                | None => None
                                end
                              else if Ascii.eqb c2 "}" then Some ([(key, x)], r3)
                              else None
                          | EmptyString => None
                          end
                      | None => None
                      end
                    else None
                | EmptyString => None
                end
            | None => None
            end
          else None
      | EmptyString => None
      end
  end.

(** [json.loads(s)]: one value, white space around it, nothing else.
    A [JSONDecodeError] is a [ValueError]. *)
Definition loads (s : string) : result value :=
  match scan_once (S (String.length s)) (skip_ws s) with
  | Some (v, rest) =>
      match skip_ws rest with
      | EmptyString => Ok v
      | _ => Raise ValueError
      end
  | None => Raise ValueError
  end.

(** ** Deep equality: Python's [==] on the decoded structures *)

(** [n == x] for an int and a float compares the exact values. *)
Definition int_eq_float (n : Z) (x : pyfloat) : bool :=
  match x with
  | S754_zero _ => n =? 0
  | S754_finite s m e =>
      let v := cond_Zopp s (Zpos m) in
      if 0 <=? e then n =? v * 2 ^ e else n * 2 ^ (- e) =? v
  | _ => false
  end.

Definition int_of_bool (b : bool) : Z := if b then 1 else 0.

(** Two lists are equal when they have the same length and equal
    items at each position. *)
Fixpoint list_eqb {A} (eqb : A -> A -> bool) (xs ys : list A) : bool :=
  match xs, ys with
  | [], [] => true
  | x :: xs', y :: ys' => eqb x y && list_eqb eqb xs' ys'
  | _, _ => false
  end.

(** [a == b]: numbers by value across [bool], [int] and [float],
    lists item by item, dicts key by key whatever the order.  The two
    structures compared here share no object (one is the envelope in
    memory, the other is freshly decoded), so no item is found equal
    for being the same object. *)
Fixpoint py_eq (a b : value) : bool :=
  match a, b with
  | VNone, VNone => true
  | VBool x, VBool y => int_of_bool x =? int_of_bool y
  | VBool x, VInt n => int_of_bool x =? n
  | VBool x, VFloat y => int_eq_float (int_of_bool x) y
  | VInt n, VBool y => n =? int_of_bool y
  | VInt n, VInt m => n =? m
  | VInt n, VFloat y => int_eq_float n y
  | VFloat x, VBool y => int_eq_float (int_of_bool y) x
  | VFloat x, VInt m => int_eq_float m x
  | VFloat x, VFloat y => SFeqb x y
  | VStr s, VStr t => String.eqb s t
  | VList xs, VList ys => list_eqb py_eq xs ys
  | VDict kvs, VDict kvs' =>
      (List.length kvs =? List.length kvs')%nat
      && forallb (fun kv => match kv with
                            | (k, x) =>
                                match assoc k kvs' with
                                | Some y => py_eq x y
                                | None => false
                                end
                            end) kvs
  | _, _ => false
  end.

(** ** What a value must satisfy to come back from a file *)

(** The float is not a NaN, and its literal reads back as the same
    double: it matches the number pattern in full, with a fraction or
    an exponent, and [float()] of it is the float. *)
Definition float_reads_back (x : pyfloat) : bool :=
  match x with
  | S754_nan => false
  | S754_infinity _ => true
  | _ =>
      match match_number (float_repr x) with
      | Some (integer, frac, exp, EmptyString) =>
          negb (String.eqb frac "" && String.eqb exp "")
          && float_eqb_exact (float_of_literal integer frac exp) x
      | _ => false
      end
  end.

Fixpoint distinct (keys : list string) : bool :=
  match keys with
  | [] => true
  | k :: rest => negb (Exporter.str_in k rest) && distinct rest
  end.

(** Every float of the value reads back, and no dict of it has a key
    twice (no Python dict has). *)
Fixpoint reads_back (v : value) : bool :=
  match v with
  | VFloat x => float_reads_back x
  | VList xs => forallb reads_back xs
  | VDict kvs =>
      distinct (map fst kvs)
      && forallb (fun kv => match kv with (_, x) => reads_back x end) kvs
  | _ => true
  end.

(** ** The shape of the text [encode] writes

    What the statements about the decoder say of a text: how it opens,
    what follows it, and how the items of an array and the members of
    an object are laid out. *)

(** The first character of a string satisfies a test. *)
Definition head_is (f : ascii -> bool) (s : string) : bool :=
  match s with String c _ => f c | EmptyString => false end.

(** The string is empty or its first character fails a test. *)
Definition head_not (f : ascii -> bool) (s : string) : bool :=
  match s with String c _ => negb (f c) | EmptyString => true end.

(** A string of decimal digits. *)
Fixpoint all_digits (s : string) : bool :=
  match s with
  | EmptyString => true
  | String c rest => DateTime.is_digit c && all_digits rest
  end.

(** What may follow a number literal without being taken for more of
    it. *)
Definition number_end (rest : string) : bool :=
  head_not (fun c => DateTime.is_digit c || Ascii.eqb c "." || Ascii.eqb c "e"
                     || Ascii.eqb c "E" || Ascii.eqb c "+" || Ascii.eqb c "-")
           rest.

(** The first character of a value's text: not white space and none
    of the punctuation that closes or separates. *)
Definition value_start (c : ascii) : bool :=
  negb (is_ws c) && negb (Ascii.eqb c "]") && negb (Ascii.eqb c "}")
  && negb (Ascii.eqb c ",") && negb (Ascii.eqb c ":").

Definition number_start (c : ascii) : bool :=
  DateTime.is_digit c || Ascii.eqb c "-".

(** The text of a value, followed by anything that cannot continue a
    number, scans back to the value, given fuel beyond its length. *)
Definition scans_back (v : value) : Prop :=
  forall level rest fuel,
    number_end rest = true ->
    (String.length (encode level v) < fuel)%nat ->
    scan_once fuel (encode level v ++ rest) = Some (v, rest).

(** The items of an array and the members of an object, as [encode]
    lays them out. *)
Definition items_text (level : nat) (xs : list value) : string :=
  join ("," ++ newline_indent (S level)) (map (encode (S level)) xs).

Definition member_text (level : nat) (kv : string * value) : string :=
  match kv with
  | (k, x) => encode_basestring k ++ ": " ++ encode (S level) x
  end.

Definition members_text (level : nat) (kvs : list (string * value)) : string :=
  join ("," ++ newline_indent (S level)) (map (member_text level) kvs).

End Json.

(* ===================================================================== *)
(** * The output file: [save_to_file] *)
(* ===================================================================== *)

Module Output.
Import Py Exporter Json.

(** The file system as far as the script sees it: the text each path
    holds, and whether the directory of a path can be made and the
    path opened for writing. *)
Record filesystem : Type := mk_filesystem {
  contents : string -> option string;
  writable : string -> bool
}.

(** [open(path, 'w')], the text written, and the file closed. *)
Definition write (path text : string) (fs : filesystem) : filesystem :=
  mk_filesystem
    (fun p => if String.eqb p path then Some text else contents fs p)
    (writable fs).

(** [save_to_file(data)] for [self.output_file = output_file]: the
    handler logs whatever [mkdir] or [open] raises and raises it
    again. *)
Definition save_to_file (output_file : string) (data : value)
    (fs : filesystem) : result unit * filesystem :=
  if writable fs output_file
  then (Ok tt, write output_file (dumps data) fs)
  else (Raise OSError, fs).

(** [json.load(open(path, encoding='utf-8'))] *)
Definition load (path : string) (fs : filesystem) : result value :=
  match contents fs path with
  | Some text => loads text
  | None => Raise OSError
  end.

(** A file system with no file, where every path can be written. *)
Definition empty_filesystem : filesystem :=
  mk_filesystem (fun _ => None) (fun _ => true).

(** A store whose one record has a NaN among its embedding's
    components. *)
Definition nan_results : value :=
  VDict
    [("ids", VList [VStr "a"]);
     ("documents", VList [VStr "first"]);
     ("metadatas", VList [VDict [("timestamp", VInt 1700000000)]]);
     ("embeddings", VList [VList [VFloat S754_nan]])].

Definition nan_export_all : M envelope :=
  export_all utc sample_clock "/data/chroma" (fun _ => Ok tt)
    (Ok ["memories"]) (fun _ => Ok (Ok nan_results)).

(** The chunk is the record of a document of some collection. *)
Definition stored_record (get_collection : string -> result collection)
    (c : chunk) : Prop :=
  exists name results i,
    get_collection name = Ok (Ok results) /\ canonical_record_of results i c.

(** A store reads back when what every collection hands out does. *)
Definition store_reads_back (get_collection : string -> result collection)
    : Prop :=
  forall name results,
    get_collection name = Ok (Ok results) -> reads_back results = true.

End Output.

(* ===================================================================== *)
(** * The script as a whole: [print_summary] and [main] *)
(* ===================================================================== *)

Module Script.
Import Py DateTime Exporter Json Output.

(** ** What a run goes through *)

(** Whether a collection opens, answers [get] and has ids that can be
    counted: the collections [export_collection] gets through without
    reaching its outer handler. *)
Definition opens (get_collection : string -> result collection)
    (name : string) : bool :=
  match get_collection name with
  | Ok (Ok results) => is_ok (rbind (get results "ids" (VList [])) len)
  | _ => false
  end.

(** The names [list_collections] returns: those listed, or none when
    listing raises. *)
Definition listed (list_collection_names : result (list string))
  : list string :=
  match list_collection_names with Ok names => names | Raise _ => [] end.

(** How far the counters of [s'] are from those of [s]: none has gone
    down, and the chunks exported have grown by no more than the
    documents counted. *)
Definition counters_grew (s s' : Stats) : Prop :=
  collections s <= collections s'
  /\ total_documents s <= total_documents s'
  /\ exported_chunks s <= exported_chunks s'
  /\ errors s <= errors s'
  /\ exported_chunks s' - exported_chunks s
     <= total_documents s' - total_documents s.

(** A store whose [get] leaves the embeddings out, as ChromaDB does
    for a column that is not included. *)
Definition no_embeddings_results : value :=
  VDict
    [("ids", VList [VStr "a"; VStr "b"]);
     ("documents", VList [VStr "first"; VStr "second"]);
     ("metadatas", VList [VDict []; VDict []]);
     ("embeddings", VNone)].

(** ** Shapes of text *)

(** The character of a decimal digit. *)
Definition digit_char (k : Z) : ascii := ascii_of_N (48 + Z.to_N k).

(** The [w] low decimal digits of [n], high digit first. *)
Fixpoint digits (w : nat) (n : Z) : string :=
  match w with
  | O => ""
  | S w' => digits w' (n / 10) ++ String (digit_char (n mod 10)) ""
  end.

(** No [Z] stands before the last character. *)
Fixpoint Z_only_last (s : string) : bool :=
  match s with
  | EmptyString => true
  | String c EmptyString => true
  | String c rest => negb (Ascii.eqb c "Z") && Z_only_last rest
  end.

(** The characters [encode_basestring] does not write as they are:
    the control characters, the quote and the backslash. *)
Definition needs_escape (c : ascii) : bool :=
  let n := N_of_ascii c in ((n <? 32) || (n =? 34) || (n =? 92))%N.

(** The bytes a text takes in a file opened with [encoding='utf-8']:
    one for a character below 128, two for the others a string of
    this development can hold. *)
Fixpoint utf8_length (s : string) : nat :=
  match s with
  | EmptyString => O
  | String c rest =>
      ((if (N_of_ascii c <? 128)%N then 1 else 2) + utf8_length rest)%nat
  end.

(** ** [print_summary] *)

(** What the lines of the summary show, the fixed wording left out:
    the four counters, the output path, the size of the file as
    [stat()] gives it (the caller divides it into megabytes), and
    whether the closing line is the warning about errors
    ([self.stats['errors'] > 0]) or the success message. *)
Record summary : Set := mk_summary {
  shown_collections : Z;
  shown_total_documents : Z;
  shown_exported_chunks : Z;
  shown_errors : Z;
  shown_output_file : string;
  shown_size : nat;
  warns : bool
}.

(** [print_summary()] for [self.output_file = output_file]: it raises
    when [self.output_file.stat()] does, that is when the file is not
    there. *)
Definition print_summary (self : exporter) (output_file : string)
    (fs : filesystem) : result summary :=
  match contents fs output_file with
  | None => Raise OSError
  | Some text =>
      Ok (mk_summary (collections (stats self)) (total_documents (stats self))
            (exported_chunks (stats self)) (errors (stats self))
            output_file (utf8_length text) (0 <? errors (stats self)))
  end.

(** ** [main] *)

Section Main.

(** The surroundings of the process: those of a run, and whether the
    path given for the store exists. *)
Variable utcoffset : Z -> Z.
Variable clock : nat -> datetime.
Variable chroma_exists : bool.
Variable persistent_client : bool -> result unit.
Variable list_collection_names : result (list string).
Variable get_collection : string -> result collection.

(** [main()] once the command line is parsed into [args.chroma_path]
    and [args.output]: the exit status of the process ([sys.exit(1)],
    or 0 when [main] returns), the file system it leaves and the
    summary it printed, if any.  Every exception of the run is caught
    and turned into status 1. *)
Definition main (chroma_path output : string) (fs : filesystem)
  : Z * filesystem * option summary :=
  if negb chroma_exists then (1, fs, None)
  else
    match export_all utcoffset clock chroma_path persistent_client
            list_collection_names get_collection init with
    | (Raise _, _) => (1, fs, None)
    | (Ok data, self) =>
        match save_to_file output (envelope_value self data) fs with
        | (Raise _, fs') => (1, fs', None)
        | (Ok _, fs') =>
            match print_summary self output fs' with
            | Raise _ => (1, fs', None)
            | Ok sm => (0, fs', Some sm)
            end
        end
    end.

End Main.

End Script.

(* ===================================================================== *)
(** * The calendar arithmetic is right *)
(* ===================================================================== *)

Import Py DateTime.

(** Linear arithmetic with division and remainder by constants. *)
Ltac dlia := Z.div_mod_to_equations; lia.

Lemma days_before_year_cycles n400 n100 n4 n1 :
  0 <= n100 <= 3 -> 0 <= n4 <= 24 -> 0 <= n1 <= 3 ->
  days_before_year (n400 * 400 + 1 + (n100 * 100 + n4 * 4 + n1))
  = n400 * DI400Y + n100 * DI100Y + n4 * DI4Y + n1 * 365.
Proof.
  intros. unfold days_before_year, DI400Y, DI100Y, DI4Y. dlia.
Qed.

Lemma is_leap_cycles n400 n100 n4 n1 :
  0 <= n100 <= 3 -> 0 <= n4 <= 24 -> 0 <= n1 <= 3 ->
  is_leap (n400 * 400 + 1 + (n100 * 100 + n4 * 4 + n1))
  = (n1 =? 3) && (negb (n4 =? 24) || (n100 =? 3)).
Proof.
  intros. unfold is_leap.
  apply eq_true_iff_eq.
  rewrite !andb_true_iff, !orb_true_iff, !negb_true_iff, !Z.eqb_eq, !Z.eqb_neq.
  dlia.
Qed.

Ltac closed_tests :=
  simpl (DAYS_BEFORE_MONTH _) in *; simpl (DAYS_IN_MONTH _) in *;
  repeat match goal with
         | |- context [Z.ltb 2 ?c] =>
             let v := eval vm_compute in (Z.ltb 2 c) in change (Z.ltb 2 c) with v
         | |- context [Z.eqb ?c 2] =>
             let v := eval vm_compute in (Z.eqb c 2) in change (Z.eqb c 2) with v
         | H : context [Z.ltb 2 ?c] |- _ =>
             let v := eval vm_compute in (Z.ltb 2 c) in
             change (Z.ltb 2 c) with v in H
         | H : context [Z.eqb ?c 2] |- _ =>
             let v := eval vm_compute in (Z.eqb c 2) in
             change (Z.eqb c 2) with v in H
         end;
  cbn [andb] in *.

Lemma month_of_yday (leap : bool) (n : Z) :
  0 <= n < 365 + (if leap then 1 else 0) ->
  let m := Z.shiftr (n + 50) 5 in
  let preceding := DAYS_BEFORE_MONTH m + (if (2 <? m) && leap then 1 else 0) in
  let '(m', d) :=
    if n <? preceding then
      (m - 1, n - (preceding - (DAYS_IN_MONTH (m - 1)
                                + (if (m - 1 =? 2) && leap then 1 else 0))) + 1)
    else (m, n - preceding + 1) in
  1 <= m' <= 12
  /\ 1 <= d <= (if (m' =? 2) && leap then 29 else DAYS_IN_MONTH m')
  /\ DAYS_BEFORE_MONTH m' + (if (2 <? m') && leap then 1 else 0) + d = n + 1.
Proof.
  intros Hn. rewrite Z.shiftr_div_pow2 by dlia. change (2 ^ 5) with 32.
  assert (Hm : 1 <= (n + 50) / 32 <= 12) by (destruct leap; dlia).
  remember ((n + 50) / 32) as m eqn:Em.
  assert (Hb : 32 * m <= n + 50 < 32 * m + 32) by (subst m; dlia).
  clear Em.
  assert (Hcases : m = 1 \/ m = 2 \/ m = 3 \/ m = 4 \/ m = 5 \/ m = 6 \/ m = 7
                   \/ m = 8 \/ m = 9 \/ m = 10 \/ m = 11 \/ m = 12) by dlia.
  destruct leap;
    repeat (destruct Hcases as [->|Hcases]); try subst m;
    cbv zeta;
    match goal with |- context [Z.ltb n ?b] => destruct (Z.ltb_spec n b) end;
    cbv beta iota zeta; closed_tests; dlia.
Qed.

Lemma ord2ymd_spec ordinal :
  let '(y, m, d) := ord2ymd ordinal in
  ymd2ord y m d = ordinal /\ 1 <= m <= 12 /\ 1 <= d <= days_in_month y m.
Proof.
  unfold ord2ymd. cbv zeta.
  set (n0 := ordinal - 1).
  set (n400 := n0 / DI400Y). set (r1 := n0 mod DI400Y).
  set (n100 := r1 / DI100Y). set (r2 := r1 mod DI100Y).
  set (n4 := r2 / DI4Y). set (r3 := r2 mod DI4Y).
  set (n1 := r3 / 365). set (r4 := r3 mod 365).
  assert (H400 : n0 = n400 * DI400Y + r1 /\ 0 <= r1 < DI400Y)
    by (unfold n400, r1, DI400Y; dlia).
  assert (H100 : r1 = n100 * DI100Y + r2 /\ 0 <= r2 < DI100Y)
    by (unfold n100, r2, DI100Y; dlia).
  assert (H4 : r2 = n4 * DI4Y + r3 /\ 0 <= r3 < DI4Y)
    by (unfold n4, r3, DI4Y; dlia).
  assert (H1 : r3 = n1 * 365 + r4 /\ 0 <= r4 < 365)
    by (unfold n1, r4; dlia).
  assert (Hord : ordinal = n0 + 1) by (unfold n0; dlia).
  clearbody n0 n400 r1 n100 r2 n4 r3 n1 r4.
  unfold DI400Y, DI100Y, DI4Y in *.
  destruct ((n1 =? 4) || (n100 =? 4)) eqn:Hlast.
  - apply orb_true_iff in Hlast. rewrite !Z.eqb_eq in Hlast.
    assert (Hy : exists c, n400 * 400 + 1 + (n100 * 100 + n4 * 4 + n1) - 1 = 4 * c
                           /\ (c mod 25 <> 0 \/ c mod 100 = 0)
                           /\ n0 + 1 = 1461 * c - c / 25 + c / 100).
    { destruct Hlast as [Hn1|Hn100].
      - exists (n400 * 100 + n100 * 25 + n4 + 1). dlia.
      - exists (n400 * 100 + 100). dlia. }
    destruct Hy as (c & -> & Hc & Hn0).
    unfold ymd2ord, days_in_month, days_before_month, days_before_year, is_leap.
    assert (Hleap : ((4 * c) mod 4 =? 0)
                    && (negb ((4 * c) mod 100 =? 0) || ((4 * c) mod 400 =? 0))
                    = true).
    { apply andb_true_iff. rewrite orb_true_iff, negb_true_iff, !Z.eqb_eq, Z.eqb_neq.
      dlia. }
    rewrite Hleap. clear Hleap.
    change (12 =? 2) with false. change (2 <? 12) with true.
    cbn [andb DAYS_BEFORE_MONTH DAYS_IN_MONTH].
    dlia.
  - apply orb_false_iff in Hlast. rewrite !Z.eqb_neq in Hlast.
    assert (Hn100 : 0 <= n100 <= 3) by dlia.
    assert (Hn4 : 0 <= n4 <= 24) by dlia.
    assert (Hn1 : 0 <= n1 <= 3) by dlia.
    set (leap := (n1 =? 3) && (negb (n4 =? 24) || (n100 =? 3))).
    assert (Hr4 : 0 <= r4 < 365 + (if leap then 1 else 0))
      by (destruct leap; dlia).
    pose proof (month_of_yday leap r4 Hr4) as Hm. cbv zeta in Hm.
    unfold ymd2ord, days_in_month, days_before_month.
    destruct (r4 <? _);
      rewrite is_leap_cycles, days_before_year_cycles by assumption;
      fold leap; unfold DI400Y, DI100Y, DI4Y; dlia.
Qed.

Lemma days_in_year y :
  days_before_year (y + 1) - days_before_year y = if is_leap y then 366 else 365.
Proof.
  unfold days_before_year, is_leap.
  destruct (Z.eqb_spec (y mod 4) 0); destruct (Z.eqb_spec (y mod 100) 0);
    destruct (Z.eqb_spec (y mod 400) 0); cbn [andb orb negb]; dlia.
Qed.

Lemma ymd2ord_year_bounds y m d :
  1 <= m <= 12 -> 1 <= d <= days_in_month y m ->
  days_before_year y < ymd2ord y m d <= days_before_year (y + 1).
Proof.
  intros Hm Hd. pose proof (days_in_year y) as Hy.
  unfold ymd2ord, days_before_month, days_in_month in *.
  assert (Hcases : m = 1 \/ m = 2 \/ m = 3 \/ m = 4 \/ m = 5 \/ m = 6 \/ m = 7
                   \/ m = 8 \/ m = 9 \/ m = 10 \/ m = 11 \/ m = 12) by lia.
  destruct (is_leap y);
    repeat (destruct Hcases as [->|Hcases]); try subst m;
    closed_tests; lia.
Qed.

Lemma days_before_year_nonpos y : y <= 1 -> days_before_year y <= 0.
Proof. unfold days_before_year. dlia. Qed.

Lemma days_before_year_large y :
  10000 <= y -> 3652059 <= days_before_year y.
Proof. unfold days_before_year. dlia. Qed.

(** [gmtime] returns the calendar reading of its argument. *)
Lemma gmtime_spec t :
  let dt := gmtime t in
  1 <= month dt <= 12
  /\ 1 <= day dt <= days_in_month (year dt) (month dt)
  /\ 0 <= hour dt <= 23 /\ 0 <= minute dt <= 59 /\ 0 <= second dt <= 59
  /\ timegm dt = t
  /\ microsecond dt = 0.
Proof.
  unfold gmtime, timegm.
  pose proof (ord2ymd_spec (EPOCH_ORD + t / 86400)) as H.
  destruct (ord2ymd (EPOCH_ORD + t / 86400)) as [[y m] d].
  destruct H as (Hord & Hm & Hd). cbn [year month day hour minute second microsecond].
  rewrite Hord. unfold EPOCH_ORD. repeat split; try assumption; dlia.
Qed.

Lemma gmtime_year_range t :
  MIN_SECONDS <= t <= MAX_SECONDS -> MINYEAR <= year (gmtime t) <= MAXYEAR.
Proof.
  intros Ht. unfold gmtime.
  pose proof (ord2ymd_spec (EPOCH_ORD + t / 86400)) as H.
  destruct (ord2ymd (EPOCH_ORD + t / 86400)) as [[y m] d].
  destruct H as (Hord & Hm & Hd). cbn [year].
  pose proof (ymd2ord_year_bounds y m d Hm Hd) as Hb. rewrite Hord in Hb.
  assert (Hn : 1 <= EPOCH_ORD + t / 86400 <= 3652059)
    by (unfold EPOCH_ORD, MIN_SECONDS, MAX_SECONDS in *; dlia).
  unfold MINYEAR, MAXYEAR. split.
  - destruct (Z_lt_le_dec y 1) as [Hlt|]; [|assumption].
    pose proof (days_before_year_nonpos (y + 1)). lia.
  - destruct (Z_lt_le_dec 9999 y) as [Hlt|]; [|assumption].
    pose proof (days_before_year_large y). lia.
Qed.

Section LocalTimeFacts.

Variable utcoffset : Z -> Z.
Hypothesis utcoffset_bound : forall u, -86400 <= utcoffset u <= 86400.

Lemma localtime_ok t :
  MIN_SECONDS <= t + utcoffset t <= MAX_SECONDS ->
  localtime utcoffset t = Ok (gmtime (t + utcoffset t)).
Proof.
  intros Ht. unfold localtime.
  pose proof (gmtime_year_range _ Ht) as Hy. unfold MINYEAR, MAXYEAR in Hy.
  destruct (Z.leb_spec INT_MIN (year (gmtime (t + utcoffset t)) - 1900));
    [|unfold INT_MIN in *; lia].
  destruct (Z.leb_spec (year (gmtime (t + utcoffset t)) - 1900) INT_MAX);
    [reflexivity | unfold INT_MAX in *; lia].
Qed.

Lemma utc_to_seconds_ok dt :
  MINYEAR <= year dt <= MAXYEAR ->
  utc_to_seconds dt = Ok (timegm dt + epoch).
Proof.
  intros Hy. unfold utc_to_seconds, timegm, epoch.
  destruct (Z.ltb_spec (year dt) MINYEAR); [lia|].
  destruct (Z.ltb_spec MAXYEAR (year dt)); [lia|].
  cbn [orb]. f_equal. lia.
Qed.

Lemma in_time_t_calendar t :
  MIN_SECONDS - 86400 <= t <= MAX_SECONDS + 86400 -> in_time_t t = true.
Proof.
  unfold in_time_t, TIME_T_MIN, TIME_T_MAX, MIN_SECONDS, MAX_SECONDS. intros Ht.
  apply andb_true_iff. rewrite !Z.leb_le. lia.
Qed.

Lemma local_ok t u :
  u = epoch + t ->
  MIN_SECONDS <= t + utcoffset t <= MAX_SECONDS ->
  local utcoffset u = Ok (t + utcoffset t + epoch).
Proof.
  intros -> Ht. unfold local. pose proof (utcoffset_bound t).
  replace (epoch + t - epoch) with t by lia.
  rewrite in_time_t_calendar by lia.
  rewrite localtime_ok by exact Ht. unfold rbind.
  rewrite utc_to_seconds_ok by (apply gmtime_year_range; exact Ht).
  f_equal. pose proof (gmtime_spec (t + utcoffset t)) as Hg.
  cbv zeta in Hg. destruct Hg as (_ & _ & _ & _ & _ & Hg & _). rewrite Hg.
  reflexivity.
Qed.

Lemma rbind_Ok {A B} (a : A) (k : A -> result B) : rbind (Ok a) k = k a.
Proof. reflexivity. Qed.

Lemma gmtime_calendar_time t us :
  MIN_SECONDS <= t <= MAX_SECONDS ->
  let tm := gmtime t in
  is_calendar_time
    (mk_datetime (year tm) (month tm) (day tm) (hour tm) (minute tm)
                 (Z.min 59 (second tm)) us) t us.
Proof.
  intros Ht. pose proof (gmtime_spec t) as Hg. cbv zeta in Hg.
  pose proof (gmtime_year_range t Ht) as Hy. cbv zeta.
  destruct (gmtime t) as [y m d h mi sec us0].
  cbn [year month day hour minute second microsecond] in *.
  destruct Hg as (Hm & Hd & Hh & Hmi & Hs & Htg & Hus).
  unfold is_calendar_time.
  cbn [year month day hour minute second microsecond].
  rewrite Z.min_r by lia.
  split; [exact Hy|]. split; [exact Hm|]. split; [exact Hd|].
  split; [exact Hh|]. split; [exact Hmi|]. split; [exact Hs|].
  split; [exact Htg | reflexivity].
Qed.

(** Inside the calendar the conversion to local time returns, and
    what it returns is the calendar reading of the local instant. *)
Lemma from_timet_and_us_ok timet us :
  convertible timet ->
  exists dt,
    from_timet_and_us utcoffset timet us = Ok dt
    /\ is_calendar_time dt (timet + utcoffset timet) us.
Proof.
  unfold convertible. intros Ht.
  pose proof (utcoffset_bound timet) as Ho.
  pose proof (utcoffset_bound (timet - max_fold_seconds)) as Ho1.
  assert (Hmf : max_fold_seconds = 86400) by reflexivity.
  assert (HL : MIN_SECONDS <= timet + utcoffset timet <= MAX_SECONDS) by lia.
  pose proof (gmtime_calendar_time _ us HL) as Hcal. cbv zeta in Hcal.
  unfold from_timet_and_us. rewrite localtime_ok by exact HL.
  rewrite rbind_Ok.
  remember (gmtime (timet + utcoffset timet)) as tm eqn:Etm. clear Etm.
  remember (mk_datetime (year tm) (month tm) (day tm) (hour tm) (minute tm)
                        (Z.min 59 (second tm)) us) as dt eqn:Edt.
  clear Edt tm.
  exists dt. split; [|exact Hcal].
  rewrite utc_to_seconds_ok by (destruct Hcal as [H _]; exact H).
  rewrite rbind_Ok.
  destruct Hcal as (_ & _ & _ & _ & _ & _ & Hdt & _). rewrite Hdt. clear Hdt.
  rewrite (local_ok (timet - max_fold_seconds)) by lia.
  rewrite rbind_Ok.
  match goal with
  | |- context [Z.ltb ?a 0] => destruct (Z.ltb_spec a 0) as [Hneg|]
  end; [|reflexivity].
  pose proof (utcoffset_bound
                (timet + (utcoffset timet
                          - utcoffset (timet - max_fold_seconds)))) as Ho3.
  rewrite (local_ok (timet + (utcoffset timet
                              - utcoffset (timet - max_fold_seconds))))
    by lia.
  rewrite rbind_Ok. reflexivity.
Qed.

End LocalTimeFacts.

(* ===================================================================== *)
(** * Properties of the conversion *)
(* ===================================================================== *)

Import Py DateTime Exporter.
Local Open Scope py_scope.

Section ConvertFacts.

Variable utcoffset : Z -> Z.
Variable clock : nat -> datetime.

Local Abbreviation convert := (convert_to_conversation_chunk utcoffset clock).
Local Abbreviation extract := (extract_timestamp utcoffset clock).

Lemma convert_dict doc_id document kvs embedding self :
  convert doc_id document (VDict kvs) embedding self =
  match extract (VDict kvs) self with
  | (Ok ts, self') => (Ok (chunk_of doc_id document kvs embedding ts), self')
  | (Raise e, self') => (Raise e, self')
  end.
Proof.
  unfold convert_to_conversation_chunk, bind at 1.
  destruct (extract (VDict kvs) self) as [[ts|e] self']; reflexivity.
Qed.

Lemma extract_not_dict md self :
  (forall kvs, md <> VDict kvs) -> extract md self = (Raise AttributeError, self).
Proof.
  intros H. destruct md; try reflexivity. exfalso. eapply H. reflexivity.
Qed.

Lemma convert_not_dict doc_id document md embedding self :
  (forall kvs, md <> VDict kvs) ->
  convert doc_id document md embedding self = (Raise AttributeError, self).
Proof.
  intros H. unfold convert_to_conversation_chunk, bind at 1.
  rewrite extract_not_dict by exact H. reflexivity.
Qed.

(** A successful conversion had a dict for metadata and returns
    [chunk_of] its items. *)
Lemma convert_ok_inv doc_id document md embedding self c self' :
  convert doc_id document md embedding self = (Ok c, self') ->
  exists kvs ts, md = VDict kvs /\ extract md self = (Ok ts, self')
                 /\ c = chunk_of doc_id document kvs embedding ts.
Proof.
  intros H. destruct md as [| | | | | |kvs];
    try (rewrite convert_not_dict in H by discriminate; discriminate).
  rewrite convert_dict in H.
  destruct (extract (VDict kvs) self) as [[ts|e] s1] eqn:E; inversion H; subst.
  exists kvs, ts. auto.
Qed.

Lemma assoc_filter_key {A} (keep : string -> bool) k (kvs : list (string * A)) :
  assoc k (filter (fun '(k', _) => keep k') kvs) =
  if keep k then assoc k kvs else None.
Proof.
  induction kvs as [|[k' v] rest IH]; simpl.
  - destruct (keep k); reflexivity.
  - destruct (keep k') eqn:Ek'; simpl.
    + destruct (String.eqb_spec k k') as [->|Hne].
      * rewrite Ek'. reflexivity.
      * exact IH.
    + destruct (String.eqb_spec k k') as [->|Hne].
      * rewrite IH, Ek'. reflexivity.
      * exact IH.
Qed.

Lemma str_in_In k keys : str_in k keys = true <-> In k keys.
Proof.
  unfold str_in. rewrite existsb_exists. split.
  - intros [x [Hin Heq]]. apply String.eqb_eq in Heq. subst. exact Hin.
  - intros Hin. exists k. split; [exact Hin | apply String.eqb_refl].
Qed.

Lemma convert_extended_metadata doc_id document kvs embedding self c self' :
  convert doc_id document (VDict kvs) embedding self = (Ok c, self') ->
  extended_metadata (metadata c) =
  filter (fun '(k, v) => negb (str_in k reserved_keys)) kvs.
Proof.
  intros H. apply convert_ok_inv in H.
  destruct H as (kvs' & ts & Hmd & _ & ->). inversion Hmd; subst. reflexivity.
Qed.

(** C6: the [extended_metadata] of a converted record holds none of the
    seven reserved keys, holds every other item of the source metadata
    with its source value, and looking a key up in it gives what the
    source gives, whatever the order of the source items. *)
Theorem extended_metadata_drops_reserved_keeps_rest :
  forall doc_id document kvs embedding self c self',
    convert_to_conversation_chunk utcoffset clock doc_id document (VDict kvs)
      embedding self = (Ok c, self') ->
    (forall k v, In (k, v) (extended_metadata (metadata c)) ->
                 ~ In k reserved_keys)
    /\ (forall k v, In (k, v) kvs -> ~ In k reserved_keys ->
                    In (k, v) (extended_metadata (metadata c)))
    /\ (forall k, assoc k (extended_metadata (metadata c)) =
                  if str_in k reserved_keys then None else assoc k kvs).
Proof.
  intros doc_id document kvs embedding self c self' H.
  rewrite (convert_extended_metadata _ _ _ _ _ _ _ H).
  split; [|split].
  - intros k v Hin. apply filter_In in Hin. destruct Hin as [_ Hk].
    intros Hres. apply str_in_In in Hres. rewrite Hres in Hk. discriminate.
  - intros k v Hin Hres. apply filter_In. split; [exact Hin|].
    destruct (str_in k reserved_keys) eqn:E; [|reflexivity].
    apply str_in_In in E. contradiction.
  - intros k.
    rewrite (assoc_filter_key (fun k' => negb (str_in k' reserved_keys))).
    destruct (str_in k reserved_keys); reflexivity.
Qed.

(** C5, as the code has it: the keys of [extended_metadata] are exactly
    the keys of the source metadata that are not among the seven
    reserved ones. *)
Theorem extended_metadata_keys :
  forall doc_id document kvs embedding self c self',
    convert_to_conversation_chunk utcoffset clock doc_id document (VDict kvs)
      embedding self = (Ok c, self') ->
    forall k, In k (map fst (extended_metadata (metadata c)))
              <-> In k (map fst kvs) /\ ~ In k reserved_keys.
Proof.
  intros doc_id document kvs embedding self c self' H k.
  rewrite (convert_extended_metadata _ _ _ _ _ _ _ H).
  rewrite !in_map_iff. split.
  - intros [[k' v] [Hk Hin]]. simpl in Hk. subst k'.
    apply filter_In in Hin. destruct Hin as [Hin Hkeep]. split.
    + exists (k, v). auto.
    + intros Hres. apply str_in_In in Hres. rewrite Hres in Hkeep. discriminate.
  - intros [[[k' v] [Hk Hin]] Hres]. simpl in Hk. subst k'.
    exists (k, v). split; [reflexivity|]. apply filter_In. split; [exact Hin|].
    destruct (str_in k reserved_keys) eqn:E; [|reflexivity].
    apply str_in_In in E. contradiction.
Qed.

End ConvertFacts.

Lemma extended_metadata_drops_reserved_keeps_rest_witness :
  let kvs := [("session_id", VStr "s1"); ("tags", VList [VStr "t"]);
              ("topic", VStr "export")] in
  let c := chunk_of (VStr "a") (VStr "text") kvs (VList [])
             (VStr (isoformat (sample_clock 0))) in
  convert_to_conversation_chunk utc sample_clock (VStr "a") (VStr "text")
    (VDict kvs) (VList []) init = (Ok c, mk_exporter (stats init) 1)
  /\ assoc "topic" (extended_metadata (metadata c)) = Some (VStr "export")
  /\ assoc "tags" (extended_metadata (metadata c)) = None.
Proof.
  split; [reflexivity|].
  pose proof (extended_metadata_drops_reserved_keeps_rest utc sample_clock
                (VStr "a") (VStr "text")
                [("session_id", VStr "s1"); ("tags", VList [VStr "t"]);
                 ("topic", VStr "export")] (VList []) init _ _ eq_refl)
    as (_ & _ & H).
  split; [exact (H "topic") | exact (H "tags")].
Defined.

Lemma extended_metadata_keys_witness :
  let kvs := [("branch", VStr "dev"); ("topic", VStr "export")] in
  let c := chunk_of (VStr "a") (VStr "text") kvs (VList [])
             (VStr (isoformat (sample_clock 0))) in
  convert_to_conversation_chunk utc sample_clock (VStr "a") (VStr "text")
    (VDict kvs) (VList []) init = (Ok c, mk_exporter (stats init) 1)
  /\ (In "topic" (map fst (extended_metadata (metadata c)))
      <-> In "topic" (map fst kvs) /\ ~ In "topic" reserved_keys).
Proof.
  split; [reflexivity|].
  exact (extended_metadata_keys utc sample_clock (VStr "a") (VStr "text")
           [("branch", VStr "dev"); ("topic", VStr "export")] (VList []) init
           _ _ eq_refl "topic").
Defined.

(** C5 as the specification words it fails: [session_id] is a field of
    the specification's table, and a source [session_id] is still copied
    into [extended_metadata]. *)
Lemma extended_metadata_keeps_table_field :
  exists c self',
    convert_to_conversation_chunk utc sample_clock (VStr "a") (VStr "text")
      (VDict [("session_id", VStr "s1")]) (VList []) init = (Ok c, self')
    /\ In "session_id" table_fields
    /\ In "session_id" (map fst (extended_metadata (metadata c))).
Proof.
  eexists. eexists. split; [reflexivity|]. split; simpl; auto.
Qed.

(* ===================================================================== *)
(** * Properties of the export of a collection *)
(* ===================================================================== *)

Section ExportFacts.

Variable utcoffset : Z -> Z.
Variable clock : nat -> datetime.
Variable chroma_path : string.
Variable persistent_client : bool -> result unit.
Variable list_collection_names : result (list string).
Variable get_collection : string -> result collection.

Local Abbreviation extract := (extract_timestamp utcoffset clock).
Local Abbreviation convert := (convert_to_conversation_chunk utcoffset clock).
Local Abbreviation process := (process_document utcoffset clock).
Local Abbreviation export_doc := (export_document utcoffset clock).
Local Abbreviation export_coll := (export_collection utcoffset clock get_collection).
Local Abbreviation enumeration_raises := (Exporter.enumeration_raises get_collection).

(** Converting a record reads the clock at most; it leaves the
    counters alone, and whether it raises does not depend on the
    exporter's state. *)
Lemma extract_stats md self :
  stats (snd (extract md self)) = stats self.
Proof.
  destruct md as [| | | | | |kvs]; try reflexivity.
  unfold extract_timestamp, bind, lift. simpl.
  destruct (assoc "timestamp" kvs) as [ts|]; [|reflexivity].
  destruct (is_number ts).
  - destruct (fromtimestamp utcoffset ts); reflexivity.
  - destruct ts; try reflexivity.
    unfold try_except. destruct (fromisoformat _); reflexivity.
Qed.

Lemma extract_ok_any_state md self self' :
  is_ok (fst (extract md self)) = is_ok (fst (extract md self')).
Proof.
  destruct md as [| | | | | |kvs]; try reflexivity.
  unfold extract_timestamp, bind, lift. simpl.
  destruct (assoc "timestamp" kvs) as [ts|]; [|reflexivity].
  destruct (is_number ts).
  - destruct (fromtimestamp utcoffset ts); reflexivity.
  - destruct ts; try reflexivity.
    unfold try_except. destruct (fromisoformat _); reflexivity.
Qed.

Lemma convert_stats doc_id document md embedding self :
  stats (snd (convert doc_id document md embedding self)) = stats self.
Proof.
  destruct md as [| | | | | |kvs]; try reflexivity.
  rewrite convert_dict. pose proof (extract_stats (VDict kvs) self) as H.
  destruct (extract (VDict kvs) self) as [[ts|e] s1]; exact H.
Qed.

Lemma convert_ok_any_state doc_id document md embedding self self' :
  is_ok (fst (convert doc_id document md embedding self)) =
  is_ok (fst (convert doc_id document md embedding self')).
Proof.
  destruct md as [| | | | | |kvs]; try reflexivity.
  rewrite !convert_dict.
  pose proof (extract_ok_any_state (VDict kvs) self self') as H.
  destruct (extract (VDict kvs) self) as [[ts|e] s1];
    destruct (extract (VDict kvs) self') as [[ts'|e'] s1']; simpl in *;
    congruence.
Qed.

(** [process_document] is four pure look-ups and then the conversion. *)
Lemma process_document_unfold results i self :
  process results i self =
  match entry results "ids" i (VStr ("doc_" ++ string_of_nat i)) with
  | Raise e => (Raise e, self)
  | Ok doc_id =>
    match entry results "documents" i (VStr "") with
    | Raise e => (Raise e, self)
    | Ok document =>
      match entry results "metadatas" i (VDict []) with
      | Raise e => (Raise e, self)
      | Ok md =>
        match entry results "embeddings" i (VList []) with
        | Raise e => (Raise e, self)
        | Ok embedding => convert doc_id document md embedding self
        end
      end
    end
  end.
Proof.
  unfold process_document, bind, lift.
  destruct (entry results "ids" i _); [|reflexivity].
  destruct (entry results "documents" i _); [|reflexivity].
  destruct (entry results "metadatas" i _); [|reflexivity].
  destruct (entry results "embeddings" i _); reflexivity.
Qed.

Lemma process_document_stats results i self :
  stats (snd (process results i self)) = stats self.
Proof.
  rewrite process_document_unfold.
  destruct (entry results "ids" i _); [|reflexivity].
  destruct (entry results "documents" i _); [|reflexivity].
  destruct (entry results "metadatas" i _); [|reflexivity].
  destruct (entry results "embeddings" i _); [|reflexivity].
  apply convert_stats.
Qed.

Lemma process_document_ok_any_state results i self self' :
  is_ok (fst (process results i self)) = is_ok (fst (process results i self')).
Proof.
  rewrite !process_document_unfold.
  destruct (entry results "ids" i _); [|reflexivity].
  destruct (entry results "documents" i _); [|reflexivity].
  destruct (entry results "metadatas" i _); [|reflexivity].
  destruct (entry results "embeddings" i _); [|reflexivity].
  apply convert_ok_any_state.
Qed.

(** One turn of the loop, case by case. *)
Lemma export_document_unfold results i chunks self :
  export_doc results i chunks self =
  match process results i self with
  | (Ok c, s1) =>
      (Ok (chunks ++ [c])%list,
       mk_exporter (incr_exported_chunks (stats s1)) (clock_reads s1))
  | (Raise e, s1) =>
      (Ok chunks, mk_exporter (incr_errors (stats s1)) (clock_reads s1))
  end.
Proof.
  unfold export_document, try_except, bind.
  destruct (process_document utcoffset clock results i self) as [[c|e] s1];
    reflexivity.
Qed.

Lemma extract_ok_str md self ts self' :
  extract md self = (Ok ts, self') -> exists s, ts = VStr s.
Proof.
  destruct md as [| | | | | |kvs]; try discriminate.
  unfold extract_timestamp, bind, lift. simpl.
  destruct (match assoc "timestamp" kvs with Some v => v | None => VNone end)
    as [| | | |s| |] eqn:E; simpl.
  - intros H. inversion H. eauto.
  - destruct (fromtimestamp utcoffset (VBool b)); intros H; inversion H; eauto.
  - destruct (fromtimestamp utcoffset (VInt n)); intros H; inversion H; eauto.
  - destruct (fromtimestamp utcoffset (VFloat x)); intros H; inversion H; eauto.
  - unfold try_except. destruct (fromisoformat _); intros H; inversion H; eauto.
  - intros H. inversion H. eauto.
  - intros H. inversion H. eauto.
Qed.

Lemma process_document_canonical results i self c self' :
  process results i self = (Ok c, self') -> canonical_record_of results i c.
Proof.
  rewrite process_document_unfold. unfold canonical_record_of.
  destruct (entry results "ids" i _) as [doc_id|]; [|discriminate].
  destruct (entry results "documents" i _) as [document|]; [|discriminate].
  destruct (entry results "metadatas" i _) as [md|]; [|discriminate].
  destruct (entry results "embeddings" i _) as [embedding|]; [|discriminate].
  intros H. apply convert_ok_inv in H. destruct H as (kvs & ts & -> & Hts & ->).
  apply extract_ok_str in Hts. destruct Hts as [s ->].
  exists doc_id, document, kvs, embedding, s. auto.
Qed.

Lemma document_ok_any_state results i self :
  is_ok (fst (process results i self)) = document_ok utcoffset clock results i.
Proof. apply process_document_ok_any_state. Qed.

(** What one turn of the loop does, by whether the document converts. *)
Lemma export_document_ok results i chunks self :
  document_ok utcoffset clock results i = true ->
  exists c self',
    export_doc results i chunks self = (Ok (chunks ++ [c])%list, self')
    /\ canonical_record_of results i c
    /\ stats self' = incr_exported_chunks (stats self).
Proof.
  intros Hok. rewrite export_document_unfold.
  rewrite <- (document_ok_any_state results i self) in Hok.
  pose proof (process_document_stats results i self) as Hst.
  destruct (process results i self) as [[c|e] s1] eqn:E; [|discriminate].
  exists c. eexists. split; [reflexivity|]. split.
  - eapply process_document_canonical. exact E.
  - simpl in *. rewrite Hst. reflexivity.
Qed.

Lemma export_document_fail results i chunks self :
  document_ok utcoffset clock results i = false ->
  exists self',
    export_doc results i chunks self = (Ok chunks, self')
    /\ stats self' = incr_errors (stats self).
Proof.
  intros Hok. rewrite export_document_unfold.
  rewrite <- (document_ok_any_state results i self) in Hok.
  pose proof (process_document_stats results i self) as Hst.
  destruct (process results i self) as [[c|e] s1] eqn:E; [discriminate|].
  eexists. split; [reflexivity|]. simpl in *. rewrite Hst. reflexivity.
Qed.

(** C2: each turn of the loop of [export_collection] ends in one of two
    ways, whatever the record holds.  Either the whole record built by
    the conversion is appended and the chunk counter goes up by one
    while the error counter stays; or the list is left as it was and
    the error counter goes up by one while the chunk counter stays.  No
    turn raises, and nothing else is ever appended. *)
Theorem export_document_appends_or_counts :
  forall results i chunks self,
    (exists c self',
        export_document utcoffset clock results i chunks self
        = (Ok (chunks ++ [c])%list, self')
        /\ canonical_record_of results i c
        /\ exported_chunks (stats self') = exported_chunks (stats self) + 1
        /\ errors (stats self') = errors (stats self))
    \/ (exists self',
        export_document utcoffset clock results i chunks self
        = (Ok chunks, self')
        /\ exported_chunks (stats self') = exported_chunks (stats self)
        /\ errors (stats self') = errors (stats self) + 1).
Proof.
  intros results i chunks self.
  destruct (document_ok utcoffset clock results i) eqn:Hok.
  - left. destruct (export_document_ok results i chunks self Hok)
      as (c & self' & Hrun & Hcan & Hst).
    exists c, self'. rewrite Hst. auto.
  - right. destruct (export_document_fail results i chunks self Hok)
      as (self' & Hrun & Hst).
    exists self'. rewrite Hst. auto.
Qed.

(** The loop over a list of indices: it never raises, appends one
    canonical record for each index that converts, and counts the
    others as errors. *)
Lemma for_each_export_document results idxs : forall chunks self,
  exists new self',
    for_each idxs (export_doc results) chunks self
    = (Ok (chunks ++ new)%list, self')
    /\ List.length new = List.length (filter (document_ok utcoffset clock results) idxs)
    /\ Forall (fun c => exists i, In i idxs /\ canonical_record_of results i c) new
    /\ collections (stats self') = collections (stats self)
    /\ total_documents (stats self') = total_documents (stats self)
    /\ exported_chunks (stats self')
       = exported_chunks (stats self) + Z.of_nat (List.length new)
    /\ errors (stats self')
       = errors (stats self) + Z.of_nat (List.length idxs - List.length new).
Proof.
  induction idxs as [|i rest IH]; intros chunks self.
  - exists [], self. simpl. rewrite app_nil_r.
    repeat split; auto; lia.
  - simpl for_each. unfold bind at 1.
    destruct (document_ok utcoffset clock results i) eqn:Hok.
    + destruct (export_document_ok results i chunks self Hok)
        as (c & s1 & Hrun & Hcan & Hst).
      rewrite Hrun.
      destruct (IH (chunks ++ [c])%list s1)
        as (new & s2 & Hloop & Hlen & Hall & Hc & Ht & Hx & He).
      exists (c :: new), s2. rewrite Hloop, <- app_assoc. simpl app.
      split; [reflexivity|]. cbn [filter]. rewrite Hok. cbn [List.length].
      rewrite Hst in Hc, Ht, Hx, He. simpl in Hc, Ht, Hx, He.
      assert (Hle : (List.length new <= List.length rest)%nat).
      { rewrite Hlen. apply filter_length_le. }
      split; [lia|]. split; [|repeat split; lia].
      constructor.
      * exists i. split; [left; reflexivity | exact Hcan].
      * eapply Forall_impl; [|exact Hall]. intros c' [j [Hj Hcj]].
        exists j. split; [right; exact Hj | exact Hcj].
    + destruct (export_document_fail results i chunks self Hok)
        as (s1 & Hrun & Hst).
      rewrite Hrun.
      destruct (IH chunks s1)
        as (new & s2 & Hloop & Hlen & Hall & Hc & Ht & Hx & He).
      exists new, s2. rewrite Hloop.
      split; [reflexivity|]. cbn [filter]. rewrite Hok. cbn [List.length].
      rewrite Hst in Hc, Ht, Hx, He. simpl in Hc, Ht, Hx, He.
      assert (Hle : (List.length new <= List.length rest)%nat).
      { rewrite Hlen. apply filter_length_le. }
      split; [lia|]. split; [|repeat split; lia].
      eapply Forall_impl; [|exact Hall]. intros c' [j [Hj Hcj]].
      exists j. split; [right; exact Hj | exact Hcj].
Qed.

(** A collection that opens and lists [n] ids. *)
Lemma export_collection_opened name results n self :
  get_collection name = Ok (Ok results) ->
  rbind (get results "ids" (VList [])) len = Ok n ->
  exists chunks self',
    export_coll name self = (Ok chunks, self')
    /\ List.length chunks
       = List.length (filter (document_ok utcoffset clock results) (seq 0 n))
    /\ Forall (fun c => exists i, (i < n)%nat /\ canonical_record_of results i c)
         chunks
    /\ collections (stats self') = collections (stats self)
    /\ total_documents (stats self') = total_documents (stats self) + Z.of_nat n
    /\ exported_chunks (stats self')
       = exported_chunks (stats self) + Z.of_nat (List.length chunks)
    /\ errors (stats self')
       = errors (stats self) + Z.of_nat (n - List.length chunks).
Proof.
  intros Hget Hcount.
  destruct (for_each_export_document results (seq 0 n) [] self)
    as (new & s1 & Hloop & Hlen & Hall & Hc & Ht & Hx & He).
  simpl app in Hloop. rewrite length_seq in He.
  unfold export_collection, try_except, bind at 1, lift.
  rewrite Hget. unfold bind at 1. unfold bind at 1. rewrite Hcount.
  unfold bind at 1. rewrite Hloop. unfold bind, modify_stats, ret.
  exists new. eexists. split; [reflexivity|]. simpl.
  split; [exact Hlen|]. split; [|repeat split; lia].
  eapply Forall_impl; [|exact Hall]. intros c [i [Hi Hcan]].
  exists i. apply in_seq in Hi. split; [lia | exact Hcan].
Qed.

Lemma export_collection_failed name self :
  enumeration_raises name ->
  export_coll name self
  = (Ok [], mk_exporter (incr_errors (stats self)) (clock_reads self)).
Proof.
  unfold export_collection, try_except, bind at 1, lift.
  intros [[e H] | [[e H] | (results & e & H & Hcount)]]; rewrite H.
  - reflexivity.
  - reflexivity.
  - unfold bind at 1. unfold bind at 1. rewrite Hcount. reflexivity.
Qed.

Lemma enumeration_raises_dec name :
  enumeration_raises name
  \/ exists results n, get_collection name = Ok (Ok results)
                       /\ rbind (get results "ids" (VList [])) len = Ok n.
Proof.
  unfold Exporter.enumeration_raises.
  destruct (get_collection name) as [[results|e]|e] eqn:E.
  - destruct (rbind (get results "ids" (VList [])) len) as [n|e] eqn:En.
    + right. eauto.
    + left. right. right. eauto.
  - left. right. left. eauto.
  - left. left. eauto.
Qed.

(** [export_collection] never raises, and the chunk counter grows by
    the number of chunks it returns. *)
Lemma export_collection_counts name self :
  exists chunks self',
    export_coll name self = (Ok chunks, self')
    /\ exported_chunks (stats self')
       = exported_chunks (stats self) + Z.of_nat (List.length chunks).
Proof.
  destruct (enumeration_raises_dec name) as [Hfail | (results & n & Hget & Hn)].
  - rewrite (export_collection_failed name self Hfail).
    eexists. eexists. split; [reflexivity|]. simpl. lia.
  - destruct (export_collection_opened name results n self Hget Hn)
      as (chunks & self' & Hrun & _ & _ & _ & _ & Hx & _).
    exists chunks, self'. auto.
Qed.

Lemma filter_all_but_one {A} (f : A -> bool) (k : A) (l : list A) :
  NoDup l -> In k l -> f k = false ->
  (forall i, In i l -> i <> k -> f i = true) ->
  S (List.length (filter f l)) = List.length l.
Proof.
  induction l as [|x rest IH]; intros Hnd Hin Hk Hothers; [destruct Hin|].
  inversion Hnd as [|x' rest' Hx Hrest]; subst.
  destruct Hin as [->|Hin].
  - cbn [filter]. rewrite Hk. cbn [List.length]. f_equal.
    f_equal. rewrite forallb_filter_id; [reflexivity|].
    apply forallb_forall. intros i Hi. apply Hothers; [right; exact Hi|].
    intros ->. contradiction.
  - cbn [filter]. rewrite (Hothers x); [|left; reflexivity|].
    + cbn [List.length]. f_equal. apply IH; auto.
      intros i Hi Hne. apply Hothers; [right; exact Hi | exact Hne].
    + intros ->. contradiction.
Qed.

(** C7: when a collection of [n] records opens and exactly one record,
    at index [k], fails to convert, [export_collection] returns [n - 1]
    chunks without raising, and the error counter goes up by one. *)
Theorem one_failing_record_is_skipped :
  forall name results n k self,
    get_collection name = Ok (Ok results) ->
    rbind (get results "ids" (VList [])) len = Ok n ->
    (k < n)%nat ->
    document_ok utcoffset clock results k = false ->
    (forall i, (i < n)%nat -> i <> k ->
               document_ok utcoffset clock results i = true) ->
    exists chunks self',
      export_collection utcoffset clock get_collection name self
      = (Ok chunks, self')
      /\ List.length chunks = (n - 1)%nat
      /\ errors (stats self') = errors (stats self) + 1
      /\ exported_chunks (stats self')
         = exported_chunks (stats self) + Z.of_nat (n - 1).
Proof.
  intros name results n k self Hget Hn Hk Hfail Hothers.
  destruct (export_collection_opened name results n self Hget Hn)
    as (chunks & self' & Hrun & Hlen & _ & _ & _ & Hx & He).
  assert (Hcount : S (List.length chunks) = n).
  { rewrite Hlen.
    rewrite (filter_all_but_one (document_ok utcoffset clock results) k).
    - apply length_seq.
    - apply seq_NoDup.
    - apply in_seq. lia.
    - exact Hfail.
    - intros i Hi Hne. apply Hothers; [apply in_seq in Hi; lia | exact Hne]. }
  exists chunks, self'. split; [exact Hrun|].
  split; [lia|]. split.
  - rewrite He. replace (n - List.length chunks)%nat with 1%nat by lia. lia.
  - rewrite Hx. f_equal. f_equal. lia.
Qed.

(** C8: when opening a collection or enumerating it raises,
    [export_collection] returns the empty list without raising, and
    the error counter goes up by exactly one. *)
Theorem failed_enumeration_is_counted :
  forall name self,
    Exporter.enumeration_raises get_collection name ->
    exists self',
      export_collection utcoffset clock get_collection name self = (Ok [], self')
      /\ errors (stats self') = errors (stats self) + 1
      /\ exported_chunks (stats self') = exported_chunks (stats self)
      /\ total_documents (stats self') = total_documents (stats self)
      /\ collections (stats self') = collections (stats self).
Proof.
  intros name self H. rewrite (export_collection_failed name self H).
  eexists. split; [reflexivity|]. simpl. auto.
Qed.

(** The loop of [export_all] over the collection names. *)
Lemma for_each_export_collection names : forall all_chunks self,
  exists new self',
    for_each names
      (fun collection_name all_chunks =>
         chunks <- export_coll collection_name ;;
         modify_stats incr_collections ;;;
         ret (all_chunks ++ chunks)%list) all_chunks self
    = (Ok (all_chunks ++ new)%list, self')
    /\ exported_chunks (stats self')
       = exported_chunks (stats self) + Z.of_nat (List.length new).
Proof.
  induction names as [|name rest IH]; intros all_chunks self.
  - exists [], self. simpl. rewrite app_nil_r. split; [reflexivity | lia].
  - cbn [for_each]. unfold bind at 1. unfold bind at 1.
    destruct (export_collection_counts name self) as (chunks & s1 & Hrun & Hx).
    rewrite Hrun. unfold bind at 1, modify_stats at 1, ret at 1.
    destruct (IH (all_chunks ++ chunks)%list
                 (mk_exporter (incr_collections (stats s1)) (clock_reads s1)))
      as (new & s2 & Hloop & Hx2).
    rewrite Hloop. exists (chunks ++ new)%list, s2.
    rewrite app_assoc. split; [reflexivity|].
    rewrite Hx2, length_app. simpl. rewrite Hx. lia.
Qed.

(** A run of [export_all] that returns: the chunk counter has grown by
    the number of chunks in the envelope. *)
Lemma export_all_counts self e self' :
  export_all utcoffset clock chroma_path persistent_client
    list_collection_names get_collection self = (Ok e, self') ->
  exported_chunks (stats self')
  = exported_chunks (stats self) + Z.of_nat (List.length (chunks e)).
Proof.
  unfold export_all, bind at 1, connect, try_except, lift.
  destruct (persistent_client true) as [[]|e1]; [|destruct (persistent_client false) as [[]|e2]].
  3: discriminate.
  all: unfold bind at 1, list_collections, try_except, lift.
  all: destruct list_collection_names as [[|name rest]|e0].
  all: try (unfold get_export_metadata, bind, now, ret; simpl;
            intros H; inversion H; subst; simpl; lia).
  all: unfold bind at 1.
  all: destruct (for_each_export_collection (name :: rest) [] self)
         as (new & s1 & Hloop & Hx); rewrite Hloop.
  all: unfold get_export_metadata, bind, now, ret; simpl.
  all: intros H; inversion H; subst; simpl; exact Hx.
Qed.


End ExportFacts.

Lemma one_failing_record_is_skipped_witness :
  exists chunks self',
    export_collection utc sample_clock sample_get_collection "memories" init
    = (Ok chunks, self')
    /\ List.length chunks = 2%nat
    /\ errors (stats self') = 1
    /\ exported_chunks (stats self') = 2.
Proof.
  apply (one_failing_record_is_skipped utc sample_clock sample_get_collection
           "memories" sample_results 3 1 init).
  - reflexivity.
  - reflexivity.
  - lia.
  - reflexivity.
  - intros [|[|[|i]]] Hi Hne; try reflexivity; [congruence | lia ..].
Defined.

Lemma failed_enumeration_is_counted_witness :
  exists self',
    export_collection utc sample_clock sample_get_collection "missing" init
    = (Ok [], self')
    /\ errors (stats self') = 1
    /\ exported_chunks (stats self') = 0
    /\ total_documents (stats self') = 0
    /\ collections (stats self') = 0.
Proof.
  apply (failed_enumeration_is_counted utc sample_clock sample_get_collection
           "missing" init).
  left. exists StoreError. reflexivity.
Defined.


(* ===================================================================== *)
(** * Properties of the timestamp normalization *)
(* ===================================================================== *)

Section TimestampFacts.

Variable utcoffset : Z -> Z.
Variable clock : nat -> datetime.

Local Abbreviation extract := (extract_timestamp utcoffset clock).

Lemma object_to_timeval_number t tv :
  object_to_timeval t = Ok tv -> is_number t = true.
Proof. destruct t; try discriminate; reflexivity. Qed.

Lemma extract_numeric kvs t self :
  assoc "timestamp" kvs = Some t -> is_number t = true ->
  extract (VDict kvs) self =
  match fromtimestamp utcoffset t with
  | Ok dt => (Ok (VStr (isoformat dt)), self)
  | Raise e => (Raise e, self)
  end.
Proof.
  intros Hts Hnum. unfold extract_timestamp, bind at 1, lift at 1, get.
  rewrite Hts, Hnum. unfold bind, lift, ret.
  destruct (fromtimestamp utcoffset t); reflexivity.
Qed.

Lemma extract_string kvs s self :
  assoc "timestamp" kvs = Some (VStr s) ->
  extract (VDict kvs) self =
  if is_ok (fromisoformat (replace "Z" "+00:00" s))
  then (Ok (VStr s), self)
  else (Ok (VStr (isoformat (clock (clock_reads self)))),
        mk_exporter (stats self) (S (clock_reads self))).
Proof.
  intros Hts. unfold extract_timestamp, bind at 1, lift at 1, get.
  rewrite Hts. cbn [is_number]. unfold try_except, bind, lift, ret, now.
  destruct (fromisoformat (replace "Z" "+00:00" s)); reflexivity.
Qed.

Lemma extract_other kvs self :
  (forall t, assoc "timestamp" kvs = Some t ->
             is_number t = false /\ is_str t = false) ->
  extract (VDict kvs) self =
  (Ok (VStr (isoformat (clock (clock_reads self)))),
   mk_exporter (stats self) (S (clock_reads self))).
Proof.
  intros H. unfold extract_timestamp, bind at 1, lift at 1, get.
  destruct (assoc "timestamp" kvs) as [t|]; [|reflexivity].
  destruct (H t eq_refl) as [Hn Hs]. rewrite Hn.
  destruct t; try discriminate; reflexivity.
Qed.

(** Inside the calendar [datetime.fromtimestamp] returns the calendar
    reading of the local instant. *)
Lemma fromtimestamp_ok t timet us :
  (forall u, -86400 <= utcoffset u <= 86400) ->
  object_to_timeval t = Ok (timet, us) ->
  convertible timet ->
  exists dt,
    fromtimestamp utcoffset t = Ok dt
    /\ is_calendar_time dt (timet + utcoffset timet) us.
Proof.
  intros Hoff Htv Hconv. unfold fromtimestamp. rewrite Htv, rbind_Ok.
  apply from_timet_and_us_ok; assumption.
Qed.

(** C3, for the instants the calendar holds: when the metadata
    timestamp is a number that Python reads as [timet] seconds and [us]
    microseconds, [timet] lying inside the calendar with a day to spare
    and the zone offset within a day, the conversion returns, and the
    timestamp of the chunk is the ISO rendering of the calendar date
    and time that lie [timet] seconds, shifted by the zone offset, and
    [us] microseconds after the epoch. *)
Theorem numeric_timestamp_is_calendar_time :
  forall doc_id document kvs embedding t timet us self,
    (forall u, -86400 <= utcoffset u <= 86400) ->
    assoc "timestamp" kvs = Some t ->
    object_to_timeval t = Ok (timet, us) ->
    convertible timet ->
    exists dt,
      convert_to_conversation_chunk utcoffset clock doc_id document (VDict kvs)
        embedding self
      = (Ok (chunk_of doc_id document kvs embedding (VStr (isoformat dt))), self)
      /\ is_calendar_time dt (timet + utcoffset timet) us.
Proof.
  intros doc_id document kvs embedding t timet us self Hoff Hts Htv Hconv.
  destruct (fromtimestamp_ok t timet us Hoff Htv Hconv) as (dt & Hdt & Hcal).
  exists dt. split; [|exact Hcal].
  rewrite convert_dict.
  rewrite (extract_numeric kvs t self Hts (object_to_timeval_number _ _ Htv)).
  rewrite Hdt. reflexivity.
Qed.


(** X11: with no timestamp, or one that is neither a number nor a string,
    the conversion of a dict never raises and stamps the chunk with the
    clock. *)
Lemma other_timestamp_is_now doc_id document kvs embedding self :
  (forall t, assoc "timestamp" kvs = Some t ->
             is_number t = false /\ is_str t = false) ->
  convert_to_conversation_chunk utcoffset clock doc_id document (VDict kvs)
    embedding self
  = (Ok (chunk_of doc_id document kvs embedding
           (VStr (isoformat (clock (clock_reads self))))),
     mk_exporter (stats self) (S (clock_reads self))).
Proof.
  intros H. rewrite convert_dict, (extract_other kvs self H). reflexivity.
Qed.

End TimestampFacts.

(** The end-to-end scenario of the specification: a record with
    [session_id = "s1"] and [timestamp = 1700000000]. *)
Lemma numeric_timestamp_is_calendar_time_witness :
  exists dt,
    convert_to_conversation_chunk utc sample_clock (VStr "a") (VStr "text")
      (VDict [("session_id", VStr "s1"); ("timestamp", VInt 1700000000)])
      (VList []) init
    = (Ok (chunk_of (VStr "a") (VStr "text")
             [("session_id", VStr "s1"); ("timestamp", VInt 1700000000)]
             (VList []) (VStr (isoformat dt))), init)
    /\ is_calendar_time dt (1700000000 + utc 1700000000) 0.
Proof.
  apply (numeric_timestamp_is_calendar_time utc sample_clock (VStr "a")
           (VStr "text")
           [("session_id", VStr "s1"); ("timestamp", VInt 1700000000)]
           (VList []) (VInt 1700000000) 1700000000 0 init).
  - intros u. unfold utc. lia.
  - reflexivity.
  - reflexivity.
  - unfold convertible, MIN_SECONDS, MAX_SECONDS. lia.
Defined.

Example scenario_timestamp :
  exists c,
    convert_to_conversation_chunk utc sample_clock (VStr "a") (VStr "text")
      (VDict [("session_id", VStr "s1"); ("timestamp", VInt 1700000000)])
      (VList []) init = (Ok c, init)
    /\ session_id c = VStr "s1"
    /\ timestamp c = VStr "2023-11-14T22:13:20".
Proof. eexists. split; [vm_compute; reflexivity|]. split; reflexivity. Qed.

(** C3 as the specification words it fails outside the calendar: a NaN
    and the first second of year 10000 are numbers, and the conversion
    raises on both instead of returning a timestamp. *)
Lemma out_of_calendar_timestamp_raises :
  convert_to_conversation_chunk utc sample_clock (VStr "a") (VStr "text")
    (VDict [("timestamp", VFloat S754_nan)]) (VList []) init
  = (Raise ValueError, init)
  /\ convert_to_conversation_chunk utc sample_clock (VStr "a") (VStr "text")
       (VDict [("timestamp", VInt 253402300800)]) (VList []) init
     = (Raise ValueError, init).
Proof. split; vm_compute; reflexivity. Qed.

(** C1 fails on the code: a timestamp in milliseconds, 1700000000000,
    is a number, [datetime.fromtimestamp] refuses it (year 55840), and
    nothing in the numeric branch catches the exception. *)
Lemma millisecond_timestamp_raises :
  convert_to_conversation_chunk utc sample_clock (VStr "a") (VStr "text")
    (VDict [("timestamp", VInt 1700000000000)]) (VList []) init
  = (Raise ValueError, init)
  /\ year (gmtime 1700000000000) = 55840.
Proof. split; vm_compute; reflexivity. Qed.


Example unparseable_timestamp_is_now :
  exists c,
    convert_to_conversation_chunk utc sample_clock (VStr "a") (VStr "text")
      (VDict [("timestamp", VStr "yesterday")]) (VList []) init
    = (Ok c, mk_exporter (stats init) 1)
    /\ timestamp c = VStr "2027-01-15T08:00:00".
Proof. eexists. split; [vm_compute; reflexivity | reflexivity]. Qed.


(* ===================================================================== *)
(** * What [json.dump] writes, [json.load] reads back *)
(* ===================================================================== *)

Import Json Output.

Lemma append_assoc (a b c : string) : ((a ++ b) ++ c)%string = (a ++ (b ++ c))%string.
Proof. induction a as [|x a IH]; simpl; [reflexivity | rewrite IH; reflexivity]. Qed.

Lemma append_nil_r (a : string) : (a ++ "")%string = a.
Proof. induction a as [|x a IH]; simpl; [reflexivity | rewrite IH; reflexivity]. Qed.

Lemma length_append (a b : string) :
  String.length (a ++ b) = (String.length a + String.length b)%nat.
Proof. induction a as [|x a IH]; simpl; [reflexivity | rewrite IH; reflexivity]. Qed.

Lemma skip_ws_head s : head_is (fun c => negb (is_ws c)) s = true -> skip_ws s = s.
Proof.
  destruct s as [|c s]; simpl; [discriminate|].
  destruct (is_ws c); [discriminate | reflexivity].
Qed.

Lemma skip_ws_spaces n s : skip_ws (spaces n ++ s) = skip_ws s.
Proof. induction n as [|n IH]; simpl; [reflexivity | exact IH]. Qed.

Lemma skip_ws_newline_indent level s :
  skip_ws (newline_indent level ++ s) = skip_ws s.
Proof. unfold newline_indent. simpl. apply skip_ws_spaces. Qed.

Lemma starts_with_app p r : starts_with p (p ++ r) = Some r.
Proof.
  induction p as [|c p IH]; simpl; [destruct r; reflexivity|].
  rewrite Ascii.eqb_refl. exact IH.
Qed.

(** ** Strings *)

Lemma scanstring_escape c t :
  scanstring (escape c ++ t) =
  match scanstring t with
  | Some (str, r) => Some (String c str, r)
  | None => None
  end.
Proof.
  destruct c as [[] [] [] [] [] [] [] []]; reflexivity.
Qed.

Lemma scanstring_escape_all s rest :
  scanstring (escape_all s ++ String dq rest) = Some (s, rest).
Proof.
  induction s as [|c s IH].
  - reflexivity.
  - cbn [escape_all]. rewrite append_assoc, scanstring_escape, IH. reflexivity.
Qed.

Lemma encode_basestring_app s rest :
  (encode_basestring s ++ rest)%string
  = String dq (escape_all s ++ String dq rest).
Proof.
  unfold encode_basestring. simpl. rewrite append_assoc. reflexivity.
Qed.

(** ** Numbers *)

Lemma number_end_digit rest : number_end rest = true -> head_not DateTime.is_digit rest = true.
Proof.
  destruct rest as [|c rest]; [reflexivity|]. unfold number_end. simpl.
  destruct (DateTime.is_digit c); [discriminate | reflexivity].
Qed.

Lemma all_digits_string_of_uint d : all_digits (NilEmpty.string_of_uint d) = true.
Proof. induction d; simpl; auto. Qed.

Lemma to_uint_normal p : forall d, Pos.to_uint p <> Decimal.D0 d.
Proof.
  intros d H.
  assert (Hn : Decimal.unorm (Pos.to_uint p) = Pos.to_uint p).
  { rewrite <- (DecimalPos.Unsigned.to_of (Pos.to_uint p)).
    rewrite DecimalPos.Unsigned.of_to. reflexivity. }
  pose proof (DecimalPos.Unsigned.to_uint_nonzero p) as Hz.
  unfold Decimal.unorm in Hn.
  destruct (Decimal.nzhead (Pos.to_uint p)) eqn:E;
    try (rewrite <- Hn in H; discriminate H).
  - apply Hz. symmetry. exact Hn.
  - apply (DecimalFacts.nzhead_nonzero (Pos.to_uint p) u). exact E.
Qed.

(** The decimal digits of a natural number: digits only, at least
    one, and no leading zero but for zero itself. *)
Lemma string_of_nonneg_shape n :
  0 <= n ->
  exists c ds,
    DateTime.string_of_nonneg n = String c ds
    /\ DateTime.is_digit c = true /\ all_digits ds = true
    /\ (Ascii.eqb c "0" = true -> ds = EmptyString).
Proof.
  intros Hn. unfold DateTime.string_of_nonneg.
  destruct (Z.to_N n) as [|p] eqn:E.
  - exists "0"%char, EmptyString. repeat split; reflexivity.
  - cbn [N.to_uint]. pose proof (to_uint_normal p) as Hnorm.
    pose proof (DecimalPos.Unsigned.to_uint_nonnil p) as Hnil.
    pose proof (all_digits_string_of_uint (Pos.to_uint p)) as Hall.
    unfold NilZero.string_of_uint.
    destruct (Pos.to_uint p) as [|d|d|d|d|d|d|d|d|d|d] eqn:Ed;
      try (exfalso; apply Hnil; reflexivity);
      try (exfalso; apply (Hnorm d); reflexivity);
      cbn [NilEmpty.string_of_uint] in *;
      eexists; eexists; (split; [reflexivity|]);
      (split; [reflexivity|]); (split; [exact Hall | discriminate]).
Qed.

Lemma Z_of_digits_string_of_nonneg n :
  0 <= n -> Z_of_digits (DateTime.string_of_nonneg n) = n.
Proof.
  intros Hn. unfold Z_of_digits, DateTime.string_of_nonneg.
  rewrite NilZero.usu.
  - rewrite DecimalN.Unsigned.of_to. apply Z2N.id. exact Hn.
  - destruct (Z.to_N n); [discriminate|].
    apply DecimalPos.Unsigned.to_uint_nonnil.
Qed.

Lemma span_digits_head_not rest :
  head_not DateTime.is_digit rest = true -> span_digits rest = (EmptyString, rest).
Proof.
  destruct rest as [|c rest]; simpl; [reflexivity|].
  destruct (DateTime.is_digit c); [discriminate | reflexivity].
Qed.

Lemma span_digits_app s rest :
  head_not DateTime.is_digit rest = true ->
  span_digits (s ++ rest)
  = (fst (span_digits s), (snd (span_digits s) ++ rest)%string).
Proof.
  intros Hrest. induction s as [|c s IH]; simpl.
  - apply span_digits_head_not. exact Hrest.
  - destruct (DateTime.is_digit c); [|reflexivity].
    rewrite IH. destruct (span_digits s). reflexivity.
Qed.

Lemma span_digits_all ds : all_digits ds = true -> span_digits ds = (ds, EmptyString).
Proof.
  induction ds as [|c ds IH]; simpl; [reflexivity|].
  destruct (DateTime.is_digit c); [|discriminate].
  intros H. rewrite (IH H). reflexivity.
Qed.

Lemma match_integer_app s rest i r :
  head_not DateTime.is_digit rest = true ->
  match_integer s = Some (i, r) ->
  match_integer (s ++ rest) = Some (i, (r ++ rest)%string).
Proof.
  intros Hrest. unfold match_integer.
  assert (Hbody : forall sign body,
             match body with
             | String c rest0 =>
                 if Ascii.eqb c "0" then Some ((sign ++ "0")%string, rest0)
                 else if DateTime.is_digit c then
                   let '(ds, r0) := span_digits body in Some ((sign ++ ds)%string, r0)
                 else None
             | EmptyString => None
             end = Some (i, r) ->
             match (body ++ rest)%string with
             | String c rest0 =>
                 if Ascii.eqb c "0" then Some ((sign ++ "0")%string, rest0)
                 else if DateTime.is_digit c then
                   let '(ds, r0) := span_digits (body ++ rest) in
                   Some ((sign ++ ds)%string, r0)
                 else None
             | EmptyString => None
             end = Some (i, (r ++ rest)%string)).
  { intros sign [|c body]; [discriminate|]. cbn [append].
    destruct (Ascii.eqb c "0").
    - intros H. inversion H. reflexivity.
    - destruct (DateTime.is_digit c) eqn:Ec; [|discriminate].
      change (String c (body ++ rest)) with (String c body ++ rest)%string.
      rewrite (span_digits_app (String c body) rest Hrest).
      destruct (span_digits (String c body)) as [ds r0]. cbn [fst snd].
      intros H. inversion H. reflexivity. }
  destruct s as [|c s].
  - discriminate.
  - cbn [append]. destruct (Ascii.eqb c "-").
    + apply Hbody.
    + apply (Hbody EmptyString (String c s)).
Qed.

Lemma match_frac_app s rest :
  number_end rest = true ->
  match_frac (s ++ rest)
  = (fst (match_frac s), (snd (match_frac s) ++ rest)%string).
Proof.
  intros Hrest. destruct s as [|c s].
  - destruct rest as [|c rest]; [reflexivity|].
    unfold number_end in Hrest. simpl in Hrest. simpl.
    destruct (Ascii.eqb c "."); [|reflexivity].
    rewrite !orb_true_r in Hrest. simpl in Hrest.
    destruct (DateTime.is_digit c); discriminate.
  - cbn [append match_frac]. destruct (Ascii.eqb c "."); [|reflexivity].
    rewrite (span_digits_app s rest (number_end_digit rest Hrest)).
    destruct (span_digits s) as [[|d ds] r]; reflexivity.
Qed.

Lemma match_exp_app s rest :
  number_end rest = true ->
  match_exp (s ++ rest)
  = (fst (match_exp s), (snd (match_exp s) ++ rest)%string).
Proof.
  intros Hrest. pose proof (number_end_digit rest Hrest) as Hdig.
  assert (Hhead : forall c r, rest = String c r ->
             Ascii.eqb c "e" = false /\ Ascii.eqb c "E" = false
             /\ Ascii.eqb c "+" = false /\ Ascii.eqb c "-" = false).
  { intros c r ->. unfold number_end in Hrest. simpl in Hrest.
    destruct (DateTime.is_digit c), (Ascii.eqb c "."), (Ascii.eqb c "e"),
      (Ascii.eqb c "E"), (Ascii.eqb c "+"), (Ascii.eqb c "-");
      try discriminate; auto. }
  destruct s as [|c s].
  - destruct rest as [|c rest]; [reflexivity|].
    destruct (Hhead c rest eq_refl) as (He & HE & _). simpl.
    rewrite He, HE. reflexivity.
  - cbn [append match_exp]. destruct (Ascii.eqb c "e" || Ascii.eqb c "E");
      [|reflexivity].
    destruct s as [|c' s].
    + cbn [append]. destruct rest as [|c1 rest].
      * reflexivity.
      * destruct (Hhead c1 rest eq_refl) as (_ & _ & Hp & Hm).
        rewrite Hm, Hp. rewrite (span_digits_head_not _ Hdig). reflexivity.
    + cbn [append].
      destruct (Ascii.eqb c' "-"); [|destruct (Ascii.eqb c' "+")].
      * rewrite (span_digits_app s rest Hdig).
        destruct (span_digits s) as [[|d ds] r]; reflexivity.
      * rewrite (span_digits_app s rest Hdig).
        destruct (span_digits s) as [[|d ds] r]; reflexivity.
      * change (String c' (s ++ rest)) with (String c' s ++ rest)%string.
        rewrite (span_digits_app (String c' s) rest Hdig).
        destruct (span_digits (String c' s)) as [[|d ds] r]; reflexivity.
Qed.

(** A literal the pattern matches in full is matched the same way
    with text after it that cannot continue a number. *)
Lemma match_number_app s rest i f e :
  number_end rest = true ->
  match_number s = Some (i, f, e, EmptyString) ->
  match_number (s ++ rest) = Some (i, f, e, rest).
Proof.
  intros Hrest. unfold match_number.
  destruct (match_integer s) as [[i0 r0]|] eqn:Ei; [|discriminate].
  rewrite (match_integer_app s rest i0 r0 (number_end_digit rest Hrest) Ei).
  rewrite (match_frac_app r0 rest Hrest).
  destruct (match_frac r0) as [f0 r1]. cbn [fst snd].
  rewrite (match_exp_app r1 rest Hrest).
  destruct (match_exp r1) as [e0 r2]. cbn [fst snd].
  intros H. inversion H. reflexivity.
Qed.

Lemma number_start_facts c s fuel :
  number_start c = true ->
  value_start c = true
  /\ scan_once (S fuel) (String c s) = scan_scalar (String c s)
  /\ starts_with "null" (String c s) = None
  /\ starts_with "true" (String c s) = None
  /\ starts_with "false" (String c s) = None.
Proof.
  destruct c as [[] [] [] [] [] [] [] []]; try discriminate;
    intros _; repeat split; reflexivity.
Qed.

Lemma digit_not_minus c : DateTime.is_digit c = true -> Ascii.eqb c "-" = false.
Proof. destruct c as [[] [] [] [] [] [] [] []]; try discriminate; reflexivity. Qed.

Lemma match_integer_head s x :
  match_integer s = Some x -> head_is number_start s = true.
Proof.
  unfold match_integer, number_start. destruct s as [|c s]; [discriminate|].
  simpl. destruct (Ascii.eqb c "-") eqn:Em.
  - intros _. apply orb_true_r.
  - destruct (Ascii.eqb c "0") eqn:E0.
    + apply Ascii.eqb_eq in E0. subst c. reflexivity.
    + destruct (DateTime.is_digit c); [reflexivity | discriminate].
Qed.

Lemma match_number_head s x :
  match_number s = Some x -> head_is number_start s = true.
Proof.
  unfold match_number. destruct (match_integer s) as [[i r]|] eqn:E;
    [|discriminate].
  intros _. eapply match_integer_head. exact E.
Qed.

(** What [scan_once] makes of a text the number pattern matches. *)
Lemma scan_once_number fuel s i f e r :
  match_number s = Some (i, f, e, r) ->
  scan_once (S fuel) s
  = if String.eqb f "" && String.eqb e ""
    then Some (VInt (int_of_literal i), r)
    else Some (VFloat (float_of_literal i f e), r).
Proof.
  intros Hm. pose proof (match_number_head s _ Hm) as Hh.
  destruct s as [|c s]; [discriminate|]. simpl in Hh.
  destruct (number_start_facts c s fuel Hh) as (_ & Hscan & Hn & Ht & Hf).
  rewrite Hscan. unfold scan_scalar. rewrite Hn, Ht, Hf, Hm. reflexivity.
Qed.

Lemma match_integer_digits c ds :
  DateTime.is_digit c = true -> all_digits ds = true ->
  (Ascii.eqb c "0" = true -> ds = EmptyString) ->
  forall sign,
    match String c ds with
    | String c0 rest0 =>
        if Ascii.eqb c0 "0" then Some ((sign ++ "0")%string, rest0)
        else if DateTime.is_digit c0 then
          let '(ds0, r0) := span_digits (String c ds) in
          Some ((sign ++ ds0)%string, r0)
        else None
    | EmptyString => None
    end = Some ((sign ++ String c ds)%string, EmptyString).
Proof.
  intros Hc Hds Hz sign. cbv beta iota. destruct (Ascii.eqb c "0") eqn:E0.
  - rewrite (Hz eq_refl). apply Ascii.eqb_eq in E0. subst c. reflexivity.
  - rewrite Hc. rewrite (span_digits_all (String c ds)).
    + reflexivity.
    + simpl. rewrite Hc. exact Hds.
Qed.

Lemma match_number_string_of_Z n :
  match_number (string_of_Z n)
  = Some (string_of_Z n, EmptyString, EmptyString, EmptyString).
Proof.
  unfold string_of_Z, match_number.
  destruct (Z.ltb_spec n 0) as [Hneg|Hpos].
  - destruct (string_of_nonneg_shape (- n)) as (c & ds & Hs & Hc & Hds & Hz);
      [lia|].
    rewrite Hs. unfold match_integer. cbn [Ascii.eqb Bool.eqb].
    rewrite (match_integer_digits c ds Hc Hds Hz "-"). reflexivity.
  - destruct (string_of_nonneg_shape n Hpos) as (c & ds & Hs & Hc & Hds & Hz).
    rewrite Hs. unfold match_integer. rewrite (digit_not_minus c Hc).
    rewrite (match_integer_digits c ds Hc Hds Hz ""). reflexivity.
Qed.

Lemma int_of_literal_string_of_Z n : int_of_literal (string_of_Z n) = n.
Proof.
  unfold string_of_Z, int_of_literal.
  destruct (Z.ltb_spec n 0) as [Hneg|Hpos].
  - cbn [Ascii.eqb Bool.eqb]. rewrite Z_of_digits_string_of_nonneg by lia. lia.
  - destruct (string_of_nonneg_shape n Hpos) as (c & ds & Hs & Hc & _).
    rewrite Hs, (digit_not_minus c Hc), <- Hs.
    apply Z_of_digits_string_of_nonneg. exact Hpos.
Qed.

(** ** Values *)

(** Induction over values that reaches into lists and dicts. *)
Lemma head_is_app f s t : head_is f s = true -> head_is f (s ++ t) = true.
Proof. destruct s; simpl; [discriminate | auto]. Qed.

Lemma head_is_inv f s :
  head_is f s = true -> exists c r, s = String c r /\ f c = true.
Proof. destruct s as [|c r]; simpl; [discriminate | eauto]. Qed.

Lemma value_start_facts c :
  value_start c = true ->
  is_ws c = false /\ Ascii.eqb c "]" = false /\ Ascii.eqb c "}" = false
  /\ Ascii.eqb c "," = false /\ Ascii.eqb c ":" = false.
Proof.
  unfold value_start. rewrite !andb_true_iff, !negb_true_iff. tauto.
Qed.

Lemma float_reads_back_head x :
  float_reads_back x = true -> head_is value_start (floatstr x) = true.
Proof.
  destruct x as [s|s| |s m e]; try (destruct s; reflexivity); try discriminate.
  unfold float_reads_back, floatstr.
  destruct (match_number (float_repr (S754_finite s m e)))
    as [[[[i f] ex] r]|] eqn:E; [|discriminate].
  intros _. pose proof (match_number_head _ _ E) as Hh.
  apply head_is_inv in Hh. destruct Hh as (c & r' & -> & Hc). simpl.
  apply (number_start_facts c r' 0 Hc).
Qed.

(** The text of a value that reads back opens with a character that
    starts a value. *)
Lemma encode_head level v :
  reads_back v = true -> head_is value_start (encode level v) = true.
Proof.
  destruct v as [| [] | n | x | s | [|y ys] | [|kv kvs]]; try reflexivity.
  - intros _. cbn [encode]. pose proof (match_number_string_of_Z n) as Hm.
    apply match_number_head in Hm. apply head_is_inv in Hm.
    destruct Hm as (c & r & -> & Hc). simpl.
    apply (number_start_facts c r 0 Hc).
  - cbn [encode reads_back]. apply float_reads_back_head.
Qed.

Lemma number_end_newline_indent level s : number_end (newline_indent level ++ s) = true.
Proof. reflexivity. Qed.

Lemma length_newline_indent level : (1 <= String.length (newline_indent level))%nat.
Proof. unfold newline_indent. simpl. lia. Qed.

Lemma length_head f s : head_is f s = true -> (1 <= String.length s)%nat.
Proof. destruct s; simpl; [discriminate | lia]. Qed.

Lemma items_text_head level x xs :
  reads_back x = true ->
  forall tail, head_is value_start (items_text level (x :: xs) ++ tail) = true.
Proof.
  intros Hx tail. apply head_is_app. unfold items_text. cbn [map join].
  destruct (map (encode (S level)) xs); [|apply head_is_app];
    apply encode_head; exact Hx.
Qed.

Lemma parse_elements_items level : forall xs,
  xs <> [] ->
  Forall (fun x => reads_back x = true /\ scans_back x) xs ->
  forall rest fuel,
    (String.length (items_text level xs) + 2 <= fuel)%nat ->
    parse_elements fuel
      (items_text level xs ++ newline_indent level ++ String "]" rest)
    = Some (xs, rest).
Proof.
  induction xs as [|x xs IH]; intros Hne Hall rest fuel Hfuel; [congruence|].
  inversion Hall as [|x' xs' [Hrb Hsb] Hall']; subst.
  destruct fuel as [|fuel]; [lia|]. cbn [parse_elements].
  destruct xs as [|y ys].
  - unfold items_text in *. cbn [map join] in *.
    rewrite (Hsb (S level) _ fuel (number_end_newline_indent level _)) by lia.
    rewrite skip_ws_newline_indent. reflexivity.
  - assert (Etext : items_text level (x :: y :: ys)
                    = (encode (S level) x
                       ++ String "," (newline_indent (S level)
                                      ++ items_text level (y :: ys)))%string).
    { unfold items_text. cbn [map join]. reflexivity. }
    rewrite Etext in *. rewrite append_assoc. cbn [append].
    rewrite !length_append in Hfuel. cbn [String.length] in Hfuel.
    rewrite length_append in Hfuel.
    pose proof (length_newline_indent (S level)).
    rewrite (Hsb (S level) (String "," _) fuel eq_refl) by lia.
    cbn [skip_ws is_ws]. change (is_ws ",") with false. cbv beta iota.
    change (Ascii.eqb "," ",") with true. cbv beta iota.
    rewrite append_assoc, skip_ws_newline_indent.
    inversion Hall' as [|y' ys' [Hrby _] _]; subst.
    rewrite skip_ws_head.
    + rewrite IH; [reflexivity | discriminate | exact Hall' | lia].
    + pose proof (items_text_head level y ys Hrby
                    (newline_indent level ++ String "]" rest)) as Hh.
      apply head_is_inv in Hh. destruct Hh as (c & r & -> & Hc). simpl.
      destruct (value_start_facts c Hc) as (-> & _). reflexivity.
Qed.

Lemma member_text_app level k x tail :
  (member_text level (k, x) ++ tail)%string
  = String dq (escape_all k
               ++ String dq (String ":" (String " " (encode (S level) x ++ tail)))).
Proof.
  unfold member_text, encode_basestring. cbn [append].
  rewrite !append_assoc. cbn [append]. reflexivity.
Qed.

Lemma length_member_text level k x :
  (String.length (encode (S level) x) + 4
   <= String.length (member_text level (k, x)))%nat.
Proof.
  unfold member_text, encode_basestring. cbn [String.length append].
  repeat (rewrite length_append; cbn [String.length append]). lia.
Qed.

Lemma skip_ws_value level x tail :
  reads_back x = true ->
  skip_ws (encode level x ++ tail) = (encode level x ++ tail)%string.
Proof.
  intros Hx. apply skip_ws_head.
  pose proof (encode_head level x Hx) as Hh.
  apply head_is_inv in Hh. destruct Hh as (c & r & -> & Hc). simpl.
  destruct (value_start_facts c Hc) as (-> & _). reflexivity.
Qed.

Lemma skip_ws_punct c s :
  is_ws c = false -> skip_ws (String c s) = String c s.
Proof. intros H. simpl. rewrite H. reflexivity. Qed.

Lemma skip_ws_space s : skip_ws (String " " s) = skip_ws s.
Proof. reflexivity. Qed.

Lemma parse_members_text level : forall kvs,
  kvs <> [] ->
  Forall (fun kv => reads_back (snd kv) = true /\ scans_back (snd kv)) kvs ->
  forall rest fuel,
    (String.length (members_text level kvs) + 2 <= fuel)%nat ->
    parse_members fuel
      (members_text level kvs ++ newline_indent level ++ String "}" rest)
    = Some (kvs, rest).
Proof.
  induction kvs as [|[k x] kvs IH]; intros Hne Hall rest fuel Hfuel;
    [congruence|].
  inversion Hall as [|kv' kvs' [Hrb Hsb] Hall']; subst. cbn [snd] in Hrb, Hsb.
  destruct fuel as [|fuel]; [lia|].
  pose proof (length_member_text level k x) as Hlen.
  destruct kvs as [|[k2 y] ys].
  - unfold members_text in *. cbn [map join] in *.
    rewrite member_text_app. cbn [parse_members].
    rewrite Ascii.eqb_refl, scanstring_escape_all.
    rewrite (skip_ws_punct ":") by reflexivity.
    change (Ascii.eqb ":" ":") with true. cbv beta iota.
    rewrite skip_ws_space, (skip_ws_value (S level) x _ Hrb).
    rewrite (Hsb (S level) _ fuel (number_end_newline_indent level _)) by lia.
    rewrite skip_ws_newline_indent. reflexivity.
  - assert (Etext : members_text level ((k, x) :: (k2, y) :: ys)
                    = (member_text level (k, x)
                       ++ String "," (newline_indent (S level)
                                      ++ members_text level ((k2, y) :: ys)))%string).
    { unfold members_text. cbn [map join]. reflexivity. }
    rewrite Etext in *. rewrite append_assoc, member_text_app.
    rewrite !length_append in Hfuel. cbn [String.length] in Hfuel.
    rewrite length_append in Hfuel.
    pose proof (length_newline_indent (S level)).
    cbn [parse_members].
    rewrite Ascii.eqb_refl, scanstring_escape_all.
    rewrite (skip_ws_punct ":") by reflexivity.
    change (Ascii.eqb ":" ":") with true. cbv beta iota.
    rewrite skip_ws_space, (skip_ws_value (S level) x _ Hrb). cbn [append].
    rewrite (Hsb (S level) (String "," _) fuel eq_refl) by lia.
    rewrite (skip_ws_punct ",") by reflexivity.
    change (Ascii.eqb "," ",") with true. cbv beta iota.
    rewrite append_assoc, skip_ws_newline_indent.
    rewrite skip_ws_head.
    + rewrite IH; [reflexivity | discriminate | exact Hall' | lia].
    + unfold members_text. cbn [map join].
      destruct (map (member_text level) ys); reflexivity.
Qed.

Lemma dict_set_fresh k v d :
  Exporter.str_in k (map fst d) = false -> dict_set k v d = (d ++ [(k, v)])%list.
Proof.
  induction d as [|[k' v'] d IH]; simpl; [reflexivity|].
  unfold Exporter.str_in in *. simpl.
  destruct (String.eqb k k'); [discriminate|]. simpl.
  intros H. rewrite (IH H). reflexivity.
Qed.

Lemma distinct_app_fresh acc k keys :
  distinct (acc ++ k :: keys) = true ->
  Exporter.str_in k acc = false /\ distinct ((acc ++ [k]) ++ keys) = true.
Proof.
  rewrite <- app_assoc. simpl. intros H. split; [|exact H].
  induction acc as [|a acc IH]; [reflexivity|].
  simpl in H. apply andb_true_iff in H. destruct H as [Ha Hrest].
  unfold Exporter.str_in in *. simpl.
  rewrite (IH Hrest), orb_false_r.
  apply negb_true_iff in Ha. rewrite existsb_app in Ha.
  apply orb_false_iff in Ha. destruct Ha as [_ Ha]. simpl in Ha.
  apply orb_false_iff in Ha. destruct Ha as [Ha _].
  rewrite String.eqb_sym. exact Ha.
Qed.

(** [dict(pairs)] of pairs with distinct keys is the pairs. *)
Lemma dict_of_pairs_distinct kvs :
  distinct (map fst kvs) = true -> dict_of_pairs kvs = kvs.
Proof.
  unfold dict_of_pairs.
  assert (H : forall acc,
             distinct (map fst acc ++ map fst kvs) = true ->
             fold_left (fun d kv => dict_set (fst kv) (snd kv) d) kvs acc
             = (acc ++ kvs)%list).
  { induction kvs as [|[k v] kvs IH]; intros acc Hd; simpl.
    - rewrite List.app_nil_r. reflexivity.
    - simpl in Hd. apply distinct_app_fresh in Hd. destruct Hd as [Hfresh Hd].
      rewrite (dict_set_fresh k v acc Hfresh).
      rewrite IH.
      + rewrite <- app_assoc. reflexivity.
      + rewrite map_app. exact Hd. }
  intros Hd. apply (H []). exact Hd.
Qed.

Lemma float_eqb_exact_eq x y : float_eqb_exact x y = true -> x = y.
Proof.
  destruct x as [s|s| |s m e], y as [s'|s'| |s' m' e']; simpl;
    try discriminate; try reflexivity.
  - intros H. apply Bool.eqb_prop in H. congruence.
  - intros H. apply Bool.eqb_prop in H. congruence.
  - rewrite !andb_true_iff. intros [[Hs Hm] He].
    apply Bool.eqb_prop in Hs. apply Pos.eqb_eq in Hm. apply Z.eqb_eq in He.
    congruence.
Qed.

(** A float that reads back scans back. *)
Lemma scans_back_float x : float_reads_back x = true -> scans_back (VFloat x).
Proof.
  intros Hx level rest fuel Hrest Hfuel.
  destruct fuel as [|fuel]; [lia|]. cbn [encode] in *.
  assert (Hfin : forall y,
             floatstr y = float_repr y ->
             (forall i f e,
                 match_number (float_repr y) = Some (i, f, e, EmptyString) ->
                 negb (String.eqb f "" && String.eqb e "") = true ->
                 float_eqb_exact (float_of_literal i f e) y = true ->
                 scan_once (S fuel) (floatstr y ++ rest) = Some (VFloat y, rest))).
  { intros y Hstr i f e Hm Hfe Heq. rewrite Hstr.
    rewrite (scan_once_number fuel _ i f e rest (match_number_app _ _ _ _ _ Hrest Hm)).
    apply negb_true_iff in Hfe. rewrite Hfe.
    rewrite (float_eqb_exact_eq _ _ Heq). reflexivity. }
  destruct x as [s|s| |s m e].
  - unfold float_reads_back in Hx.
    destruct (match_number (float_repr (S754_zero s)))
      as [[[[i f] ex] [|c r]]|] eqn:E; try discriminate.
    apply andb_true_iff in Hx. destruct Hx as [Hfe Heq].
    exact (Hfin (S754_zero s) eq_refl i f ex E Hfe Heq).
  - destruct s; reflexivity.
  - discriminate.
  - unfold float_reads_back in Hx.
    destruct (match_number (float_repr (S754_finite s m e)))
      as [[[[i f] ex] [|c r]]|] eqn:E; try discriminate.
    apply andb_true_iff in Hx. destruct Hx as [Hfe Heq].
    exact (Hfin (S754_finite s m e) eq_refl i f ex E Hfe Heq).
Qed.

Lemma forallb_Forall_and {A} (f : A -> bool) (P : A -> Prop) (l : list A) :
  forallb f l = true -> Forall (fun a => f a = true -> P a) l ->
  Forall (fun a => f a = true /\ P a) l.
Proof.
  induction l as [|a l IH]; intros Hf HP; [constructor|].
  simpl in Hf. apply andb_true_iff in Hf. destruct Hf as [Ha Hl].
  inversion HP; subst. constructor; auto.
Qed.

Lemma encode_list_app level x xs rest :
  (encode level (VList (x :: xs)) ++ rest)%string
  = String "[" (newline_indent (S level)
                ++ (items_text level (x :: xs)
                    ++ newline_indent level ++ String "]" rest)).
Proof.
  change (encode level (VList (x :: xs)))
    with ("[" ++ newline_indent (S level) ++ items_text level (x :: xs)
          ++ newline_indent level ++ "]")%string.
  cbn [append]. rewrite !append_assoc. reflexivity.
Qed.

Lemma encode_dict_app level kv kvs rest :
  (encode level (VDict (kv :: kvs)) ++ rest)%string
  = String "{" (newline_indent (S level)
                ++ (members_text level (kv :: kvs)
                    ++ newline_indent level ++ String "}" rest)).
Proof.
  assert (E : encode level (VDict (kv :: kvs))
              = ("{" ++ newline_indent (S level) ++ members_text level (kv :: kvs)
                 ++ newline_indent level ++ "}")%string).
  { unfold members_text, member_text. cbn [encode]. reflexivity. }
  rewrite E. cbn [append]. rewrite !append_assoc. reflexivity.
Qed.

Lemma length_encode_list level x xs :
  (String.length (items_text level (x :: xs)) + 3
   <= String.length (encode level (VList (x :: xs))))%nat.
Proof.
  pose proof (f_equal String.length (encode_list_app level x xs "")) as H.
  rewrite append_nil_r in H. rewrite H. cbn [String.length].
  rewrite !length_append. cbn [String.length].
  pose proof (length_newline_indent level). lia.
Qed.

Lemma length_encode_dict level kv kvs :
  (String.length (members_text level (kv :: kvs)) + 3
   <= String.length (encode level (VDict (kv :: kvs))))%nat.
Proof.
  pose proof (f_equal String.length (encode_dict_app level kv kvs "")) as H.
  rewrite append_nil_r in H. rewrite H. cbn [String.length].
  rewrite !length_append. cbn [String.length].
  pose proof (length_newline_indent level). lia.
Qed.

(** Every value that reads back scans back from its text. *)
Lemma reads_back_scans_back v : reads_back v = true -> scans_back v.
Proof.
  induction v as [| b | n | x | s | xs IH | kvs IH] using value_ind_nested.
  - intros _ level rest [|fuel] _ Hfuel; [simpl in Hfuel; lia | reflexivity].
  - intros _ level rest [|fuel] _ Hfuel; [simpl in Hfuel; lia|].
    destruct b; reflexivity.
  - intros _ level rest [|fuel] Hrest Hfuel; [lia|]. cbn [encode].
    rewrite (scan_once_number fuel _ (string_of_Z n) "" "" rest
               (match_number_app _ _ _ _ _ Hrest (match_number_string_of_Z n))).
    cbn [String.eqb andb]. rewrite int_of_literal_string_of_Z. reflexivity.
  - intros Hx. apply scans_back_float. exact Hx.
  - intros _ level rest [|fuel] _ Hfuel; [lia|]. cbn [encode].
    rewrite encode_basestring_app. cbn [scan_once].
    rewrite Ascii.eqb_refl, scanstring_escape_all. reflexivity.
  - intros Hrb level rest fuel Hrest Hfuel. cbn [reads_back] in Hrb.
    pose proof (forallb_Forall_and _ _ _ Hrb IH) as Hall.
    destruct xs as [|x xs].
    + destruct fuel as [|fuel]; [simpl in Hfuel; lia | reflexivity].
    + destruct fuel as [|fuel]; [lia|].
      pose proof (length_encode_list level x xs) as Hlen.
      rewrite encode_list_app. cbn [scan_once].
      change (Ascii.eqb "[" dq) with false.
      change (Ascii.eqb "[" "{") with false.
      change (Ascii.eqb "[" "[") with true. cbv beta iota.
      rewrite skip_ws_newline_indent.
      inversion Hall as [|x' xs' [Hx _] _]; subst.
      pose proof (items_text_head level x xs Hx
                    (newline_indent level ++ String "]" rest)) as Hh.
      pose proof (parse_elements_items level (x :: xs) ltac:(discriminate)
                    Hall rest fuel ltac:(lia)) as Hparse.
      apply head_is_inv in Hh. destruct Hh as (c & r & E & Hc).
      rewrite E in *. destruct (value_start_facts c Hc) as (Hws & Hcl & _).
      rewrite (skip_ws_punct c r Hws), Hcl, Hparse. reflexivity.
  - intros Hrb level rest fuel Hrest Hfuel. cbn [reads_back] in Hrb.
    apply andb_true_iff in Hrb. destruct Hrb as [Hkeys Hrb].
    assert (Hall : Forall (fun kv => reads_back (snd kv) = true
                                     /\ scans_back (snd kv)) kvs).
    { clear -Hrb IH. induction kvs as [|[k x] kvs IHk]; [constructor|].
      simpl in Hrb. apply andb_true_iff in Hrb. destruct Hrb as [Hx Hrest].
      inversion IH; subst. constructor; auto. }
    destruct kvs as [|[k x] kvs].
    + destruct fuel as [|fuel]; [simpl in Hfuel; lia | reflexivity].
    + destruct fuel as [|fuel]; [lia|].
      pose proof (length_encode_dict level (k, x) kvs) as Hlen.
      rewrite encode_dict_app. cbn [scan_once].
      change (Ascii.eqb "{" dq) with false.
      change (Ascii.eqb "{" "{") with true. cbv beta iota.
      rewrite skip_ws_newline_indent.
      pose proof (parse_members_text level ((k, x) :: kvs) ltac:(discriminate)
                    Hall rest fuel ltac:(lia)) as Hparse.
      assert (E : exists r,
                 (members_text level ((k, x) :: kvs)
                  ++ newline_indent level ++ String "}" rest)%string
                 = String dq r).
      { unfold members_text. cbn [map join].
        destruct (map (member_text level) kvs);
          unfold member_text, encode_basestring; cbn [append]; eauto. }
      destruct E as [r E]. rewrite E in *.
      rewrite (skip_ws_punct dq) by reflexivity.
      change (Ascii.eqb dq "}") with false. cbv beta iota.
      rewrite Hparse, (dict_of_pairs_distinct _ Hkeys). reflexivity.
Qed.

(** [json.loads(json.dumps(v, indent=2, ensure_ascii=False))] is [v]
    for every value that reads back. *)
Lemma loads_dumps v : reads_back v = true -> loads (dumps v) = Ok v.
Proof.
  intros Hv. unfold loads, dumps.
  pose proof (skip_ws_value 0 v "" Hv) as Hws. rewrite append_nil_r in Hws.
  rewrite Hws.
  pose proof (reads_back_scans_back v Hv 0%nat ""
                (S (String.length (encode 0 v))) eq_refl ltac:(lia)) as Hs.
  rewrite append_nil_r in Hs. rewrite Hs. reflexivity.
Qed.

(** The layout of [indent=2] and the literals of [float.__repr__] on
    a few numbers: 0.1, -1e22, 123456789012345670.0 and the smallest
    positive double. *)
Example dumps_numbers :
  dumps (VList [VInt (-7);
                VFloat (float_of_decimal false 1 (-1));
                VFloat (float_of_decimal true 1 22);
                VFloat (float_of_decimal false 12345678901234567 1);
                VFloat (float_of_decimal false 5 (-324));
                VFloat (S754_infinity true);
                VList []; VDict []; VBool true; VNone])
  = "[
  -7,
  0.1,
  -1e+22,
  1.2345678901234566e+17,
  5e-324,
  -Infinity,
  [],
  {},
  true,
  null
]".
Proof. vm_compute. reflexivity. Qed.

Example loads_numbers :
  loads "[1, 2.5e-1, -0.0, {}, [null, false]]"
  = Ok (VList [VInt 1; VFloat (float_of_decimal false 25 (-2));
               VFloat (S754_zero true); VDict [];
               VList [VNone; VBool false]]).
Proof. vm_compute. reflexivity. Qed.

Lemma SFeqb_refl x : x <> S754_nan -> SFeqb x x = true.
Proof.
  destruct x as [s|s| |s m e]; intros Hx; try congruence;
    unfold SFeqb, SFcompare; try (destruct s; reflexivity).
  rewrite Z.compare_refl, Pos.compare_refl. destruct s; reflexivity.
Qed.

Lemma float_reads_back_not_nan x : float_reads_back x = true -> x <> S754_nan.
Proof. intros Hx ->. discriminate. Qed.

Lemma assoc_distinct k (x : value) kvs :
  distinct (map fst kvs) = true -> In (k, x) kvs -> assoc k kvs = Some x.
Proof.
  induction kvs as [|[k' x'] kvs IH]; simpl; [tauto|].
  rewrite andb_true_iff, negb_true_iff. intros [Hfresh Hd] [E | Hin].
  - inversion E; subst. rewrite String.eqb_refl. reflexivity.
  - destruct (String.eqb_spec k k') as [->|_]; [|auto].
    exfalso. assert (Hk : Exporter.str_in k' (map fst kvs) = true).
    { apply str_in_In. apply (in_map fst) in Hin. exact Hin. }
    congruence.
Qed.

(** A value that reads back is equal to itself: no NaN breaks [==]. *)
Lemma py_eq_refl v : reads_back v = true -> py_eq v v = true.
Proof.
  induction v as [| b | n | x | s | xs IH | kvs IH] using value_ind_nested;
    cbn [py_eq reads_back]; intros Hv.
  - reflexivity.
  - apply Z.eqb_refl.
  - apply Z.eqb_refl.
  - apply SFeqb_refl, float_reads_back_not_nan, Hv.
  - apply String.eqb_refl.
  - induction xs as [|x xs IHxs]; [reflexivity|].
    simpl in Hv. apply andb_true_iff in Hv. destruct Hv as [Hx Hxs].
    inversion IH; subst. simpl. rewrite IHxs by assumption.
    rewrite H1 by assumption. reflexivity.
  - apply andb_true_iff in Hv. destruct Hv as [Hd Hv].
    rewrite Nat.eqb_refl. cbn [andb]. apply forallb_forall.
    intros [k x] Hin. rewrite (assoc_distinct k x kvs Hd Hin).
    rewrite Forall_forall in IH. apply (IH (k, x) Hin).
    rewrite forallb_forall in Hv. apply (Hv (k, x) Hin).
Qed.

(* ===================================================================== *)
(** * Every value of the envelope comes from the store *)
(* ===================================================================== *)

Lemma reads_back_assoc kvs k v :
  reads_back (VDict kvs) = true -> assoc k kvs = Some v -> reads_back v = true.
Proof.
  cbn [reads_back]. rewrite andb_true_iff. intros [_ Hall].
  induction kvs as [|[k' x] kvs IH]; simpl; [discriminate|].
  simpl in Hall. apply andb_true_iff in Hall. destruct Hall as [Hx Hall].
  destruct (String.eqb k k'); [intros E; inversion E; subst; exact Hx | auto].
Qed.

Lemma reads_back_lookup kvs k d :
  reads_back (VDict kvs) = true -> reads_back d = true ->
  reads_back (match assoc k kvs with Some v => v | None => d end) = true.
Proof.
  intros Hkvs Hd. destruct (assoc k kvs) as [v|] eqn:E; [|exact Hd].
  exact (reads_back_assoc kvs k v Hkvs E).
Qed.

Lemma reads_back_get obj k d v :
  reads_back obj = true -> reads_back d = true ->
  get obj k d = Ok v -> reads_back v = true.
Proof.
  destruct obj as [| | | | | |kvs]; try discriminate.
  intros Hobj Hd E. inversion E. apply reads_back_lookup; assumption.
Qed.

Lemma reads_back_getitem obj k v :
  reads_back obj = true -> getitem obj k = Ok v -> reads_back v = true.
Proof.
  destruct obj as [| | | | | |kvs]; try discriminate.
  intros Hobj. simpl. destruct (assoc k kvs) as [x|] eqn:E; [|discriminate].
  intros H. inversion H; subst. exact (reads_back_assoc kvs k v Hobj E).
Qed.

Lemma reads_back_getindex obj i v :
  reads_back obj = true -> getindex obj i = Ok v -> reads_back v = true.
Proof.
  destruct obj as [| | | |s|xs|]; try discriminate; simpl.
  - intros _. destruct (String.get i s); [|discriminate].
    intros H. inversion H. reflexivity.
  - intros Hall. destruct (nth_error xs i) as [x|] eqn:E; [|discriminate].
    intros H. inversion H; subst. apply nth_error_In in E.
    rewrite forallb_forall in Hall. exact (Hall v E).
Qed.

Lemma reads_back_entry results key i d v :
  reads_back results = true -> reads_back d = true ->
  entry results key i d = Ok v -> reads_back v = true.
Proof.
  intros Hres Hd. unfold entry.
  destruct (rbind (get results key (VList [])) len) as [n|]; [|discriminate].
  simpl. destruct (i <? n)%nat.
  - destruct (getitem results key) as [xs|] eqn:E; [|discriminate]. simpl.
    apply reads_back_getindex. exact (reads_back_getitem _ _ _ Hres E).
  - intros H. inversion H; subst. exact Hd.
Qed.

Lemma reads_back_py_or x d :
  reads_back x = true -> reads_back d = true -> reads_back (py_or x d) = true.
Proof. unfold py_or. destruct (truthy x); auto. Qed.

Lemma str_in_filter {A} (f : string * A -> bool) k kvs :
  str_in k (map fst (filter f kvs)) = true -> str_in k (map fst kvs) = true.
Proof.
  rewrite !str_in_In, !in_map_iff. intros (kv & E & Hin).
  apply filter_In in Hin. exists kv. tauto.
Qed.

Lemma distinct_filter {A} (f : string * A -> bool) kvs :
  distinct (map fst kvs) = true -> distinct (map fst (filter f kvs)) = true.
Proof.
  induction kvs as [|[k x] kvs IH]; [reflexivity|]. simpl.
  rewrite andb_true_iff, negb_true_iff. intros [Hfresh Hd].
  destruct (f (k, x)); [|auto]. simpl. rewrite (IH Hd), andb_true_r.
  apply negb_true_iff.
  destruct (str_in k (map fst (filter f kvs))) eqn:E; [|reflexivity].
  apply str_in_filter in E. congruence.
Qed.

(** What the comprehension keeps of a dict that reads back reads back. *)
Lemma reads_back_filter f kvs :
  reads_back (VDict kvs) = true -> reads_back (VDict (filter f kvs)) = true.
Proof.
  cbn [reads_back]. rewrite !andb_true_iff. intros [Hd Hall].
  split; [apply distinct_filter, Hd|].
  apply forallb_forall. intros [k x] Hin. apply filter_In in Hin.
  rewrite forallb_forall in Hall. exact (Hall (k, x) (proj1 Hin)).
Qed.

(** The record built from values that read back reads back. *)
Lemma reads_back_chunk_of doc_id document kvs embedding ts :
  reads_back doc_id = true -> reads_back document = true ->
  reads_back (VDict kvs) = true -> reads_back embedding = true ->
  reads_back (chunk_value (chunk_of doc_id document kvs embedding (VStr ts)))
  = true.
Proof.
  intros Hid Hdoc Hkvs Hemb.
  pose proof (fun k d => reads_back_lookup kvs k d Hkvs) as Hl.
  pose proof (reads_back_filter
                (fun '(k, _) => negb (str_in k reserved_keys)) kvs Hkvs) as Hf.
  unfold chunk_value, chunk_of.
  cbn [id session_id timestamp type content summary metadata embeddings
       related_chunks repository branch files_modified tools_used outcome
       tags difficulty extended_metadata].
  remember (VDict (filter _ kvs)) as ext eqn:Eext. clear Eext.
  remember (py_or document _) as doc eqn:Edoc.
  remember (py_or embedding _) as emb eqn:Eemb.
  assert (Hdoc' : reads_back doc = true)
    by (subst doc; apply reads_back_py_or; auto).
  assert (Hemb' : reads_back emb = true)
    by (subst emb; apply reads_back_py_or; auto).
  clear Edoc Eemb.
  cbn [reads_back map fst forallb].
  rewrite Hid, Hf, Hdoc', Hemb', !Hl by reflexivity.
  reflexivity.
Qed.

Section EnvelopeFacts.

Variable utcoffset : Z -> Z.
Variable clock : nat -> datetime.
Variable chroma_path : string.
Variable persistent_client : bool -> result unit.
Variable list_collection_names : result (list string).
Variable get_collection : string -> result collection.

Local Abbreviation stored_record := (Output.stored_record get_collection).
Local Abbreviation store_reads_back := (Output.store_reads_back get_collection).

Lemma export_collection_records name self chunks self' :
  export_collection utcoffset clock get_collection name self
  = (Ok chunks, self') ->
  Forall stored_record chunks.
Proof.
  destruct (enumeration_raises_dec get_collection name)
    as [Hfail | (results & n & Hget & Hn)].
  - rewrite (export_collection_failed utcoffset clock get_collection
               name self Hfail).
    intros H. inversion H. constructor.
  - destruct (export_collection_opened utcoffset clock get_collection
                name results n self Hget Hn)
      as (chunks' & s1 & Hrun & _ & Hall & _).
    rewrite Hrun. intros H. inversion H; subst.
    eapply Forall_impl; [|exact Hall]. intros c (i & _ & Hc).
    exists name, results, i. auto.
Qed.

Lemma for_each_export_collection_records names : forall all_chunks self r self',
  for_each names
    (fun collection_name all_chunks =>
       chunks <- export_collection utcoffset clock get_collection
                   collection_name ;;
       modify_stats incr_collections ;;;
       ret (all_chunks ++ chunks)%list) all_chunks self
  = (Ok r, self') ->
  Forall stored_record all_chunks -> Forall stored_record r.
Proof.
  induction names as [|name rest IH]; intros all_chunks self r self'.
  - simpl. unfold ret. intros H. inversion H; subst. auto.
  - cbn [for_each]. unfold bind at 1. unfold bind at 1.
    destruct (export_collection utcoffset clock get_collection name self)
      as [[chunks|e] s1] eqn:Hrun; [|discriminate].
    unfold bind at 1, modify_stats at 1, ret at 1.
    intros Hloop Hacc. apply (IH _ _ _ _ Hloop).
    apply Forall_app. split; [exact Hacc|].
    exact (export_collection_records name self chunks s1 Hrun).
Qed.

(** Every chunk of the envelope is the record of a stored document. *)
Lemma export_all_records self e self' :
  export_all utcoffset clock chroma_path persistent_client
    list_collection_names get_collection self = (Ok e, self') ->
  Forall stored_record (chunks e).
Proof.
  unfold export_all, bind at 1, connect, try_except, lift.
  destruct (persistent_client true) as [[]|e1];
    [|destruct (persistent_client false) as [[]|e2]].
  3: discriminate.
  all: unfold bind at 1, list_collections, try_except, lift.
  all: destruct list_collection_names as [[|name rest]|e0].
  all: try (unfold get_export_metadata, bind, now, ret; simpl;
            intros H; inversion H; subst; simpl; constructor).
  all: unfold bind at 1.
  all: destruct (for_each (name :: rest) _ [] self) as [[r|e3] s1] eqn:Hloop;
         [|discriminate].
  all: apply for_each_export_collection_records in Hloop; [|constructor].
  all: unfold get_export_metadata, bind, now, ret; simpl.
  all: intros H; inversion H; subst; simpl; exact Hloop.
Qed.

Lemma reads_back_stored_record c :
  store_reads_back -> stored_record c -> reads_back (chunk_value c) = true.
Proof.
  intros Hstore (name & results & i & Hget & Hcan).
  pose proof (Hstore name results Hget) as Hres.
  destruct Hcan as (doc_id & document & kvs & embedding & ts
                    & Hid & Hdoc & Hmd & Hemb & ->).
  apply reads_back_chunk_of.
  - apply (reads_back_entry _ _ _ _ _ Hres) in Hid; auto.
  - apply (reads_back_entry _ _ _ _ _ Hres) in Hdoc; auto.
  - apply (reads_back_entry _ _ _ _ _ Hres) in Hmd; auto.
  - apply (reads_back_entry _ _ _ _ _ Hres) in Hemb; auto.
Qed.

Lemma reads_back_envelope self e :
  Forall (fun c => reads_back (chunk_value c) = true) (chunks e) ->
  reads_back (envelope_value self e) = true.
Proof.
  intros Hall. unfold envelope_value. cbn [reads_back map fst forallb].
  assert (H : forallb reads_back (map chunk_value (chunks e)) = true).
  { apply forallb_forall. intros v Hin. apply in_map_iff in Hin.
    destruct Hin as (c & <- & Hc). rewrite Forall_forall in Hall. auto. }
  rewrite H. reflexivity.
Qed.

(** The envelope of a run over a store that reads back reads back. *)
Lemma export_all_reads_back self e self' :
  store_reads_back ->
  export_all utcoffset clock chroma_path persistent_client
    list_collection_names get_collection self = (Ok e, self') ->
  reads_back (envelope_value self' e) = true.
Proof.
  intros Hstore Hrun. apply reads_back_envelope.
  eapply Forall_impl; [|exact (export_all_records self e self' Hrun)].
  intros c Hc. exact (reads_back_stored_record c Hstore Hc).
Qed.


End EnvelopeFacts.



(* ===================================================================== *)
(** * A whole run: connecting, listing, counting *)
(* ===================================================================== *)

Import Script.

Section RunFacts.

Variable utcoffset : Z -> Z.
Variable clock : nat -> datetime.
Variable chroma_path : string.
Variable persistent_client : bool -> result unit.
Variable list_collection_names : result (list string).
Variable get_collection : string -> result collection.

Local Abbreviation export_doc := (export_document utcoffset clock).
Local Abbreviation export_coll := (export_collection utcoffset clock get_collection).
Local Abbreviation doc_ok := (document_ok utcoffset clock).
Local Abbreviation run :=
  (export_all utcoffset clock chroma_path persistent_client
     list_collection_names get_collection).

Lemma for_each_export_document_order results idxs : forall chunks self,
  exists new self',
    for_each idxs (export_doc results) chunks self
    = (Ok (chunks ++ new)%list, self')
    /\ Forall2 (canonical_record_of results) (filter (doc_ok results) idxs) new.
Proof.
  induction idxs as [|i rest IH]; intros chunks self.
  - exists [], self. simpl. rewrite app_nil_r. split; [reflexivity | constructor].
  - simpl for_each. unfold bind at 1. cbn [filter].
    destruct (doc_ok results i) eqn:Hok.
    + destruct (export_document_ok utcoffset clock results i chunks self Hok)
        as (c & s1 & Hrun & Hcan & _).
      rewrite Hrun.
      destruct (IH (chunks ++ [c])%list s1) as (new & s2 & Hloop & Hall).
      exists (c :: new), s2. rewrite Hloop, <- app_assoc.
      split; [reflexivity | constructor; assumption].
    + destruct (export_document_fail utcoffset clock results i chunks self Hok)
        as (s1 & Hrun & _).
      rewrite Hrun. apply IH.
Qed.

(** X6: The chunks of a collection come out in the order of its documents:
    one for each document that converts, none for the others. *)
Theorem export_collection_keeps_order name results n self :
  get_collection name = Ok (Ok results) ->
  rbind (get results "ids" (VList [])) len = Ok n ->
  exists chunks self',
    export_coll name self = (Ok chunks, self')
    /\ Forall2 (canonical_record_of results)
         (filter (doc_ok results) (seq 0 n)) chunks.
Proof.
  intros Hget Hcount.
  destruct (for_each_export_document_order results (seq 0 n) [] self)
    as (new & s1 & Hloop & Hall).
  simpl app in Hloop.
  unfold export_collection, try_except, bind at 1, lift.
  rewrite Hget. unfold bind at 1. unfold bind at 1. rewrite Hcount.
  unfold bind at 1. rewrite Hloop. unfold bind, modify_stats, ret.
  exists new. eexists. split; [reflexivity | exact Hall].
Qed.

(** What [export_collection] returns for a collection that opened. *)
Lemma export_collection_chunks_inv name results self chunks self' :
  get_collection name = Ok (Ok results) ->
  export_coll name self = (Ok chunks, self') ->
  chunks = []
  \/ exists n, rbind (get results "ids" (VList [])) len = Ok n
               /\ Forall (fun c => exists i, (i < n)%nat
                                             /\ canonical_record_of results i c)
                    chunks.
Proof.
  intros Hget Hrun.
  destruct (rbind (get results "ids" (VList [])) len) as [n|e] eqn:Hn.
  - right. exists n. split; [reflexivity|].
    destruct (export_collection_opened utcoffset clock get_collection
                name results n self Hget Hn)
      as (chunks' & s1 & Hrun' & _ & Hall & _).
    rewrite Hrun in Hrun'. inversion Hrun'; subst. exact Hall.
  - left.
    rewrite (export_collection_failed utcoffset clock get_collection name self)
      in Hrun.
    + inversion Hrun. reflexivity.
    + right. right. exists results, e. auto.
Qed.


(** X8: A record whose metadata is not a dict (a document stored without
    metadata has [None]) is never exported: the turn counts one error,
    leaves the list as it was and does not read the clock. *)
Theorem record_without_dict_metadata_is_skipped results i md chunks self :
  entry results "metadatas" i (VDict []) = Ok md ->
  (forall kvs, md <> VDict kvs) ->
  export_doc results i chunks self
  = (Ok chunks, mk_exporter (incr_errors (stats self)) (clock_reads self)).
Proof.
  intros Hmd Hnd. rewrite export_document_unfold, process_document_unfold.
  rewrite Hmd.
  destruct (entry results "ids" i _) as [doc_id|]; [|reflexivity].
  destruct (entry results "documents" i _) as [document|]; [|reflexivity].
  destruct (entry results "embeddings" i _) as [embedding|]; [|reflexivity].
  rewrite (convert_not_dict utcoffset clock doc_id document md embedding self Hnd).
  reflexivity.
Qed.

Lemma document_fails_on_column results key e i :
  In key ["documents"; "metadatas"; "embeddings"] ->
  rbind (get results key (VList [])) len = Raise e ->
  doc_ok results i = false.
Proof.
  intros Hkey Hlen. unfold document_ok.
  rewrite process_document_unfold.
  assert (Hent : forall d, entry results key i d = Raise e).
  { intros d. unfold entry. rewrite Hlen. reflexivity. }
  destruct (entry results "ids" i _) as [doc_id|]; [|reflexivity].
  destruct Hkey as [<- | [<- | [<- | []]]].
  - rewrite Hent. reflexivity.
  - destruct (entry results "documents" i _); [|reflexivity].
    rewrite Hent. reflexivity.
  - destruct (entry results "documents" i _); [|reflexivity].
    destruct (entry results "metadatas" i _); [|reflexivity].
    rewrite Hent. reflexivity.
Qed.

(** X9: When one of the columns [documents], [metadatas] or [embeddings]
    is there but has no length (it is [None], say), every document of
    the collection fails: no chunk comes out, and each of the [n]
    documents counts as one error and as one document. *)
Theorem unmeasurable_column_fails_every_document name results n key e self :
  get_collection name = Ok (Ok results) ->
  rbind (get results "ids" (VList [])) len = Ok n ->
  In key ["documents"; "metadatas"; "embeddings"] ->
  rbind (get results key (VList [])) len = Raise e ->
  exists self',
    export_coll name self = (Ok [], self')
    /\ exported_chunks (stats self') = exported_chunks (stats self)
    /\ errors (stats self') = errors (stats self) + Z.of_nat n
    /\ total_documents (stats self') = total_documents (stats self) + Z.of_nat n.
Proof.
  intros Hget Hn Hkey Hlen.
  destruct (export_collection_opened utcoffset clock get_collection
              name results n self Hget Hn)
    as (chunks & self' & Hrun & Hcount & _ & _ & Ht & Hx & He).
  assert (Hnone : filter (doc_ok results) (seq 0 n) = []).
  { clear Hcount. induction (seq 0 n) as [|i l IH]; [reflexivity|]. cbn [filter].
    rewrite (document_fails_on_column results key e i Hkey Hlen). exact IH. }
  rewrite Hnone in Hcount. destruct chunks; [|discriminate].
  exists self'. simpl in Hx, He. repeat split; try assumption; lia.
Qed.

Lemma export_all_unfold self :
  run self =
  match persistent_client true, persistent_client false with
  | Raise _, Raise e => (Raise e, self)
  | _, _ =>
      match listed list_collection_names with
      | [] =>
          (Ok (mk_envelope []
                 (mk_export_metadata (isoformat (clock (clock_reads self)))
                    "ChromaDB" chroma_path "ConversationChunk" "1.0.0"
                    SelfStats)),
           mk_exporter (stats self) (S (clock_reads self)))
      | names =>
          match for_each names
                  (fun collection_name all_chunks =>
                     chunks <- export_coll collection_name ;;
                     modify_stats incr_collections ;;;
                     ret (all_chunks ++ chunks)%list) [] self with
          | (Ok all_chunks, s1) =>
              (Ok (mk_envelope all_chunks
                     (mk_export_metadata (isoformat (clock (clock_reads s1)))
                        "ChromaDB" chroma_path "ConversationChunk" "1.0.0"
                        SelfStats)),
               mk_exporter (stats s1) (S (clock_reads s1)))
          | (Raise e, s1) => (Raise e, s1)
          end
      end
  end.
Proof.
  unfold export_all, bind at 1, connect, try_except, lift.
  destruct (persistent_client true) as [[]|e1];
    [|destruct (persistent_client false) as [[]|e2]].
  3: reflexivity.
  all: unfold bind at 1, list_collections, try_except, lift, listed.
  all: destruct list_collection_names as [[|name rest]|e0]; try reflexivity.
  all: unfold bind at 1.
  all: destruct (for_each (name :: rest) _ [] self) as [[r|e3] s1]; reflexivity.
Qed.

Local Abbreviation opens := (Script.opens get_collection).

(** What one collection adds to the counters. *)
Lemma export_collection_balance name self :
  exists chunks self',
    export_coll name self = (Ok chunks, self')
    /\ collections (stats self') = collections (stats self)
    /\ exported_chunks (stats self')
       = exported_chunks (stats self) + Z.of_nat (List.length chunks)
    /\ exported_chunks (stats self') + errors (stats self')
         - total_documents (stats self')
       = exported_chunks (stats self) + errors (stats self)
         - total_documents (stats self)
         + (if opens name then 0 else 1).
Proof.
  destruct (enumeration_raises_dec get_collection name)
    as [Hfail | (results & n & Hget & Hn)].
  - rewrite (export_collection_failed utcoffset clock get_collection
               name self Hfail).
    eexists. eexists. split; [reflexivity|]. simpl.
    assert (Ho : opens name = false).
    { unfold Script.opens.
      destruct Hfail as [[e H] | [[e H] | (results & e & H & Hcount)]];
        rewrite H; [reflexivity | reflexivity | rewrite Hcount; reflexivity]. }
    rewrite Ho. repeat split; lia.
  - destruct (export_collection_opened utcoffset clock get_collection
                name results n self Hget Hn)
      as (chunks & self' & Hrun & Hlen & _ & Hc & Ht & Hx & He).
    exists chunks, self'. split; [exact Hrun|].
    assert (Ho : opens name = true)
      by (unfold Script.opens; rewrite Hget, Hn; reflexivity).
    assert (Hle : (List.length chunks <= n)%nat).
    { rewrite Hlen. etransitivity; [apply filter_length_le|].
      rewrite length_seq. lia. }
    rewrite Ho. repeat split; try assumption; lia.
Qed.

Lemma for_each_export_collection_balance names : forall all_chunks self,
  exists new self',
    for_each names
      (fun collection_name all_chunks =>
         chunks <- export_coll collection_name ;;
         modify_stats incr_collections ;;;
         ret (all_chunks ++ chunks)%list) all_chunks self
    = (Ok (all_chunks ++ new)%list, self')
    /\ collections (stats self')
       = collections (stats self) + Z.of_nat (List.length names)
    /\ exported_chunks (stats self') + errors (stats self')
         - total_documents (stats self')
       = exported_chunks (stats self) + errors (stats self)
         - total_documents (stats self)
         + Z.of_nat (List.length (filter (fun n => negb (opens n)) names)).
Proof.
  induction names as [|name rest IH]; intros all_chunks self.
  - exists [], self. simpl. rewrite app_nil_r. repeat split; lia.
  - cbn [for_each]. unfold bind at 1. unfold bind at 1.
    destruct (export_collection_balance name self)
      as (chunks & s1 & Hrun & Hc & _ & Hb).
    rewrite Hrun. unfold bind at 1, modify_stats at 1, ret at 1.
    destruct (IH (all_chunks ++ chunks)%list
                 (mk_exporter (incr_collections (stats s1)) (clock_reads s1)))
      as (new & s2 & Hloop & Hc2 & Hb2).
    rewrite Hloop. exists (chunks ++ new)%list, s2.
    rewrite app_assoc. split; [reflexivity|].
    simpl in Hc2, Hb2. cbn [filter List.length].
    destruct (opens name); cbn [negb List.length]; split; lia.
Qed.

(** X1: [export_all] raises only when both attempts to connect do, and
    then with what the second attempt raised and the exporter as it
    was; whatever the collections do, it returns. *)
Theorem export_all_raises_only_from_connect self :
  is_ok (fst (run self))
  = is_ok (persistent_client true) || is_ok (persistent_client false)
  /\ forall e, fst (run self) = Raise e ->
       persistent_client false = Raise e /\ snd (run self) = self.
Proof.
  rewrite export_all_unfold.
  destruct (for_each_export_collection_balance
              (listed list_collection_names) [] self)
    as (new & s1 & Hloop & _).
  destruct (persistent_client true) as [[]|e1];
    [|destruct (persistent_client false) as [[]|e2]].
  3: { split; [reflexivity|]. intros e H. inversion H. auto. }
  all: destruct (listed list_collection_names) as [|name rest];
    [split; [reflexivity | discriminate]|].
  all: rewrite Hloop; split; [reflexivity | discriminate].
Qed.

(** X2: When the collections cannot be listed, or there is none, the run
    still returns: an envelope with no chunk, every counter as it
    was.  A failure to list is not counted as an error. *)
Theorem unlisted_store_gives_empty_envelope self :
  is_ok (persistent_client true) || is_ok (persistent_client false) = true ->
  listed list_collection_names = [] ->
  exists md,
    run self
    = (Ok (mk_envelope [] md), mk_exporter (stats self) (S (clock_reads self)))
    /\ export_timestamp md = isoformat (clock (clock_reads self))
    /\ source_path md = chroma_path.
Proof.
  intros Hconn Hnone. rewrite export_all_unfold, Hnone.
  destruct (persistent_client true) as [[]|e1];
    [|destruct (persistent_client false) as [[]|e2]; [|discriminate]].
  all: eexists; split; [reflexivity|]; split; reflexivity.
Qed.

(** X3: Every collection listed is counted as processed, those that
    failed to open included. *)
Theorem every_listed_collection_is_counted self e self' :
  run self = (Ok e, self') ->
  collections (stats self')
  = collections (stats self)
    + Z.of_nat (List.length (listed list_collection_names)).
Proof.
  rewrite export_all_unfold.
  destruct (for_each_export_collection_balance
              (listed list_collection_names) [] self)
    as (new & s1 & Hloop & Hc & _).
  destruct (persistent_client true) as [[]|e1];
    [|destruct (persistent_client false) as [[]|e2]; [|discriminate]].
  all: destruct (listed list_collection_names) as [|name rest];
    [intros H; inversion H; subst; simpl; lia|].
  all: rewrite Hloop; intros H; inversion H; subst; exact Hc.
Qed.

(** X4: The counters balance: over a run, the chunks exported and the
    errors counted add up to the documents counted plus one for each
    listed collection that did not open. *)
Theorem counters_balance self e self' :
  run self = (Ok e, self') ->
  exported_chunks (stats self') + errors (stats self')
  = exported_chunks (stats self) + errors (stats self)
    + (total_documents (stats self') - total_documents (stats self))
    + Z.of_nat (List.length
                  (filter (fun n => negb (opens n))
                     (listed list_collection_names))).
Proof.
  rewrite export_all_unfold.
  destruct (for_each_export_collection_balance
              (listed list_collection_names) [] self)
    as (new & s1 & Hloop & _ & Hb).
  destruct (persistent_client true) as [[]|e1];
    [|destruct (persistent_client false) as [[]|e2]; [|discriminate]].
  all: destruct (listed list_collection_names) as [|name rest];
    [intros H; inversion H; subst; simpl; lia|].
  all: rewrite Hloop; intros H; inversion H; subst; cbn [stats]; lia.
Qed.

(** X5: The ["stats"] of an envelope is the exporter's own dict: a second
    run on the same exporter adds to the same counters, and the first
    envelope then shows the chunks of both runs. *)
Theorem counters_accumulate_across_runs self e1 s1 e2 s2 :
  run self = (Ok e1, s1) ->
  run s1 = (Ok e2, s2) ->
  exported_chunks (deref s2 (summary_stats (envelope_metadata e1)))
  = exported_chunks (stats self)
    + Z.of_nat (List.length (chunks e1)) + Z.of_nat (List.length (chunks e2)).
Proof.
  intros H1 H2. destruct (summary_stats (envelope_metadata e1)). simpl.
  rewrite (export_all_counts utcoffset clock chroma_path persistent_client
             list_collection_names get_collection s1 e2 s2 H2).
  rewrite (export_all_counts utcoffset clock chroma_path persistent_client
             list_collection_names get_collection self e1 s1 H1).
  reflexivity.
Qed.

(** X10: In every chunk of an envelope the timestamp is a string, the
    content is the stored document or, when that is [None] or
    otherwise false, the empty string, and the embedding is a stored
    one or the empty list. *)
Theorem exported_chunk_shape self e self' :
  run self = (Ok e, self') ->
  Forall (fun c =>
            (exists ts, timestamp c = VStr ts)
            /\ (content c = VStr "" \/ truthy (content c) = true)
            /\ (embeddings c = VList [] \/ truthy (embeddings c) = true))
    (chunks e).
Proof.
  intros Hrun.
  pose proof (export_all_records utcoffset clock chroma_path persistent_client
                list_collection_names get_collection self e self' Hrun) as Hall.
  eapply Forall_impl; [|exact Hall].
  intros c (name & results & i & _ & doc_id & document & kvs & embedding & ts
            & _ & _ & _ & _ & ->).
  unfold chunk_of. cbn [timestamp content embeddings]. split; [eauto|].
  unfold py_or.
  split; [destruct (truthy document) eqn:E | destruct (truthy embedding) eqn:E];
    auto.
Qed.

End RunFacts.

Lemma export_collection_keeps_order_witness :
  exists chunks self',
    export_collection utc sample_clock sample_get_collection "memories" init
    = (Ok chunks, self')
    /\ Forall2 (canonical_record_of sample_results)
         (filter (document_ok utc sample_clock sample_results) (seq 0 3))
         chunks.
Proof.
  apply (export_collection_keeps_order utc sample_clock sample_get_collection
           "memories" sample_results 3 init); reflexivity.
Defined.


Lemma record_without_dict_metadata_is_skipped_witness :
  entry sample_results "metadatas" 1 (VDict []) = Ok VNone
  /\ export_document utc sample_clock sample_results 1 [] init
     = (Ok [], mk_exporter (incr_errors (stats init)) (clock_reads init)).
Proof.
  split; [reflexivity|].
  apply (record_without_dict_metadata_is_skipped utc sample_clock
           sample_results 1 VNone [] init); [reflexivity | discriminate].
Defined.

Lemma unmeasurable_column_fails_every_document_witness :
  exists self',
    export_collection utc sample_clock (fun _ => Ok (Ok no_embeddings_results))
      "memories" init = (Ok [], self')
    /\ exported_chunks (stats self') = exported_chunks (stats init)
    /\ errors (stats self') = errors (stats init) + Z.of_nat 2
    /\ total_documents (stats self')
       = total_documents (stats init) + Z.of_nat 2.
Proof.
  apply (unmeasurable_column_fails_every_document utc sample_clock
           (fun _ => Ok (Ok no_embeddings_results)) "memories"
           no_embeddings_results 2 "embeddings" TypeError init);
    [reflexivity | reflexivity | simpl; auto | reflexivity].
Defined.

Lemma unlisted_store_gives_empty_envelope_witness :
  exists md,
    export_all utc sample_clock "/data/chroma" (fun _ => Ok tt)
      (Raise StoreError) sample_get_collection init
    = (Ok (mk_envelope [] md), mk_exporter (stats init) (S (clock_reads init)))
    /\ export_timestamp md = isoformat (sample_clock (clock_reads init))
    /\ source_path md = "/data/chroma".
Proof.
  apply (unlisted_store_gives_empty_envelope utc sample_clock "/data/chroma"
           (fun _ => Ok tt) (Raise StoreError) sample_get_collection init);
    reflexivity.
Defined.

Lemma every_listed_collection_is_counted_witness :
  exists e self',
    sample_export_all init = (Ok e, self')
    /\ collections (stats self')
       = collections (stats init)
         + Z.of_nat (List.length (listed (Ok ["memories"; "missing"]))).
Proof.
  eexists. eexists. split; [reflexivity|].
  eapply (every_listed_collection_is_counted utc sample_clock "/data/chroma"
           (fun _ => Ok tt) (Ok ["memories"; "missing"]) sample_get_collection
            init).
  reflexivity.
Defined.

Lemma counters_balance_witness :
  exists e self',
    sample_export_all init = (Ok e, self')
    /\ exported_chunks (stats self') + errors (stats self')
       = exported_chunks (stats init) + errors (stats init)
         + (total_documents (stats self') - total_documents (stats init))
         + Z.of_nat (List.length
                       (filter (fun n => negb (opens sample_get_collection n))
                          (listed (Ok ["memories"; "missing"])))).
Proof.
  eexists. eexists. split; [reflexivity|].
  eapply (counters_balance utc sample_clock "/data/chroma"
           (fun _ => Ok tt) (Ok ["memories"; "missing"]) sample_get_collection
            init).
  reflexivity.
Defined.

Lemma counters_accumulate_across_runs_witness :
  exists e1 s1 e2 s2,
    sample_export_all init = (Ok e1, s1)
    /\ sample_export_all s1 = (Ok e2, s2)
    /\ exported_chunks (deref s2 (summary_stats (envelope_metadata e1)))
       = exported_chunks (stats init)
         + Z.of_nat (List.length (chunks e1))
         + Z.of_nat (List.length (chunks e2)).
Proof.
  eexists. eexists. eexists. eexists.
  split; [reflexivity|]. split; [reflexivity|].
  eapply (counters_accumulate_across_runs utc sample_clock "/data/chroma"
            (fun _ => Ok tt) (Ok ["memories"; "missing"]) sample_get_collection
            init); reflexivity.
Defined.

Lemma exported_chunk_shape_witness :
  exists e self',
    sample_export_all init = (Ok e, self')
    /\ Forall (fun c =>
                 (exists ts, timestamp c = VStr ts)
                 /\ (content c = VStr "" \/ truthy (content c) = true)
                 /\ (embeddings c = VList [] \/ truthy (embeddings c) = true))
         (chunks e).
Proof.
  eexists. eexists. split; [reflexivity|].
  eapply (exported_chunk_shape utc sample_clock "/data/chroma"
           (fun _ => Ok tt) (Ok ["memories"; "missing"]) sample_get_collection
            init).
  reflexivity.
Defined.

Section EnvelopeLayout.

Variable utcoffset : Z -> Z.
Variable clock : nat -> datetime.
Variable chroma_path : string.
Variable persistent_client : bool -> result unit.
Variable list_collection_names : result (list string).
Variable get_collection : string -> result collection.

Local Abbreviation export_coll := (export_collection utcoffset clock get_collection).
Local Abbreviation run :=
  (export_all utcoffset clock chroma_path persistent_client
     list_collection_names get_collection).

Lemma for_each_export_collection_groups names : forall all_chunks self,
  exists groups self',
    for_each names
      (fun collection_name all_chunks =>
         chunks <- export_coll collection_name ;;
         modify_stats incr_collections ;;;
         ret (all_chunks ++ chunks)%list) all_chunks self
    = (Ok (all_chunks ++ List.concat groups)%list, self')
    /\ Forall2 (fun name chunks =>
                  exists s s', export_coll name s = (Ok chunks, s'))
         names groups.
Proof.
  induction names as [|name rest IH]; intros all_chunks self.
  - exists [], self. simpl. rewrite app_nil_r. split; [reflexivity | constructor].
  - cbn [for_each]. unfold bind at 1. unfold bind at 1.
    destruct (export_collection_counts utcoffset clock get_collection name self)
      as (chunks & s1 & Hrun & _).
    rewrite Hrun. unfold bind at 1, modify_stats at 1, ret at 1.
    destruct (IH (all_chunks ++ chunks)%list
                 (mk_exporter (incr_collections (stats s1)) (clock_reads s1)))
      as (groups & s2 & Hloop & Hall).
    rewrite Hloop. exists (chunks :: groups), s2.
    cbn [List.concat]. rewrite app_assoc. split; [reflexivity|].
    constructor; [exists self, s1; exact Hrun | exact Hall].
Qed.

(** X21: the chunks of an envelope are the chunks of the collections,
    one collection after the other in the order they were listed. *)
Theorem envelope_chunks_follow_the_listing self e self' :
  run self = (Ok e, self') ->
  exists groups,
    chunks e = List.concat groups
    /\ Forall2 (fun name chunks =>
                  exists s s', export_coll name s = (Ok chunks, s'))
         (listed list_collection_names) groups.
Proof.
  rewrite export_all_unfold.
  destruct (for_each_export_collection_groups
              (listed list_collection_names) [] self)
    as (groups & s1 & Hloop & Hall).
  destruct (persistent_client true) as [[]|e1];
    [|destruct (persistent_client false) as [[]|e2]; [|discriminate]].
  all: destruct (listed list_collection_names) as [|name rest];
    [intros H; inversion H; subst; exists []; split; [reflexivity | constructor]|].
  all: rewrite Hloop; intros H; inversion H; subst; exists groups; auto.
Qed.

(** X22: whatever the run went through, the metadata of the envelope
    names the source, the path of the store, the target format and
    the version, and its time is the last reading of the clock in the
    run: it is read after every chunk has been converted. *)
Theorem envelope_metadata_fields self e self' :
  run self = (Ok e, self') ->
  let md := envelope_metadata e in
  source md = "ChromaDB" /\ source_path md = chroma_path
  /\ target_format md = "ConversationChunk" /\ version md = "1.0.0"
  /\ exists k, clock_reads self' = S k
               /\ export_timestamp md = isoformat (clock k).
Proof.
  rewrite export_all_unfold.
  destruct (persistent_client true) as [[]|e1];
    [|destruct (persistent_client false) as [[]|e2]; [|discriminate]].
  all: destruct (listed list_collection_names) as [|name rest];
    [intros H; inversion H; subst; cbn; repeat split; eauto|].
  all: destruct (for_each (name :: rest) _ [] self) as [[r|e3] s1];
    [|discriminate].
  all: intros H; inversion H; subst; cbn; repeat split; eauto.
Qed.

End EnvelopeLayout.

Lemma envelope_chunks_follow_the_listing_witness :
  exists e self',
    sample_export_all init = (Ok e, self')
    /\ exists groups,
         chunks e = List.concat groups
         /\ Forall2 (fun name chunks =>
                       exists s s',
                         export_collection utc sample_clock
                           sample_get_collection name s = (Ok chunks, s'))
              (listed (Ok ["memories"; "missing"])) groups.
Proof.
  eexists. eexists. split; [reflexivity|].
  eapply (envelope_chunks_follow_the_listing utc sample_clock "/data/chroma"
            (fun _ => Ok tt) (Ok ["memories"; "missing"]) sample_get_collection
            init).
  reflexivity.
Defined.

Lemma envelope_metadata_fields_witness :
  exists e self',
    sample_export_all init = (Ok e, self')
    /\ let md := envelope_metadata e in
       source md = "ChromaDB" /\ source_path md = "/data/chroma"
       /\ target_format md = "ConversationChunk" /\ version md = "1.0.0"
       /\ exists k, clock_reads self' = S k
                    /\ export_timestamp md = isoformat (sample_clock k).
Proof.
  eexists. eexists. split; [reflexivity|].
  eapply (envelope_metadata_fields utc sample_clock "/data/chroma"
            (fun _ => Ok tt) (Ok ["memories"; "missing"]) sample_get_collection
            init).
  reflexivity.
Defined.

Section CounterFacts.

Variable utcoffset : Z -> Z.
Variable clock : nat -> datetime.
Variable chroma_path : string.
Variable persistent_client : bool -> result unit.
Variable list_collection_names : result (list string).
Variable get_collection : string -> result collection.

Local Abbreviation export_coll := (export_collection utcoffset clock get_collection).
Local Abbreviation run :=
  (export_all utcoffset clock chroma_path persistent_client
     list_collection_names get_collection).

Lemma export_collection_grows name self :
  exists chunks self',
    export_coll name self = (Ok chunks, self')
    /\ counters_grew (stats self) (stats self').
Proof.
  unfold counters_grew.
  destruct (enumeration_raises_dec get_collection name)
    as [Hfail | (results & n & Hget & Hn)].
  - rewrite (export_collection_failed utcoffset clock get_collection
               name self Hfail).
    eexists. eexists. split; [reflexivity|]. simpl. lia.
  - destruct (export_collection_opened utcoffset clock get_collection
                name results n self Hget Hn)
      as (chunks & self' & Hrun & Hlen & _ & Hc & Ht & Hx & He).
    exists chunks, self'. split; [exact Hrun|].
    assert (Hle : (List.length chunks <= n)%nat).
    { rewrite Hlen. etransitivity; [apply filter_length_le|].
      rewrite length_seq. lia. }
    lia.
Qed.

Lemma for_each_export_collection_grows names : forall all_chunks self,
  exists r self',
    for_each names
      (fun collection_name all_chunks =>
         chunks <- export_coll collection_name ;;
         modify_stats incr_collections ;;;
         ret (all_chunks ++ chunks)%list) all_chunks self
    = (Ok r, self')
    /\ counters_grew (stats self) (stats self').
Proof.
  unfold counters_grew.
  induction names as [|name rest IH]; intros all_chunks self.
  - exists all_chunks, self. simpl. split; [reflexivity | lia].
  - cbn [for_each]. unfold bind at 1. unfold bind at 1.
    destruct (export_collection_grows name self) as (chunks & s1 & Hrun & Hg).
    rewrite Hrun. unfold bind at 1, modify_stats at 1, ret at 1.
    destruct (IH (all_chunks ++ chunks)%list
                 (mk_exporter (incr_collections (stats s1)) (clock_reads s1)))
      as (r & s2 & Hloop & Hg2).
    rewrite Hloop. exists r, s2. split; [reflexivity|].
    unfold counters_grew in Hg. simpl in Hg2. lia.
Qed.

(** X23: over a run no counter goes down, and the chunks exported grow
    by no more than the documents counted. *)
Theorem counters_only_grow self e self' :
  run self = (Ok e, self') -> counters_grew (stats self) (stats self').
Proof.
  rewrite export_all_unfold.
  destruct (for_each_export_collection_grows
              (listed list_collection_names) [] self)
    as (r & s1 & Hloop & Hg).
  destruct (persistent_client true) as [[]|e1];
    [|destruct (persistent_client false) as [[]|e2]; [|discriminate]].
  all: destruct (listed list_collection_names) as [|name rest];
    [intros H; inversion H; subst; unfold counters_grew; simpl; lia|].
  all: rewrite Hloop; intros H; inversion H; subst; exact Hg.
Qed.

(** X24: a collection whose [get] answers without an ["ids"] entry
    exports nothing, whatever documents the answer holds: no chunk,
    no error, and no counter moves. *)
Theorem result_without_ids_exports_nothing name kvs self :
  get_collection name = Ok (Ok (VDict kvs)) ->
  assoc "ids" kvs = None ->
  exists self',
    export_coll name self = (Ok [], self')
    /\ collections (stats self') = collections (stats self)
    /\ total_documents (stats self') = total_documents (stats self)
    /\ exported_chunks (stats self') = exported_chunks (stats self)
    /\ errors (stats self') = errors (stats self)
    /\ clock_reads self' = clock_reads self.
Proof.
  intros Hget Hids.
  unfold export_collection, try_except, bind at 1, lift.
  rewrite Hget. unfold bind at 1. unfold bind at 1.
  unfold get. rewrite Hids. cbn [rbind len List.length seq for_each].
  unfold bind, ret, modify_stats. eexists. split; [reflexivity|].
  simpl. repeat split; lia.
Qed.

End CounterFacts.


Lemma counters_only_grow_witness :
  exists e self',
    sample_export_all init = (Ok e, self')
    /\ counters_grew (stats init) (stats self').
Proof.
  eexists. eexists. split; [reflexivity|].
  eapply (counters_only_grow utc sample_clock "/data/chroma"
            (fun _ => Ok tt) (Ok ["memories"; "missing"]) sample_get_collection
            init).
  reflexivity.
Defined.

Lemma result_without_ids_exports_nothing_witness :
  exists self',
    export_collection utc sample_clock
      (fun _ => Ok (Ok (VDict [("documents", VList [VStr "first"])])))
      "memories" init = (Ok [], self')
    /\ collections (stats self') = collections (stats init)
    /\ total_documents (stats self') = total_documents (stats init)
    /\ exported_chunks (stats self') = exported_chunks (stats init)
    /\ errors (stats self') = errors (stats init)
    /\ clock_reads self' = clock_reads init.
Proof.
  apply (result_without_ids_exports_nothing utc sample_clock
           (fun _ => Ok (Ok (VDict [("documents", VList [VStr "first"])])))
           "memories" [("documents", VList [VStr "first"])] init);
    reflexivity.
Defined.

(* ===================================================================== *)
(** * The timestamps the exporter writes *)
(* ===================================================================== *)

Lemma to_uint_rev_lu n : N.to_uint n = Decimal.rev (DecimalPos.Unsigned.to_lu n).
Proof. destruct n; reflexivity. Qed.

Lemma revapp_app d x :
  Decimal.revapp d x = Decimal.app (Decimal.revapp d Decimal.Nil) x.
Proof.
  apply DecimalFacts.to_list_inj.
  rewrite DecimalFacts.app_spec, !DecimalFacts.revapp_spec.
  rewrite !List.rev_append_rev. simpl. rewrite List.app_nil_r. reflexivity.
Qed.

Lemma string_of_uint_app a b :
  NilEmpty.string_of_uint (Decimal.app a b)
  = (NilEmpty.string_of_uint a ++ NilEmpty.string_of_uint b)%string.
Proof.
  assert (Hcons : forall (f : Decimal.uint -> Decimal.uint) c d,
            (forall u, DecimalFacts.to_list (f u)
                       = c :: DecimalFacts.to_list u) ->
            Decimal.app (f d) b = f (Decimal.app d b)).
  { intros f c d Hf. apply DecimalFacts.to_list_inj.
    rewrite DecimalFacts.app_spec, (Hf d), (Hf (Decimal.app d b)).
    rewrite DecimalFacts.app_spec. reflexivity. }
  induction a as [|a IHa|a IHa|a IHa|a IHa|a IHa|a IHa|a IHa|a IHa|a IHa|a IHa];
    [rewrite DecimalFacts.app_nil_l; reflexivity | ..];
    match goal with
    | |- context [Decimal.app (?D a) b] =>
        rewrite (Hcons D _ a (fun u => eq_refl))
    end;
    cbn [NilEmpty.string_of_uint]; rewrite IHa; reflexivity.
Qed.

Lemma to_uint_tenfold q k :
  (0 < q)%N -> (k < 10)%N ->
  NilEmpty.string_of_uint (N.to_uint (10 * q + k))
  = (NilEmpty.string_of_uint (N.to_uint q)
     ++ String (ascii_of_N (48 + k)) "")%string.
Proof.
  intros Hq Hk. destruct q as [|p]; [lia|].
  rewrite !to_uint_rev_lu.
  assert (E : forall n m,
            DecimalPos.Unsigned.to_lu (m + n)
            = N.peano_rect (fun _ => Decimal.uint) (DecimalPos.Unsigned.to_lu m)
                (fun _ r => Decimal.Little.succ r) n).
  { intros n m. induction n as [|n IH] using N.peano_ind.
    - rewrite N.add_0_r. reflexivity.
    - rewrite N.add_succ_r, DecimalPos.Unsigned.to_lu_succ, IH.
      rewrite N.peano_rect_succ. reflexivity. }
  rewrite E, DecimalPos.Unsigned.to_ldec_tenfold. clear E.
  generalize (DecimalPos.Unsigned.to_lu (N.pos p)). intros d.
  assert (Hk' : In k [0; 1; 2; 3; 4; 5; 6; 7; 8; 9]%N) by (simpl; lia).
  unfold Decimal.rev. simpl in Hk'.
  repeat (destruct Hk' as [<- | Hk']); try contradiction;
    match goal with
    | |- context [N.peano_rect ?P ?a ?f ?n] =>
        let r := eval cbv in (N.peano_rect P a f n) in
        change (N.peano_rect P a f n) with r
    end;
    cbn [Decimal.revapp];
    rewrite revapp_app, string_of_uint_app; reflexivity.
Qed.

Lemma string_of_nonneg_nil_empty n :
  string_of_nonneg n = NilEmpty.string_of_uint (N.to_uint (Z.to_N n)).
Proof.
  unfold string_of_nonneg, NilZero.string_of_uint.
  destruct (Z.to_N n) as [|p]; [reflexivity|].
  cbn [N.to_uint]. pose proof (DecimalPos.Unsigned.to_uint_nonnil p) as H.
  destruct (Pos.to_uint p); [congruence | reflexivity ..].
Qed.

Lemma string_of_nonneg_tenfold n :
  10 <= n ->
  string_of_nonneg n
  = (string_of_nonneg (n / 10) ++ String (digit_char (n mod 10)) "")%string.
Proof.
  intros Hn. rewrite !string_of_nonneg_nil_empty. unfold digit_char.
  rewrite <- to_uint_tenfold by (Z.div_mod_to_equations; lia).
  f_equal. f_equal. Z.div_mod_to_equations. lia.
Qed.

Lemma string_of_nonneg_digit n :
  0 <= n <= 9 -> string_of_nonneg n = String (digit_char n) "".
Proof.
  intros Hn.
  assert (H : In n [0; 1; 2; 3; 4; 5; 6; 7; 8; 9]) by (simpl; lia).
  simpl in H. repeat (destruct H as [<- | H]); try contradiction; reflexivity.
Qed.

Lemma zeros_snoc w : (zeros w ++ "0")%string = String "0" (zeros w).
Proof. induction w as [|w IH]; simpl; [reflexivity | rewrite IH; reflexivity]. Qed.

Lemma digits_zero w : digits w 0 = zeros w.
Proof.
  induction w as [|w IH]; [reflexivity|].
  cbn [digits]. change (0 / 10) with 0. change (0 mod 10) with 0.
  rewrite IH. apply zeros_snoc.
Qed.

Lemma zfill_snoc w a c :
  zfill (S w) (a ++ String c "") = (zfill w a ++ String c "")%string.
Proof.
  unfold zfill. rewrite length_append, append_assoc. cbn [String.length].
  replace (S w - (String.length a + 1))%nat with (w - String.length a)%nat by lia.
  reflexivity.
Qed.

Lemma zfill_digits w : forall n,
  0 <= n < 10 ^ Z.of_nat w ->
  zfill w (if n =? 0 then "" else string_of_nonneg n) = digits w n.
Proof.
  induction w as [|w IH]; intros n Hn.
  - assert (n = 0) by (simpl in Hn; lia). subst n. reflexivity.
  - rewrite Nat2Z.inj_succ, Z.pow_succ_r in Hn by lia.
    cbn [digits]. rewrite <- IH by (Z.div_mod_to_equations; lia).
    destruct (Z.eqb_spec n 0) as [-> | Hnz].
    + change (0 / 10) with 0. change (0 mod 10) with 0. cbn [Z.eqb].
      change (zfill (S w) "") with (zeros (S w - 0) ++ "")%string.
      unfold zfill. cbn [String.length]. rewrite !Nat.sub_0_r, !append_nil_r.
      symmetry. apply zeros_snoc.
    + destruct (Z.eqb_spec (n / 10) 0) as [Hq | Hq].
      * rewrite string_of_nonneg_digit by (Z.div_mod_to_equations; lia).
        replace (n mod 10) with n by (Z.div_mod_to_equations; lia).
        apply (zfill_snoc w "" (digit_char n)).
      * rewrite string_of_nonneg_tenfold by (Z.div_mod_to_equations; lia).
        apply zfill_snoc.
Qed.

(** [%0wd] of a number of at most [w] digits is its [w] digits. *)
Lemma fmt_0d_digits w n :
  (0 < w)%nat -> 0 <= n < 10 ^ Z.of_nat w -> fmt_0d w n = digits w n.
Proof.
  intros Hw Hn. unfold fmt_0d.
  destruct (Z.ltb_spec n 0) as [|_]; [lia|].
  rewrite <- zfill_digits by exact Hn.
  destruct (Z.eqb_spec n 0) as [-> | _]; [|reflexivity].
  destruct w as [|w]; [lia|]. unfold zfill. cbn [string_of_nonneg String.length].
  change (string_of_nonneg 0) with "0". cbn [String.length].
  replace (S w - 1)%nat with w by lia. rewrite Nat.sub_0_r, append_nil_r.
  apply zeros_snoc.
Qed.

Lemma digit_char_facts x :
  is_digit (digit_char (x mod 10)) = true
  /\ digit_val (digit_char (x mod 10)) = x mod 10.
Proof.
  assert (H : 0 <= x mod 10 < 10) by (apply Z.mod_pos_bound; lia).
  remember (x mod 10) as k eqn:E. clear E.
  assert (H' : In k [0; 1; 2; 3; 4; 5; 6; 7; 8; 9]) by (simpl; lia).
  simpl in H'.
  repeat (destruct H' as [<- | H']); try contradiction; split; reflexivity.
Qed.

Lemma is_digit_not_punct c :
  is_digit c = true ->
  Ascii.eqb c "-" = false /\ Ascii.eqb c "+" = false /\ Ascii.eqb c ":" = false
  /\ Ascii.eqb c "." = false /\ Ascii.eqb c NUL = false
  /\ Ascii.eqb c "Z" = false.
Proof.
  destruct c as [[] [] [] [] [] [] [] []]; intros H; try discriminate H;
    repeat split; reflexivity.
Qed.

Lemma days_in_month_le y m : days_in_month y m <= 31.
Proof.
  unfold days_in_month.
  destruct ((m =? 2) && is_leap y); [lia|].
  unfold DAYS_IN_MONTH.
  destruct m as [|p|p]; try lia.
  do 4 (try destruct p as [p|p|]; try lia).
Qed.

Ltac digit_step :=
  match goal with
  | H : is_digit ?c = true |- context [is_digit ?c] => rewrite H
  | H : Ascii.eqb ?c ?x = false |- context [Ascii.eqb ?c ?x] => rewrite H
  | |- context [Ascii.eqb (Ascii ?a0 ?a1 ?a2 ?a3 ?a4 ?a5 ?a6 ?a7)
                          (Ascii ?b0 ?b1 ?b2 ?b3 ?b4 ?b5 ?b6 ?b7)] =>
      let r := eval vm_compute in
        (Ascii.eqb (Ascii a0 a1 a2 a3 a4 a5 a6 a7)
                   (Ascii b0 b1 b2 b3 b4 b5 b6 b7)) in
      change (Ascii.eqb (Ascii a0 a1 a2 a3 a4 a5 a6 a7)
                        (Ascii b0 b1 b2 b3 b4 b5 b6 b7)) with r
  end.

Ltac name_digits :=
  repeat match goal with
  | |- context [digit_char (?e mod 10)] =>
      let c := fresh "c" in
      let Hd := fresh "Hd" in
      let Hval := fresh "Hval" in
      destruct (digit_char_facts e) as [Hd Hval];
      set (c := digit_char (e mod 10)) in *;
      destruct (is_digit_not_punct c Hd) as (? & ? & ? & ? & ? & ?);
      clearbody c
  end.

Ltac parse_cbn :=
  cbn -[is_digit digit_val Ascii.eqb Z.mul Z.add valid_date valid_time
        valid_utcoffset];
  unfold NUL.

Ltac parse_steps := repeat (parse_cbn; digit_step); parse_cbn.

Ltac digits_value n :=
  match goal with
  | |- context [?e * 10 + n mod 10] =>
      replace (e * 10 + n mod 10) with n by (Z.div_mod_to_equations; lia)
  end.

Lemma fromisoformat_isoformat dt :
  valid_datetime dt = true -> fromisoformat (isoformat dt) = Ok dt.
Proof.
  destruct dt as [y m d h mi s us]. unfold valid_datetime.
  cbn [year month day hour minute second microsecond].
  intros Hv. pose proof Hv as Hv'. unfold valid_date, valid_time in Hv'.
  rewrite !andb_true_iff, !Z.leb_le in Hv'.
  destruct Hv' as [[[[[[Hy1 Hy2] Hm1] Hm2] Hd1] Hd2]
                     [[[[[[[Hh1 Hh2] Hmi1] Hmi2] Hs1] Hs2] Hu1] Hu2]].
  pose proof (days_in_month_le y m) as Hdim.
  unfold MINYEAR, MAXYEAR in *.
  unfold isoformat. cbn [year month day hour minute second microsecond].
  rewrite (fmt_0d_digits 4 y), (fmt_0d_digits 2 m), (fmt_0d_digits 2 d),
    (fmt_0d_digits 2 h), (fmt_0d_digits 2 mi), (fmt_0d_digits 2 s)
    by (try (simpl; lia); lia).
  apply andb_true_iff in Hv. destruct Hv as [Hvd Hvt].
  destruct (Z.eqb_spec us 0) as [-> | Hus];
    [|rewrite (fmt_0d_digits 6 us) by (try (simpl; lia); lia)].
  all: cbn [digits append]; name_digits.
  all: unfold fromisoformat, parse_isoformat_date; parse_steps.
  all: unfold parse_isoformat_time, parse_hh_mm_ss_ff; parse_steps.
  all: repeat match goal with
              | H : digit_val ?c = _ |- _ => rewrite H; clear H
              end.
  all: digits_value y; digits_value m; digits_value d; digits_value h;
    digits_value mi; digits_value s; try digits_value us.
  all: rewrite Hvd, Hvt; reflexivity.
Qed.

Lemma valid_datetime_calendar dt seconds us :
  is_calendar_time dt seconds us -> 0 <= us <= 999999 ->
  valid_datetime dt = true.
Proof.
  intros (Hy & Hm & Hd & Hh & Hmi & Hs & _ & Hus) Hrange.
  unfold valid_datetime, valid_date, valid_time.
  rewrite !andb_true_iff, !Z.leb_le. lia.
Qed.

Lemma replace_cons_other old new c rest :
  Ascii.eqb c old = false ->
  replace old new (String c rest) = String c (replace old new rest).
Proof. intros H. cbn [replace]. rewrite H. reflexivity. Qed.

Lemma isoformat_no_Z dt :
  valid_datetime dt = true -> replace "Z" "+00:00" (isoformat dt) = isoformat dt.
Proof.
  destruct dt as [y m d h mi s us]. unfold valid_datetime, valid_date, valid_time.
  cbn [year month day hour minute second microsecond].
  intros Hv. rewrite !andb_true_iff, !Z.leb_le in Hv.
  destruct Hv as [[[[[[Hy1 Hy2] Hm1] Hm2] Hd1] Hd2]
                    [[[[[[[Hh1 Hh2] Hmi1] Hmi2] Hs1] Hs2] Hu1] Hu2]].
  pose proof (days_in_month_le y m) as Hdim.
  unfold MINYEAR, MAXYEAR in *.
  unfold isoformat. cbn [year month day hour minute second microsecond].
  rewrite (fmt_0d_digits 4 y), (fmt_0d_digits 2 m), (fmt_0d_digits 2 d),
    (fmt_0d_digits 2 h), (fmt_0d_digits 2 mi), (fmt_0d_digits 2 s)
    by (try (simpl; lia); lia).
  destruct (Z.eqb_spec us 0) as [-> | Hus];
    [|rewrite (fmt_0d_digits 6 us) by (try (simpl; lia); lia)].
  all: cbn [digits append]; name_digits.
  all: repeat (rewrite replace_cons_other by (assumption || reflexivity));
    reflexivity.
Qed.

Lemma isoformat_inj dt1 dt2 :
  valid_datetime dt1 = true -> valid_datetime dt2 = true ->
  isoformat dt1 = isoformat dt2 -> dt1 = dt2.
Proof.
  intros H1 H2 E. apply fromisoformat_isoformat in H1, H2.
  rewrite E in H1. congruence.
Qed.

Lemma days_before_year_mono a b :
  a <= b -> days_before_year a <= days_before_year b.
Proof. intros H. unfold days_before_year. Z.div_mod_to_equations. lia. Qed.

Lemma ymd2ord_inj y1 m1 d1 y2 m2 d2 :
  1 <= m1 <= 12 -> 1 <= d1 <= days_in_month y1 m1 ->
  1 <= m2 <= 12 -> 1 <= d2 <= days_in_month y2 m2 ->
  ymd2ord y1 m1 d1 = ymd2ord y2 m2 d2 ->
  y1 = y2 /\ m1 = m2 /\ d1 = d2.
Proof.
  intros Hm1 Hd1 Hm2 Hd2 E.
  pose proof (ymd2ord_year_bounds y1 m1 d1 Hm1 Hd1) as B1.
  pose proof (ymd2ord_year_bounds y2 m2 d2 Hm2 Hd2) as B2.
  assert (Hy : y1 = y2).
  { destruct (Z.lt_trichotomy y1 y2) as [Hlt | [Heq | Hgt]]; [|exact Heq|].
    - pose proof (days_before_year_mono (y1 + 1) y2 ltac:(lia)). lia.
    - pose proof (days_before_year_mono (y2 + 1) y1 ltac:(lia)). lia. }
  subst y2. split; [reflexivity|].
  unfold ymd2ord, days_before_month, days_in_month in *.
  assert (C1 : m1 = 1 \/ m1 = 2 \/ m1 = 3 \/ m1 = 4 \/ m1 = 5 \/ m1 = 6
               \/ m1 = 7 \/ m1 = 8 \/ m1 = 9 \/ m1 = 10 \/ m1 = 11
               \/ m1 = 12) by lia.
  assert (C2 : m2 = 1 \/ m2 = 2 \/ m2 = 3 \/ m2 = 4 \/ m2 = 5 \/ m2 = 6
               \/ m2 = 7 \/ m2 = 8 \/ m2 = 9 \/ m2 = 10 \/ m2 = 11
               \/ m2 = 12) by lia.
  clear B1 B2 Hm1 Hm2.
  destruct (is_leap y1);
    repeat (destruct C1 as [->|C1]); try subst m1;
    repeat (destruct C2 as [->|C2]); try subst m2;
    closed_tests; lia.
Qed.

(** An instant has one calendar reading. *)
Lemma calendar_time_unique dt1 dt2 seconds us :
  is_calendar_time dt1 seconds us -> is_calendar_time dt2 seconds us ->
  dt1 = dt2.
Proof.
  destruct dt1 as [y1 m1 d1 h1 mi1 s1 us1], dt2 as [y2 m2 d2 h2 mi2 s2 us2].
  unfold is_calendar_time, timegm.
  cbn [year month day hour minute second microsecond].
  intros (_ & Hm1 & Hd1 & Hh1 & Hmi1 & Hs1 & Hg1 & Hu1)
         (_ & Hm2 & Hd2 & Hh2 & Hmi2 & Hs2 & Hg2 & Hu2).
  assert (Ho : ymd2ord y1 m1 d1 = ymd2ord y2 m2 d2) by lia.
  destruct (ymd2ord_inj _ _ _ _ _ _ Hm1 Hd1 Hm2 Hd2 Ho) as (-> & -> & ->).
  assert (h1 = h2) by lia. assert (mi1 = mi2) by lia.
  assert (s1 = s2) by lia. congruence.
Qed.

Section MoreTimestampFacts.

Variable utcoffset : Z -> Z.
Variable clock : nat -> datetime.

Local Abbreviation convert := (convert_to_conversation_chunk utcoffset clock).
Local Abbreviation extract := (extract_timestamp utcoffset clock).

(** X12: a string timestamp in the form [isoformat] writes for a valid
    datetime, with its microseconds or without, passes the probe: it
    is kept as it is and the clock is not read.  Exporting what was
    exported changes no such timestamp. *)
Theorem exported_timestamp_is_kept doc_id document kvs embedding dt self :
  valid_datetime dt = true ->
  assoc "timestamp" kvs = Some (VStr (isoformat dt)) ->
  convert doc_id document (VDict kvs) embedding self
  = (Ok (chunk_of doc_id document kvs embedding (VStr (isoformat dt))), self).
Proof.
  intros Hv Hts.
  rewrite convert_dict, (extract_string utcoffset clock kvs _ self Hts).
  rewrite (isoformat_no_Z dt Hv), (fromisoformat_isoformat dt Hv). reflexivity.
Qed.

(** X13: In a zone with a fixed offset, two integer timestamps inside the
    calendar that get the same timestamp string are the same: no two
    instants are merged. *)
Theorem distinct_seconds_get_distinct_timestamps
    off d1 doc1 kvs1 e1 self1 t1 d2 doc2 kvs2 e2 self2 t2 :
  (forall u, utcoffset u = off) -> -86400 <= off <= 86400 ->
  assoc "timestamp" kvs1 = Some (VInt t1) -> convertible t1 ->
  assoc "timestamp" kvs2 = Some (VInt t2) -> convertible t2 ->
  exists c1 c2,
    convert d1 doc1 (VDict kvs1) e1 self1 = (Ok c1, self1)
    /\ convert d2 doc2 (VDict kvs2) e2 self2 = (Ok c2, self2)
    /\ (timestamp c1 = timestamp c2 -> t1 = t2).
Proof.
  intros Hoff Hb Hts1 Hc1 Hts2 Hc2.
  assert (Hbound : forall u, -86400 <= utcoffset u <= 86400)
    by (intros u; rewrite Hoff; exact Hb).
  assert (Htv : forall t, convertible t -> object_to_timeval (VInt t) = Ok (t, 0)).
  { intros t Ht. unfold object_to_timeval, in_time_t, TIME_T_MIN, TIME_T_MAX.
    unfold convertible, MIN_SECONDS, MAX_SECONDS in Ht.
    destruct (Z.leb_spec (- 2 ^ 63) t); [|lia].
    destruct (Z.leb_spec t (2 ^ 63 - 1)); [reflexivity | lia]. }
  destruct (fromtimestamp_ok utcoffset (VInt t1) t1 0 Hbound (Htv t1 Hc1) Hc1)
    as (dt1 & Hdt1 & Hcal1).
  destruct (fromtimestamp_ok utcoffset (VInt t2) t2 0 Hbound (Htv t2 Hc2) Hc2)
    as (dt2 & Hdt2 & Hcal2).
  exists (chunk_of d1 doc1 kvs1 e1 (VStr (isoformat dt1))),
         (chunk_of d2 doc2 kvs2 e2 (VStr (isoformat dt2))).
  rewrite !convert_dict.
  rewrite (extract_numeric utcoffset clock kvs1 (VInt t1) self1 Hts1 eq_refl).
  rewrite (extract_numeric utcoffset clock kvs2 (VInt t2) self2 Hts2 eq_refl).
  rewrite Hdt1, Hdt2. split; [reflexivity|]. split; [reflexivity|].
  unfold chunk_of. cbn [timestamp]. intros E. injection E as E.
  apply isoformat_inj in E;
    [|eapply valid_datetime_calendar; [eassumption | lia] ..].
  subst dt2. destruct Hcal1 as (_ & _ & _ & _ & _ & _ & Hg1 & _).
  destruct Hcal2 as (_ & _ & _ & _ & _ & _ & Hg2 & _).
  rewrite !Hoff in *. lia.
Qed.

Lemma fromtimestamp_equal_numbers t n :
  is_number t = true -> py_eq t (VInt n) = true ->
  fromtimestamp utcoffset t = fromtimestamp utcoffset (VInt n).
Proof.
  intros Hnum Heq. unfold fromtimestamp. f_equal.
  destruct t as [|b|k|x| | |]; try discriminate; cbn [py_eq] in Heq.
  - apply Z.eqb_eq in Heq. subst n. destruct b; reflexivity.
  - apply Z.eqb_eq in Heq. subst n. reflexivity.
  - unfold object_to_timeval.
    destruct x as [sg|sg| |sg m e]; try discriminate; cbn [int_eq_float] in Heq.
    + apply Z.eqb_eq in Heq. subst n. destruct sg; reflexivity.
    + unfold double_to_timeval, modf.
      destruct (Z.leb_spec 0 e) as [He|He].
      * apply Z.eqb_eq in Heq. subst n.
        replace (round_half_even (SFmul prec emax (S754_zero sg) float_1e6))
          with 0 by (destruct sg; reflexivity).
        cbn [Z.leb Z.ltb Z.compare]. destruct (in_time_t _); reflexivity.
      * apply Z.eqb_eq in Heq.
        assert (Hp : 0 < 2 ^ (- e)) by (apply Z.pow_pos_nonneg; lia).
        rewrite <- Heq, Z.quot_mul, Z.rem_mul by lia.
        replace (binary_normalize prec emax 0 e sg) with (S754_zero sg)
          by reflexivity.
        replace (round_half_even (SFmul prec emax (S754_zero sg) float_1e6))
          with 0 by (destruct sg; reflexivity).
        cbn [Z.leb Z.ltb Z.compare]. destruct (in_time_t _); reflexivity.
Qed.


Lemma replace_Z_only_last s :
  Z_only_last s = true -> replace "Z" "+00:00" s = replace_trailing_Z s.
Proof.
  induction s as [|c s IH]; [reflexivity|].
  destruct s as [|c' s'].
  - intros _. cbn [replace replace_trailing_Z].
    destruct (Ascii.eqb c "Z"); reflexivity.
  - cbn [Z_only_last]. rewrite andb_true_iff, negb_true_iff. intros [Hc Hs].
    rewrite replace_cons_other by exact Hc.
    rewrite (IH Hs). reflexivity.
Qed.

(** X16: When no [Z] stands before the last character of a string
    timestamp, the test the code makes is the one that reads a final
    [Z] as the UTC offset: the string is kept exactly when it parses
    that way, and is replaced by the clock's reading if not. *)
Theorem string_without_inner_Z_kept_iff_parses
    doc_id document kvs embedding s self :
  assoc "timestamp" kvs = Some (VStr s) ->
  Z_only_last s = true ->
  convert doc_id document (VDict kvs) embedding self
  = if parses_with_trailing_Z s
    then (Ok (chunk_of doc_id document kvs embedding (VStr s)), self)
    else (Ok (chunk_of doc_id document kvs embedding
                (VStr (isoformat (clock (clock_reads self))))),
          mk_exporter (stats self) (S (clock_reads self))).
Proof.
  intros Hts Hz.
  rewrite convert_dict, (extract_string utcoffset clock kvs s self Hts).
  rewrite (replace_Z_only_last s Hz). unfold parses_with_trailing_Z.
  destruct (is_ok (fromisoformat (replace_trailing_Z s))); reflexivity.
Qed.

(** X14: Date to seconds and back: an integer timestamp that is the number
    of seconds from the epoch to a date and time of the calendar, read
    in the local zone, is written as that date and time. *)
Theorem seconds_of_a_date_convert_to_the_date
    doc_id document kvs embedding dt t self :
  (forall u, -86400 <= utcoffset u <= 86400) ->
  valid_datetime dt = true -> microsecond dt = 0 ->
  assoc "timestamp" kvs = Some (VInt t) ->
  convertible t ->
  t + utcoffset t = timegm dt ->
  convert doc_id document (VDict kvs) embedding self
  = (Ok (chunk_of doc_id document kvs embedding (VStr (isoformat dt))), self).
Proof.
  intros Hoff Hv Hus Hts Hconv Hsec.
  assert (Htv : object_to_timeval (VInt t) = Ok (t, 0)).
  { unfold object_to_timeval, in_time_t, TIME_T_MIN, TIME_T_MAX.
    unfold convertible, MIN_SECONDS, MAX_SECONDS in Hconv.
    destruct (Z.leb_spec (- 2 ^ 63) t); [|lia].
    destruct (Z.leb_spec t (2 ^ 63 - 1)); [reflexivity | lia]. }
  destruct (fromtimestamp_ok utcoffset (VInt t) t 0 Hoff Htv Hconv)
    as (dt' & Hdt & Hcal).
  assert (Hcal' : is_calendar_time dt (t + utcoffset t) 0).
  { unfold valid_datetime, valid_date, valid_time in Hv.
    rewrite !andb_true_iff, !Z.leb_le in Hv.
    unfold is_calendar_time. rewrite Hsec, Hus. intuition lia. }
  rewrite (calendar_time_unique dt dt' _ _ Hcal' Hcal).
  rewrite convert_dict.
  rewrite (extract_numeric utcoffset clock kvs (VInt t) self Hts eq_refl).
  rewrite Hdt. reflexivity.
Qed.

End MoreTimestampFacts.

Lemma other_timestamp_is_now_witness :
  convert_to_conversation_chunk utc sample_clock (VStr "a") (VStr "text")
    (VDict [("timestamp", VNone)]) (VList []) init
  = (Ok (chunk_of (VStr "a") (VStr "text") [("timestamp", VNone)] (VList [])
           (VStr (isoformat (sample_clock (clock_reads init))))),
     mk_exporter (stats init) (S (clock_reads init))).
Proof.
  apply other_timestamp_is_now.
  intros t H. simpl in H. injection H as <-. split; reflexivity.
Defined.

Lemma exported_timestamp_is_kept_witness :
  convert_to_conversation_chunk utc sample_clock (VStr "a") (VStr "text")
    (VDict [("timestamp", VStr "2023-11-14T22:13:20.000500")]) (VList []) init
  = (Ok (chunk_of (VStr "a") (VStr "text")
           [("timestamp", VStr "2023-11-14T22:13:20.000500")] (VList [])
           (VStr (isoformat (mk_datetime 2023 11 14 22 13 20 500)))),
     init).
Proof.
  apply (exported_timestamp_is_kept utc sample_clock (VStr "a") (VStr "text")
           [("timestamp", VStr "2023-11-14T22:13:20.000500")] (VList [])
           (mk_datetime 2023 11 14 22 13 20 500) init); reflexivity.
Defined.

Lemma distinct_seconds_get_distinct_timestamps_witness :
  exists c1 c2,
    convert_to_conversation_chunk utc sample_clock (VStr "a") (VStr "text")
      (VDict [("timestamp", VInt 1700000000)]) (VList []) init = (Ok c1, init)
    /\ convert_to_conversation_chunk utc sample_clock (VStr "b") (VStr "text")
         (VDict [("timestamp", VInt 1700000001)]) (VList []) init
       = (Ok c2, init)
    /\ (timestamp c1 = timestamp c2 -> 1700000000 = 1700000001).
Proof.
  apply (distinct_seconds_get_distinct_timestamps utc sample_clock 0);
    try reflexivity; unfold convertible, MIN_SECONDS, MAX_SECONDS; lia.
Defined.

Lemma seconds_of_a_date_convert_to_the_date_witness :
  convert_to_conversation_chunk utc sample_clock (VStr "a") (VStr "text")
    (VDict [("timestamp", VInt 1700000000)]) (VList []) init
  = (Ok (chunk_of (VStr "a") (VStr "text") [("timestamp", VInt 1700000000)]
           (VList []) (VStr (isoformat (mk_datetime 2023 11 14 22 13 20 0)))),
     init).
Proof.
  apply (seconds_of_a_date_convert_to_the_date utc sample_clock
           (VStr "a") (VStr "text") [("timestamp", VInt 1700000000)] (VList [])
           (mk_datetime 2023 11 14 22 13 20 0) 1700000000 init);
    try reflexivity;
    [intros u; unfold utc; lia
    | unfold convertible, MIN_SECONDS, MAX_SECONDS; lia].
Defined.


Lemma string_without_inner_Z_kept_iff_parses_witness :
  convert_to_conversation_chunk utc sample_clock (VStr "a") (VStr "text")
    (VDict [("timestamp", VStr "2023-01-01T12:00:00Z")]) (VList []) init
  = if parses_with_trailing_Z "2023-01-01T12:00:00Z"
    then (Ok (chunk_of (VStr "a") (VStr "text")
                [("timestamp", VStr "2023-01-01T12:00:00Z")] (VList [])
                (VStr "2023-01-01T12:00:00Z")), init)
    else (Ok (chunk_of (VStr "a") (VStr "text")
                [("timestamp", VStr "2023-01-01T12:00:00Z")] (VList [])
                (VStr (isoformat (sample_clock (clock_reads init))))),
          mk_exporter (stats init) (S (clock_reads init))).
Proof.
  apply (string_without_inner_Z_kept_iff_parses utc sample_clock);
    reflexivity.
Defined.

(* ===================================================================== *)
(** * The text, the file and the exit status *)
(* ===================================================================== *)

Lemma escape_plain c : needs_escape c = false -> escape c = String c "".
Proof.
  unfold needs_escape, escape. cbv zeta.
  rewrite !orb_false_iff, N.ltb_ge, !N.eqb_neq. intros [[H32 H34] H92].
  destruct (N.eqb_spec (N_of_ascii c) 34); [lia|].
  destruct (N.eqb_spec (N_of_ascii c) 92); [lia|].
  destruct (N.eqb_spec (N_of_ascii c) 8); [lia|].
  destruct (N.eqb_spec (N_of_ascii c) 12); [lia|].
  destruct (N.eqb_spec (N_of_ascii c) 10); [lia|].
  destruct (N.eqb_spec (N_of_ascii c) 13); [lia|].
  destruct (N.eqb_spec (N_of_ascii c) 9); [lia|].
  destruct (N.ltb_spec (N_of_ascii c) 32); [lia | reflexivity].
Qed.



Section MainFacts.
Variable utcoffset : Z -> Z.
Variable clock : nat -> datetime.
Variable chroma_exists : bool.
Variable persistent_client : bool -> result unit.
Variable list_collection_names : result (list string).
Variable get_collection : string -> result collection.

Local Abbreviation run chroma_path :=
  (export_all utcoffset clock chroma_path persistent_client
     list_collection_names get_collection).
Local Abbreviation main :=
  (Script.main utcoffset clock chroma_exists persistent_client
     list_collection_names get_collection).

Lemma export_all_returns chroma_path self :
  is_ok (fst (run chroma_path self))
  = is_ok (persistent_client true) || is_ok (persistent_client false).
Proof.
  unfold export_all, bind at 1, connect, try_except, lift.
  destruct (persistent_client true) as [[]|e1];
    [|destruct (persistent_client false) as [[]|e2]].
  3: reflexivity.
  all: unfold bind at 1, list_collections, try_except, lift.
  all: destruct list_collection_names as [[|name rest]|e0]; try reflexivity.
  all: unfold bind at 1.
  all: destruct (for_each_export_collection utcoffset clock get_collection
                   (name :: rest) [] self) as (new & s1 & Hloop & _).
  all: rewrite Hloop; reflexivity.
Qed.


(** X20: A run of the script that ends with status 0 has written the
    envelope of [export_all] to the output path, left every other
    file alone, and printed a summary whose chunk count is the number
    of chunks in the file and which warns exactly when errors were
    counted. *)
Theorem main_success chroma_path output fs fs' printed :
  main chroma_path output fs = (0, fs', printed) ->
  exists e self' sm,
    run chroma_path init = (Ok e, self')
    /\ contents fs' output = Some (dumps (envelope_value self' e))
    /\ (forall p, p <> output -> contents fs' p = contents fs p)
    /\ printed = Some sm
    /\ shown_exported_chunks sm = Z.of_nat (List.length (chunks e))
    /\ shown_errors sm = errors (stats self')
    /\ warns sm = (0 <? errors (stats self'))
    /\ shown_size sm = utf8_length (dumps (envelope_value self' e)).
Proof.
  unfold Script.main.
  destruct chroma_exists; cbn [negb]; [|discriminate].
  destruct (run chroma_path init) as [[e|x] self'] eqn:Hrun; [|discriminate].
  unfold save_to_file, print_summary.
  destruct (writable fs output); [|discriminate].
  unfold write. cbn [contents]. rewrite String.eqb_refl.
  intros H. injection H as <- <-.
  exists e, self'. eexists. split; [reflexivity|].
  cbn [contents shown_exported_chunks shown_errors warns shown_size].
  rewrite String.eqb_refl. split; [reflexivity|].
  split; [intros p Hp; apply String.eqb_neq in Hp; rewrite Hp; reflexivity|].
  split; [reflexivity|].
  rewrite (export_all_counts utcoffset clock chroma_path persistent_client
             list_collection_names get_collection init e self' Hrun).
  repeat split; reflexivity.
Qed.

End MainFacts.



Lemma main_success_witness :
  exists fs' printed,
    main utc sample_clock true (fun _ => Ok tt) (Ok ["memories"; "missing"])
      sample_get_collection "/data/chroma" "export.json" empty_filesystem
    = (0, fs', printed)
    /\ exists e self' sm,
         sample_export_all init = (Ok e, self')
         /\ contents fs' "export.json" = Some (dumps (envelope_value self' e))
         /\ (forall p, p <> "export.json" ->
                       contents fs' p = contents empty_filesystem p)
         /\ printed = Some sm
         /\ shown_exported_chunks sm = Z.of_nat (List.length (chunks e))
         /\ shown_errors sm = errors (stats self')
         /\ warns sm = (0 <? errors (stats self'))
         /\ shown_size sm = utf8_length (dumps (envelope_value self' e)).
Proof.
  eexists. eexists. split; [reflexivity|].
  eapply (main_success utc sample_clock true (fun _ => Ok tt)
            (Ok ["memories"; "missing"]) sample_get_collection
            "/data/chroma" "export.json" empty_filesystem).
  reflexivity.
Defined.

Section EndToEnd.

Variable utcoffset : Z -> Z.
Variable clock : nat -> datetime.
Variable chroma_exists : bool.
Variable persistent_client : bool -> result unit.
Variable list_collection_names : result (list string).
Variable get_collection : string -> result collection.

(** X25: a collection that has ids and nothing else exports one chunk
    for each id, filled with the defaults: session [migrated], type
    [discussion], empty content and summary, repository [migrated],
    branch [main], outcome [success], difficulty [simple], empty
    lists, and the reading of the clock for timestamp. *)
Theorem bare_id_exports_the_default_chunk kvs ids i doc_id chunks self :
  assoc "ids" kvs = Some (VList ids) ->
  assoc "documents" kvs = None ->
  assoc "metadatas" kvs = None ->
  assoc "embeddings" kvs = None ->
  nth_error ids i = Some doc_id ->
  export_document utcoffset clock (VDict kvs) i chunks self
  = (Ok (chunks
         ++ [mk_chunk doc_id (VStr "migrated")
               (VStr (isoformat (clock (clock_reads self))))
               (VStr "discussion") (VStr "") (VStr "")
               (mk_chunk_metadata (VStr "migrated") (VStr "main") (VList [])
                  (VList []) (VStr "success") (VList []) (VStr "simple") [])
               (VList []) (VList [])])%list,
     mk_exporter (incr_exported_chunks (stats self)) (S (clock_reads self))).
Proof.
  intros Hids Hdocs Hmds Hembs Hnth.
  assert (Hlt : (i <? List.length ids)%nat = true).
  { apply Nat.ltb_lt. apply nth_error_Some. congruence. }
  rewrite export_document_unfold, process_document_unfold.
  unfold entry, get, getitem.
  rewrite Hids, Hdocs, Hmds, Hembs.
  cbn [rbind len]. rewrite Hlt.
  cbn [rbind getindex List.length Nat.ltb Nat.leb]. rewrite Hnth.
  rewrite convert_dict.
  rewrite (extract_other utcoffset clock [] self) by discriminate.
  reflexivity.
Qed.


End EndToEnd.


Lemma bare_id_exports_the_default_chunk_witness :
  export_document utc sample_clock (VDict [("ids", VList [VStr "a"; VStr "b"])])
    1 [] init
  = (Ok ([]
         ++ [mk_chunk (VStr "b") (VStr "migrated")
               (VStr (isoformat (sample_clock (clock_reads init))))
               (VStr "discussion") (VStr "") (VStr "")
               (mk_chunk_metadata (VStr "migrated") (VStr "main") (VList [])
                  (VList []) (VStr "success") (VList []) (VStr "simple") [])
               (VList []) (VList [])])%list,
     mk_exporter (incr_exported_chunks (stats init)) (S (clock_reads init))).
Proof.
  apply (bare_id_exports_the_default_chunk utc sample_clock
           [("ids", VList [VStr "a"; VStr "b"])] [VStr "a"; VStr "b"] 1
           (VStr "b") [] init); reflexivity.
Defined.

